(** * CVSS 4.0 scoring engine (frontend/src/utils/cvss4.js): a shallow embedding

    The JavaScript module is embedded function by function.

    - A JavaScript string is a [string]; every [ascii] stands for one code
      unit, so the strings covered are those whose code units are below 256.
    - A JavaScript number is a primitive binary64 [float]; the arithmetic of
      the engine is the arithmetic of [PrimFloat], bit for bit.
    - [undefined] and [null] are [None].
    - A metrics object is a finite map [gmap string string] from metric
      names to metric values; only own string-valued properties are
      modelled. *)

From Stdlib Require Import ZArith List Ascii Bool Lia.
From Stdlib Require String.
From Stdlib Require Import Uint63 PrimFloat FloatOps FloatAxioms SpecFloat.
From Stdlib Require DecimalString.
From stdpp Require Import gmap strings list.

Set Warnings "-inexact-float".
#[local] Open Scope string_scope.
#[local] Open Scope list_scope.
#[local] Open Scope nat_scope.

(** ** JavaScript strings *)

Module Js.

(** [s.startsWith(p)] *)
Definition startsWith (s p : string) : bool := String.prefix p s.

(** [s.slice(n)] for [0 <= n] *)
Fixpoint slice_from (n : nat) (s : string) : string :=
  match n, s with
  | O, _ => s
  | S n', String _ s' => slice_from n' s'
  | S _, EmptyString => EmptyString
  end.

(** [s.slice(0, n)] for [0 <= n] *)
Fixpoint slice_to (n : nat) (s : string) : string :=
  match n, s with
  | O, _ => EmptyString
  | S n', String c s' => String c (slice_to n' s')
  | S _, EmptyString => EmptyString
  end.

(** [s.indexOf(pat)]; [None] is the -1 of JavaScript *)
Fixpoint indexOf (s pat : string) : option nat :=
  if String.prefix pat s then Some 0
  else match s with
       | EmptyString => None
       | String _ s' => S <$> indexOf s' pat
       end.

(** [s.replace(pat, rep)] with a string pattern: the first occurrence only.
    ([rep] holds no [$] pattern in this program.) *)
Definition replace (s pat rep : string) : string :=
  match indexOf s pat with
  | None => s
  | Some i => slice_to i s +:+ rep +:+ slice_from (i + String.length pat) s
  end.

(** [s.split(sep)] for a separator of one code unit *)
Fixpoint split (sep : ascii) (s : string) : list string :=
  match s with
  | EmptyString => [EmptyString]
  | String c s' =>
      if Ascii.eqb c sep then EmptyString :: split sep s'
      else match split sep s' with
           | h :: t => String c h :: t
           | [] => [String c EmptyString]
           end
  end.

(** [parts.join(sep)] *)
Fixpoint join (sep : string) (parts : list string) : string :=
  match parts with
  | [] => EmptyString
  | [p] => p
  | p :: rest => p +:+ sep +:+ join sep rest
  end.

(** White space and line terminators of ECMAScript that fit in one code
    unit below 256: TAB, LF, VT, FF, CR, SP and NBSP. *)
Definition isWhiteSpace (c : ascii) : bool :=
  match nat_of_ascii c with
  | 9 | 10 | 11 | 12 | 13 | 32 | 160 => true
  | _ => false
  end.

Fixpoint trimStart (s : string) : string :=
  match s with
  | EmptyString => EmptyString
  | String c s' => if isWhiteSpace c then trimStart s' else s
  end.

Definition trimEnd (s : string) : string :=
  String.rev (trimStart (String.rev s)).

(** [s.trim()] *)
Definition trim (s : string) : string := trimEnd (trimStart s).

(** Truthiness of a string-or-undefined value: [undefined] and the empty
    string are falsy. *)
Definition truthy (v : option string) : bool :=
  match v with
  | None | Some EmptyString => false
  | Some _ => true
  end.

(** [a || b] on string-or-undefined values *)
Definition or (a b : option string) : option string :=
  if truthy a then a else b.

(** A value spliced into a template literal *)
Definition template (v : option string) : string :=
  match v with
  | Some s => s
  | None => "undefined"
  end.

(** Property lookup in an object literal written as a list of entries *)
Fixpoint prop {A : Type} (o : list (string * A)) (k : string) : option A :=
  match o with
  | [] => None
  | (k', v) :: o' => if String.eqb k' k then Some v else prop o' k
  end.

(** [String(n)] for a natural number *)
Definition Number_toString (n : nat) : string :=
  DecimalString.NilEmpty.string_of_uint (Nat.to_uint n).

End Js.

(** ** Constant tables *)

(** [CVSS4_METRICS]: for each base metric the [value] of each of its
    [options], in the order of the source (labels and descriptions are
    user-interface text). *)
Definition CVSS4_METRICS : list (string * list string) :=
  [ ("AV", ["N"; "A"; "L"; "P"]);
    ("AC", ["L"; "H"]);
    ("AT", ["N"; "P"]);
    ("PR", ["N"; "L"; "H"]);
    ("UI", ["N"; "P"; "A"]);
    ("VC", ["H"; "L"; "N"]);
    ("VI", ["H"; "L"; "N"]);
    ("VA", ["H"; "L"; "N"]);
    ("SC", ["H"; "L"; "N"]);
    ("SI", ["H"; "L"; "N"]);
    ("SA", ["H"; "L"; "N"]) ].

Definition CVSS4_DEFAULTS : list (string * string) :=
  [ ("AV", "N"); ("AC", "L"); ("AT", "N"); ("PR", "N"); ("UI", "N");
    ("VC", "N"); ("VI", "N"); ("VA", "N");
    ("SC", "N"); ("SI", "N"); ("SA", "N") ].

Definition BASE_METRIC_ORDER : list string :=
  ["AV"; "AC"; "AT"; "PR"; "UI"; "VC"; "VI"; "VA"; "SC"; "SI"; "SA"].

(** ** Vector serializer and parser *)

(** [buildVector(metrics)] *)
Definition buildVector (metrics : gmap string string) : string :=
  let parts :=
    map (fun k => k +:+ ":" +:+
                  Js.template (Js.or (metrics !! k) (Js.prop CVSS4_DEFAULTS k)))
        BASE_METRIC_ORDER in
  "CVSS:4.0/" +:+ Js.join "/" parts.

(** The result object [{ metrics, isValid, error }] of [parseVector] *)
Record ParseResult := mkParseResult {
  metrics : option (gmap string string);
  isValid : bool;
  error : option string
}.

(** The body of the token loop: [const [k, v] = part.split(':');
    if (k && v) metrics[k] = v;] *)
Definition parseToken (metrics : gmap string string) (part : string)
  : gmap string string :=
  match Js.split ":" part with
  | k :: v :: _ =>
      if Js.truthy (Some k) && Js.truthy (Some v) then <[k := v]> metrics
      else metrics
  | _ => metrics
  end.

(** The validation loop over [BASE_METRIC_ORDER] *)
Fixpoint validateBase (keys : list string) (metrics : gmap string string)
  : ParseResult :=
  match keys with
  | [] => mkParseResult (Some metrics) true None
  | key :: rest =>
      match metrics !! key with
      | None | Some EmptyString =>
          mkParseResult (Some metrics) false
            (Some ("Missing metric: " +:+ key))
      | Some v =>
          let validVals := default [] (Js.prop CVSS4_METRICS key) in
          if negb (Nat.eqb (length validVals) 0) &&
             negb (existsb (String.eqb v) validVals)
          then mkParseResult (Some metrics) false
                 (Some ("Invalid value for " +:+ key +:+ ": " +:+ v))
          else validateBase rest metrics
      end
  end.

(** [parseVector(vectorString)] for a string argument *)
Definition parseVector (vectorString : string) : ParseResult :=
  if String.eqb vectorString "" then
    mkParseResult None false (Some "Empty vector")
  else
    let trimmed := Js.trim vectorString in
    if negb (Js.startsWith trimmed "CVSS:4.0/") then
      mkParseResult None false (Some "Must start with CVSS:4.0/")
    else
      let parts := Js.split "/" (Js.replace trimmed "CVSS:4.0/" "") in
      let metrics := fold_left parseToken parts ∅ in
      validateBase BASE_METRIC_ORDER metrics.


(** ** JavaScript numbers *)

Module Num.

#[local] Open Scope float_scope.

(** [ToNumber] of a number-or-undefined value: [undefined] is [NaN]. *)
Definition toNumber (v : option float) : float :=
  match v with
  | Some x => x
  | None => nan
  end.

Definition isNaN (x : float) : bool := is_nan x.

Definition isFinite (x : float) : bool := negb (is_nan x || is_infinity x).

(** Truthiness of a number: [NaN], [+0] and [-0] are falsy. *)
Definition truthy (x : float) : bool := negb (is_nan x || is_zero x).

(** [x >= y] and [x > y] *)
Definition ge (x y : float) : bool := y <=? x.
Definition gt (x y : float) : bool := y <? x.

Definition isNegZero (x : float) : bool := is_zero x && get_sign x.

(** [Math.max(a, b)]: [NaN] if either is, and [+0] is above [-0]. *)
Definition Math_max (a b : float) : float :=
  if is_nan a || is_nan b then nan
  else if a <? b then b
  else if b <? a then a
  else if isNegZero a then b else a.

(** [Math.min(a, b)]: [NaN] if either is, and [-0] is below [+0]. *)
Definition Math_min (a b : float) : float :=
  if is_nan a || is_nan b then nan
  else if a <? b then a
  else if b <? a then b
  else if isNegZero a then a else b.

(** [Math.round(x)]: the integer nearest to [x], and of two equally near
    the one towards plus infinity. A finite non-zero [x] is taken apart
    into its 53-bit integer mantissa [mant] and its exponent, so that
    [|x| = mant * 2^-k] exactly, and the rounding is done on integers:
    - [k <= 0]: [x] is an integer already;
    - [k > 54]: [|x| < 1/4], the result is a zero of the sign of [x];
    - otherwise [|x|] rounds half up to [q = ((mant >> (k-1)) + 1) >> 1],
      and a negative [x] that lies exactly half way between two integers
      rounds to the smaller magnitude [q - 1]. *)
Definition Math_round (x : float) : float :=
  if is_nan x || is_infinity x || is_zero x then x
  else
    let '(m, e) := frshiftexp x in
    let mant := normfr_mantissa m in
    let neg := get_sign x in
    let signed (q : int) : float :=
      let r := of_uint63 q in if neg then - r else r in
    (* |x| = mant * 2^(e - shift - 53), and shift + 53 = 2154 *)
    if (2154 <=? e)%uint63 then x
    else
      let k := (2154 - e)%uint63 in
      if (54 <? k)%uint63 then signed 0%uint63
      else
        let q := (((mant >> (k - 1)) + 1) >> 1)%uint63 in
        let half := (1 << (k - 1))%uint63 in
        let tie := ((mant land ((1 << k) - 1)) =? half)%uint63 in
        signed (if neg && tie then q - 1 else q)%uint63.

End Num.

(** ** The MacroVector lookup table *)

#[local] Open Scope float_scope.

Definition LOOKUP_TABLE : list (string * float) :=
  [
    ("000000", 10); ("000001", 9.9); ("000010", 9.8); ("000011", 9.5); ("000020", 9.5);
    ("000021", 9.2); ("000100", 10); ("000101", 9.6); ("000110", 9.3); ("000111", 8.7);
    ("000120", 9.1); ("000121", 8.1); ("000200", 9.3); ("000201", 9); ("000210", 8.9);
    ("000211", 8); ("000220", 8.1); ("000221", 6.8); ("001000", 9.8); ("001001", 9.5);
    ("001010", 9.5); ("001011", 9.2); ("001020", 9); ("001021", 8.4); ("001100", 9.3);
    ("001101", 9.2); ("001110", 8.9); ("001111", 8.1); ("001120", 8.1); ("001121", 6.5);
    ("001200", 8.8); ("001201", 8); ("001210", 7.8); ("001211", 7); ("001220", 6.9);
    ("001221", 4.8); ("002001", 9.2); ("002011", 8.2); ("002021", 7.2); ("002101", 7.9);
    ("002111", 6.9); ("002121", 5); ("002201", 6.9); ("002211", 5.5); ("002221", 2.7);
    ("010000", 9.9); ("010001", 9.7); ("010010", 9.5); ("010011", 9.2); ("010020", 9.2);
    ("010021", 8.5); ("010100", 9.5); ("010101", 9.1); ("010110", 9); ("010111", 8.3);
    ("010120", 8.4); ("010121", 7.1); ("010200", 9.2); ("010201", 8.1); ("010210", 8.2);
    ("010211", 7.1); ("010220", 7.2); ("010221", 5.3); ("011000", 9.5); ("011001", 9.3);
    ("011010", 9.2); ("011011", 8.5); ("011020", 8.5); ("011021", 7.3); ("011100", 9.2);
    ("011101", 8.2); ("011110", 8); ("011111", 7.2); ("011120", 7); ("011121", 5.9);
    ("011200", 8.4); ("011201", 7); ("011210", 7.1); ("011211", 5.2); ("011220", 5);
    ("011221", 3); ("012001", 8.6); ("012011", 7.5); ("012021", 5.2); ("012101", 7.1);
    ("012111", 5.2); ("012121", 2.9); ("012201", 6.3); ("012211", 2.9); ("012221", 1.7);
    ("100000", 9.8); ("100001", 9.5); ("100010", 9.4); ("100011", 8.7); ("100020", 9.1);
    ("100021", 8.1); ("100100", 9.4); ("100101", 8.9); ("100110", 8.6); ("100111", 7.4);
    ("100120", 7.7); ("100121", 6.4); ("100200", 8.7); ("100201", 7.5); ("100210", 7.4);
    ("100211", 6.3); ("100220", 6.3); ("100221", 4.9); ("101000", 9.4); ("101001", 8.9);
    ("101010", 8.8); ("101011", 7.7); ("101020", 7.6); ("101021", 6.7); ("101100", 8.6);
    ("101101", 7.6); ("101110", 7.4); ("101111", 5.8); ("101120", 5.9); ("101121", 5);
    ("101200", 7.2); ("101201", 5.7); ("101210", 5.7); ("101211", 5.2); ("101220", 5.2);
    ("101221", 2.5); ("102001", 8.3); ("102011", 7); ("102021", 5.4); ("102101", 6.5);
    ("102111", 5.8); ("102121", 2.6); ("102201", 5.3); ("102211", 2.1); ("102221", 1.3);
    ("110000", 9.5); ("110001", 9); ("110010", 8.8); ("110011", 7.6); ("110020", 7.6);
    ("110021", 7); ("110100", 9); ("110101", 7.7); ("110110", 7.5); ("110111", 6.2);
    ("110120", 6.1); ("110121", 5.3); ("110200", 7.7); ("110201", 6.6); ("110210", 6.8);
    ("110211", 5.9); ("110220", 5.2); ("110221", 3); ("111000", 8.9); ("111001", 7.8);
    ("111010", 7.6); ("111011", 6.7); ("111020", 6.2); ("111021", 5.8); ("111100", 7.4);
    ("111101", 5.9); ("111110", 5.7); ("111111", 5.7); ("111120", 4.7); ("111121", 2.3);
    ("111200", 6.1); ("111201", 5.2); ("111210", 5.7); ("111211", 2.9); ("111220", 2.4);
    ("111221", 1.6); ("112001", 7.1); ("112011", 5.9); ("112021", 3); ("112101", 5.8);
    ("112111", 2.6); ("112121", 1.5); ("112201", 2.3); ("112211", 1.3); ("112221", 0.6);
    ("200000", 9.3); ("200001", 8.7); ("200010", 8.6); ("200011", 7.2); ("200020", 7.5);
    ("200021", 5.8); ("200100", 8.6); ("200101", 7.4); ("200110", 7.4); ("200111", 6.1);
    ("200120", 5.6); ("200121", 3.4); ("200200", 7); ("200201", 5.4); ("200210", 5.2);
    ("200211", 4); ("200220", 4); ("200221", 2.2); ("201000", 8.5); ("201001", 7.5);
    ("201010", 7.4); ("201011", 5.5); ("201020", 6.2); ("201021", 5.1); ("201100", 7.2);
    ("201101", 5.7); ("201110", 5.5); ("201111", 4.1); ("201120", 4.6); ("201121", 1.9);
    ("201200", 5.3); ("201201", 3.6); ("201210", 3.4); ("201211", 1.9); ("201220", 1.9);
    ("201221", 0.8); ("202001", 6.4); ("202011", 5.1); ("202021", 2); ("202101", 4.7);
    ("202111", 2.1); ("202121", 1.1); ("202201", 2.4); ("202211", 0.9); ("202221", 0.4);
    ("210000", 8.8); ("210001", 7.5); ("210010", 7.3); ("210011", 5.3); ("210020", 6);
    ("210021", 5); ("210100", 7.3); ("210101", 5.5); ("210110", 5.9); ("210111", 4);
    ("210120", 4.1); ("210121", 2); ("210200", 5.4); ("210201", 4.3); ("210210", 4.5);
    ("210211", 2.2); ("210220", 2); ("210221", 1.1); ("211000", 7.5); ("211001", 5.5);
    ("211010", 5.8); ("211011", 4.5); ("211020", 4); ("211021", 2.1); ("211100", 6.1);
    ("211101", 5.1); ("211110", 4.8); ("211111", 1.8); ("211120", 2); ("211121", 0.9);
    ("211200", 4.6); ("211201", 1.8); ("211210", 1.7); ("211211", 0.7); ("211220", 0.8);
    ("211221", 0.2); ("212001", 5.3); ("212011", 2.4); ("212021", 1.4); ("212101", 2.4);
    ("212111", 1.2); ("212121", 0.5); ("212201", 1); ("212211", 0.3); ("212221", 0.1)
  ].

(** Metric level values (severity ordering, lower is more severe) *)
Definition METRIC_LEVELS : list (string * list (string * float)) :=
  [ ("AV", [("N", 0.0); ("A", 0.1); ("L", 0.2); ("P", 0.3)]);
    ("PR", [("N", 0.0); ("L", 0.1); ("H", 0.2)]);
    ("UI", [("N", 0.0); ("P", 0.1); ("A", 0.2)]);
    ("AC", [("L", 0.0); ("H", 0.1)]);
    ("AT", [("N", 0.0); ("P", 0.1)]);
    ("VC", [("H", 0.0); ("L", 0.1); ("N", 0.2)]);
    ("VI", [("H", 0.0); ("L", 0.1); ("N", 0.2)]);
    ("VA", [("H", 0.0); ("L", 0.1); ("N", 0.2)]);
    ("SC", [("H", 0.1); ("L", 0.2); ("N", 0.3)]);
    ("SI", [("S", 0.0); ("H", 0.1); ("L", 0.2); ("N", 0.3)]);
    ("SA", [("S", 0.0); ("H", 0.1); ("L", 0.2); ("N", 0.3)]);
    ("CR", [("H", 0.0); ("M", 0.1); ("L", 0.2)]);
    ("IR", [("H", 0.0); ("M", 0.1); ("L", 0.2)]);
    ("AR", [("H", 0.0); ("M", 0.1); ("L", 0.2)]);
    ("E",  [("U", 0.2); ("P", 0.1); ("A", 0.0)]) ].

#[local] Close Scope float_scope.

(** Highest-severity vectors per EQ level. [MAX_COMPOSED.eq1[eq1]] and its
    siblings are total here: outside the digits that [macroVector] produces
    the source reads [undefined], which no call reaches; [eq3] is read
    through [?.] and [?? []] in the source and is the empty list there. *)
Definition MAX_COMPOSED_eq1 (eq1 : nat) : list string :=
  match eq1 with
  | 0 => ["AV:N/PR:N/UI:N/"]
  | 1 => ["AV:A/PR:N/UI:N/"; "AV:N/PR:L/UI:N/"; "AV:N/PR:N/UI:P/"]
  | 2 => ["AV:P/PR:N/UI:N/"; "AV:A/PR:L/UI:P/"]
  | _ => []
  end.

Definition MAX_COMPOSED_eq2 (eq2 : nat) : list string :=
  match eq2 with
  | 0 => ["AC:L/AT:N/"]
  | 1 => ["AC:H/AT:N/"; "AC:L/AT:P/"]
  | _ => []
  end.

Definition MAX_COMPOSED_eq3 (eq3 eq6 : nat) : option (list string) :=
  match eq3, eq6 with
  | 0, 0 => Some ["VC:H/VI:H/VA:H/CR:H/IR:H/AR:H/"]
  | 0, 1 => Some ["VC:H/VI:H/VA:L/CR:M/IR:M/AR:H/";
                  "VC:H/VI:H/VA:H/CR:M/IR:M/AR:M/"]
  | 1, 0 => Some ["VC:L/VI:H/VA:H/CR:H/IR:H/AR:H/";
                  "VC:H/VI:L/VA:H/CR:H/IR:H/AR:H/"]
  | 1, 1 => Some ["VC:L/VI:H/VA:L/CR:H/IR:M/AR:H/";
                  "VC:L/VI:H/VA:H/CR:H/IR:M/AR:M/";
                  "VC:H/VI:L/VA:H/CR:M/IR:H/AR:M/";
                  "VC:H/VI:L/VA:L/CR:M/IR:H/AR:H/";
                  "VC:L/VI:L/VA:H/CR:H/IR:H/AR:M/"]
  | 2, 1 => Some ["VC:L/VI:L/VA:L/CR:H/IR:H/AR:H/"]
  | _, _ => None
  end.

Definition MAX_COMPOSED_eq4 (eq4 : nat) : list string :=
  match eq4 with
  | 0 => ["SC:H/SI:S/SA:S/"]
  | 1 => ["SC:H/SI:H/SA:H/"]
  | 2 => ["SC:L/SI:L/SA:L/"]
  | _ => []
  end.

Definition MAX_COMPOSED_eq5 (eq5 : nat) : list string :=
  match eq5 with
  | 0 => ["E:A/"]
  | 1 => ["E:P/"]
  | 2 => ["E:U/"]
  | _ => []
  end.

(** Max severity depths per EQ level; [None] is [undefined]. *)
Definition MAX_SEVERITY_eq1 (eq1 : nat) : option float :=
  match eq1 with
  | 0 => Some 1 | 1 => Some 4 | 2 => Some 5 | _ => None
  end%float.

Definition MAX_SEVERITY_eq2 (eq2 : nat) : option float :=
  match eq2 with
  | 0 => Some 1 | 1 => Some 2 | _ => None
  end%float.

Definition MAX_SEVERITY_eq3eq6 (eq3 eq6 : nat) : option float :=
  match eq3, eq6 with
  | 0, 0 => Some 7 | 0, 1 => Some 6
  | 1, 0 => Some 8 | 1, 1 => Some 8
  | 2, 1 => Some 10
  | _, _ => None
  end%float.

Definition MAX_SEVERITY_eq4 (eq4 : nat) : option float :=
  match eq4 with
  | 0 => Some 6 | 1 => Some 5 | 2 => Some 4 | _ => None
  end%float.

(** ** Internal helpers *)

Definition roundHalfUp (value : float) : float :=
  let EPSILON := 1e-6%float (* Math.pow(10, -6) *) in
  (Num.Math_round ((value + EPSILON) * 10) / 10)%float.

(** [metrics[k] !== undefined && metrics[k] !== 'X'] *)
Definition definedNotX (v : option string) : bool :=
  match v with
  | Some x => negb (String.eqb x "X")
  | None => false
  end.

(** [effectiveValue(metrics, metric)] *)
Definition effectiveValue (metrics : gmap string string) (metric : string)
  : string :=
  let worstCase := [("E", "A"); ("CR", "H"); ("IR", "H"); ("AR", "H")] in
  let modified := "M" +:+ metric in
  if definedNotX (metrics !! modified) then Js.template (metrics !! modified)
  else
    let val := metrics !! metric in
    if negb (definedNotX val) then
      if Js.truthy (Js.prop worstCase metric)
      then Js.template (Js.prop worstCase metric)
      else Js.template (Js.or (Js.prop CVSS4_DEFAULTS metric) (Some "N"))
    else Js.template val.

(** The template literal [`${eq1}${eq2}${eq3}${eq4}${eq5}${eq6}`] *)
Definition macroKey (eq1 eq2 eq3 eq4 eq5 eq6 : nat) : string :=
  Js.Number_toString eq1 +:+ Js.Number_toString eq2 +:+
  Js.Number_toString eq3 +:+ Js.Number_toString eq4 +:+
  Js.Number_toString eq5 +:+ Js.Number_toString eq6.

(** The six digits [eq1 .. eq6] that [macroVector] computes *)
Definition macroDigits (metrics : gmap string string)
  : nat * nat * nat * nat * nat * nat :=
  let AV := effectiveValue metrics "AV" in
  let PR := effectiveValue metrics "PR" in
  let UI := effectiveValue metrics "UI" in
  let AC := effectiveValue metrics "AC" in
  let AT := effectiveValue metrics "AT" in
  let VC := effectiveValue metrics "VC" in
  let VI := effectiveValue metrics "VI" in
  let VA := effectiveValue metrics "VA" in
  let SC := effectiveValue metrics "SC" in
  let SI := effectiveValue metrics "SI" in
  let SA := effectiveValue metrics "SA" in
  let E := effectiveValue metrics "E" in
  let CR := effectiveValue metrics "CR" in
  let IR := effectiveValue metrics "IR" in
  let AR := effectiveValue metrics "AR" in
  let MSI := Js.template (Js.or (metrics !! "MSI") (Some "X")) in
  let MSA := Js.template (Js.or (metrics !! "MSA") (Some "X")) in
  let eqs (a b : string) := String.eqb a b in
  let eq1 :=
    if eqs AV "N" && eqs PR "N" && eqs UI "N" then 0
    else if (eqs AV "N" || eqs PR "N" || eqs UI "N") &&
            negb (eqs AV "N" && eqs PR "N" && eqs UI "N") &&
            negb (eqs AV "P") then 1
    else 2 in
  let eq2 := if eqs AC "L" && eqs AT "N" then 0 else 1 in
  let eq3 :=
    if eqs VC "H" && eqs VI "H" then 0
    else if eqs VC "H" || eqs VI "H" || eqs VA "H" then 1
    else 2 in
  let eq4 :=
    if eqs MSI "S" || eqs MSA "S" then 0
    else if eqs SC "H" || eqs SI "H" || eqs SA "H" then 1
    else 2 in
  let eq5 :=
    if eqs E "A" then 0
    else if eqs E "P" then 1
    else 2 in
  let eq6 :=
    if (eqs CR "H" && eqs VC "H") || (eqs IR "H" && eqs VI "H") ||
       (eqs AR "H" && eqs VA "H") then 0 else 1 in
  (eq1, eq2, eq3, eq4, eq5, eq6).

(** [macroVector(metrics)] *)
Definition macroVector (metrics : gmap string string) : string :=
  let '(eq1, eq2, eq3, eq4, eq5, eq6) := macroDigits metrics in
  macroKey eq1 eq2 eq3 eq4 eq5 eq6.

(** [extractFromStr(metric, str)] *)
Definition extractFromStr (metric str : string) : option string :=
  match Js.indexOf str (metric +:+ ":") with
  | None => None
  | Some idx =>
      let rest := Js.slice_from (idx + String.length metric + 1) str in
      match Js.indexOf rest "/" with
      | Some slashIdx => Some (Js.slice_to slashIdx rest)
      | None => Some rest
      end
  end.

(** [METRIC_LEVELS[metric][v]] as an operand of a subtraction *)
Definition levelOf (levels : list (string * float)) (v : string) : float :=
  Num.toNumber (Js.prop levels v).

(** [severityDistances(metrics, maxVectorStr)]: the entries of the object
    [distances], in the order in which they are written. *)
Definition severityDistances (metrics : gmap string string)
    (maxVectorStr : string) : list (string * float) :=
  omap (fun '(metric, levels) =>
          let eff := effectiveValue metrics metric in
          match extractFromStr metric maxVectorStr with
          | None => None
          | Some maxVal =>
              Some (metric, (levelOf levels eff - levelOf levels maxVal)%float)
          end)
       METRIC_LEVELS.

(** ** Core scoring function *)

(** [mv.split('').map(Number)]: one entry per code unit, [None] where the
    code unit is no decimal digit. *)
Definition digitsOf (mv : string) : list (option nat) :=
  map Ascii.is_nat (String.list_ascii_of_string mv).

(** The first result of [f] along a list: a [for .. of] loop that keeps the
    value of the first iteration that succeeds and breaks. *)
Fixpoint firstSome {A B : Type} (f : A -> option B) (l : list A) : option B :=
  match l with
  | [] => None
  | x :: l' => match f x with
               | Some y => Some y
               | None => firstSome f l'
               end
  end.

(** All combinations [a + b + c + d + e] of the five lists, in the order of
    the nested loops that push them. *)
Definition composeMaxVectors (la lb lc ld le : list string) : list string :=
  flat_map (fun a =>
  flat_map (fun b =>
  flat_map (fun c =>
  flat_map (fun d =>
  map (fun e => (((a +:+ b) +:+ c) +:+ d) +:+ e) le) ld) lc) lb) la.

(** The scoring code reads the constant [LOOKUP_TABLE] and nothing else of
    the table; it is written here over an arbitrary [table], and
    [calculateScore] is its instance at [LOOKUP_TABLE]. *)
Section Scoring.

Variable table : list (string * float).

(** [LOOKUP_TABLE[key]] *)
Definition lookupScore (key : string) : option float :=
  Js.prop table key.

(** The neighbour of the coupled digits EQ3 and EQ6 (the [let
    score_eq3eq6_next] and the [if] chain that assigns it) *)
Definition score_eq3eq6_next (eq1 eq2 eq3 eq4 eq5 eq6 : nat) : option float :=
  if (eq3 =? 1) && (eq6 =? 1) then
    lookupScore (macroKey eq1 eq2 (eq3 + 1) eq4 eq5 eq6)
  else if (eq3 =? 0) && (eq6 =? 1) then
    lookupScore (macroKey eq1 eq2 (eq3 + 1) eq4 eq5 eq6)
  else if (eq3 =? 1) && (eq6 =? 0) then
    lookupScore (macroKey eq1 eq2 eq3 eq4 eq5 (eq6 + 1))
  else if (eq3 =? 0) && (eq6 =? 0) then
    let left := lookupScore (macroKey eq1 eq2 eq3 eq4 eq5 (eq6 + 1)) in
    let right := lookupScore (macroKey eq1 eq2 (eq3 + 1) eq4 eq5 eq6) in
    let m := Num.Math_max (default neg_infinity left)
                          (default neg_infinity right) in
    if negb (Num.isFinite m) then None else Some m
  else
    lookupScore (macroKey eq1 eq2 (eq3 + 1) eq4 eq5 (eq6 + 1)).

(** The interpolation that follows the search for [distances] *)
Definition interpolate (value : float) (eq1 eq2 eq3 eq4 eq5 eq6 : nat)
    (distances : list (string * float)) : float :=
  let STEP := 0.1%float in
  let score_eq1_next := lookupScore (macroKey (eq1 + 1) eq2 eq3 eq4 eq5 eq6) in
  let score_eq2_next := lookupScore (macroKey eq1 (eq2 + 1) eq3 eq4 eq5 eq6) in
  let score_eq4_next := lookupScore (macroKey eq1 eq2 eq3 (eq4 + 1) eq5 eq6) in
  let score_eq5_next := lookupScore (macroKey eq1 eq2 eq3 eq4 (eq5 + 1) eq6) in
  let score_eq3eq6_next := score_eq3eq6_next eq1 eq2 eq3 eq4 eq5 eq6 in
  let dist (k : string) : float := default 0%float (Js.prop distances k) in
  let d_eq1 := (dist "AV" + dist "PR" + dist "UI")%float in
  let d_eq2 := (dist "AC" + dist "AT")%float in
  let d_eq3eq6 := (dist "VC" + dist "VI" + dist "VA" +
                   dist "CR" + dist "IR" + dist "AR")%float in
  let d_eq4 := (dist "SC" + dist "SI" + dist "SA")%float in
  let avail_eq1 := (value - Num.toNumber score_eq1_next)%float in
  let avail_eq2 := (value - Num.toNumber score_eq2_next)%float in
  let avail_eq3eq6 := (value - Num.toNumber score_eq3eq6_next)%float in
  let avail_eq4 := (value - Num.toNumber score_eq4_next)%float in
  let avail_eq5 := (value - Num.toNumber score_eq5_next)%float in
  let maxSev_eq1 := (Num.toNumber (MAX_SEVERITY_eq1 eq1) * STEP)%float in
  let maxSev_eq2 := (Num.toNumber (MAX_SEVERITY_eq2 eq2) * STEP)%float in
  let maxSev_eq3eq6 :=
    (Num.toNumber (MAX_SEVERITY_eq3eq6 eq3 eq6) * STEP)%float in
  let maxSev_eq4 := (Num.toNumber (MAX_SEVERITY_eq4 eq4) * STEP)%float in
  let n := 0%float in
  let '(n, norm_eq1) :=
    if negb (Num.isNaN avail_eq1)
    then ((n + 1)%float, (avail_eq1 * (d_eq1 / maxSev_eq1))%float)
    else (n, 0%float) in
  let '(n, norm_eq2) :=
    if negb (Num.isNaN avail_eq2)
    then ((n + 1)%float, (avail_eq2 * (d_eq2 / maxSev_eq2))%float)
    else (n, 0%float) in
  let '(n, norm_eq3eq6) :=
    if negb (Num.isNaN avail_eq3eq6) && Num.truthy maxSev_eq3eq6
    then ((n + 1)%float, (avail_eq3eq6 * (d_eq3eq6 / maxSev_eq3eq6))%float)
    else (n, 0%float) in
  let '(n, norm_eq4) :=
    if negb (Num.isNaN avail_eq4)
    then ((n + 1)%float, (avail_eq4 * (d_eq4 / maxSev_eq4))%float)
    else (n, 0%float) in
  let '(n, norm_eq5) :=
    if negb (Num.isNaN avail_eq5)
    then ((n + 1)%float, 0%float)
    else (n, 0%float) in
  let meanDistance :=
    if (n =? 0)%float then 0%float
    else ((norm_eq1 + norm_eq2 + norm_eq3eq6 + norm_eq4 + norm_eq5) / n)%float in
  roundHalfUp (Num.Math_max 0 (Num.Math_min 10 (value - meanDistance)%float)).

(** The body of [calculateScore(metrics)]; [None] is [null]. The six digits
    are read back from the MacroVector string as the source does; a string
    that does not hold six decimal digits gives [None] here, and
    [macroVector] returns no such string. *)
Definition calculateScoreIn (metrics : gmap string string) : option float :=
  let impactMetrics := ["VC"; "VI"; "VA"; "SC"; "SI"; "SA"] in
  if forallb (fun m => String.eqb (effectiveValue metrics m) "N") impactMetrics
  then Some 0%float
  else
    let mv := macroVector metrics in
    match lookupScore mv with
    | None => None
    | Some value =>
        match digitsOf mv with
        | [Some eq1; Some eq2; Some eq3; Some eq4; Some eq5; Some eq6] =>
            let maxVectors :=
              composeMaxVectors
                (MAX_COMPOSED_eq1 eq1)
                (MAX_COMPOSED_eq2 eq2)
                (default [] (MAX_COMPOSED_eq3 eq3 eq6))
                (MAX_COMPOSED_eq4 eq4)
                (MAX_COMPOSED_eq5 eq5) in
            let distances :=
              firstSome
                (fun mv' =>
                   let d := severityDistances metrics mv' in
                   if forallb (fun kv => Num.ge (snd kv) 0) d
                   then Some d else None)
                maxVectors in
            match distances with
            | None => Some value
            | Some distances =>
                Some (interpolate value eq1 eq2 eq3 eq4 eq5 eq6 distances)
            end
        | _ => None
        end
    end.

End Scoring.

(** [calculateScore(metrics)] *)
Definition calculateScore (metrics : gmap string string) : option float :=
  calculateScoreIn LOOKUP_TABLE metrics.

(** ** Public API *)

(** [scoreToSeverity(score)] *)
Definition scoreToSeverity (score : option float) : option string :=
  match score with
  | None => None
  | Some score =>
      if Num.isNaN score then None
      else if Num.ge score 9.0 then Some "CRITICAL"
      else if Num.ge score 7.0 then Some "HIGH"
      else if Num.ge score 4.0 then Some "MEDIUM"
      else if Num.gt score 0.0 then Some "LOW"
      else Some "INFO"
  end.

(** The result object [{ score, severity, isValid, error }] *)
Record VectorScore := mkVectorScore {
  vs_score : option float;
  vs_severity : option string;
  vs_isValid : bool;
  vs_error : option string
}.

(** [vectorToScore(vectorString)] *)
Definition vectorToScore (vectorString : string) : VectorScore :=
  let r := parseVector vectorString in
  if negb (isValid r) then mkVectorScore None None false (error r)
  else
    match metrics r ≫= calculateScore with
    | None => mkVectorScore None None false (Some "Could not calculate score")
    | Some score =>
        mkVectorScore (Some score) (scoreToSeverity (Some score)) true None
    end.

(** The result object [{ score, severity, vector }] *)
Record MetricsScore := mkMetricsScore {
  ms_score : option float;
  ms_severity : option string;
  ms_vector : string
}.

(** [metricsToScore(metrics)] *)
Definition metricsToScore (metrics : gmap string string) : MetricsScore :=
  let vector := buildVector metrics in
  let score := calculateScore metrics in
  mkMetricsScore score (scoreToSeverity score) vector.

(** * Specification-side definitions *)

(** The binary64 number nearest to [n / 10]: the number that a decimal
    literal with one fractional digit denotes ([n] and [10] are exact and
    the division rounds to nearest). *)
Definition tenths (n : nat) : float :=
  (of_uint63 (Uint63.of_Z (Z.of_nat n)) / 10)%float.

(** [v] is [tenths n] for some [n <= bound]. *)
Definition isTenthUpTo (bound : nat) (v : float) : bool :=
  existsb (fun n => Leibniz.eqb v (tenths n)) (seq 0 (S bound)).

(** [SFcompare] is the lexicographic order of a rank: the sign class, then
    the exponent, then the mantissa (both negated below zero). *)
Definition lexCompare (a b : Z * Z * Z) : comparison :=
  let '(a1, a2, a3) := a in
  let '(b1, b2, b3) := b in
  match (a1 ?= b1)%Z with
  | Eq => match (a2 ?= b2)%Z with
          | Eq => (a3 ?= b3)%Z
          | c => c
          end
  | c => c
  end.

Definition rank (x : spec_float) : Z * Z * Z :=
  match x with
  | S754_infinity true => (-2, 0, 0)
  | S754_finite true m e => (-1, - e, Zneg m)
  | S754_zero _ | S754_nan => (0, 0, 0)
  | S754_finite false m e => (1, e, Zpos m)
  | S754_infinity false => (2, 0, 0)
  end%Z.

(** The six digits of a MacroVector *)
Definition digits6 : Type := nat * nat * nat * nat * nat * nat.

(** The digit combinations that the classifier can produce: every digit in
    its range, and never EQ3 = 2 together with EQ6 = 0. *)
Definition digitsOk (d : digits6) : bool :=
  let '(eq1, eq2, eq3, eq4, eq5, eq6) := d in
  (eq1 <=? 2) && (eq2 <=? 1) && (eq3 <=? 2) && (eq4 <=? 2) && (eq5 <=? 2) &&
  (eq6 <=? 1) && negb ((eq3 =? 2) && (eq6 =? 0)).

Definition digitGrid (n1 n2 n3 n4 n5 n6 : nat) : list digits6 :=
  flat_map (fun a => flat_map (fun b => flat_map (fun c =>
  flat_map (fun d => flat_map (fun e => map (fun f => (a, b, c, d, e, f))
  (seq 0 n6)) (seq 0 n5)) (seq 0 n4)) (seq 0 n3)) (seq 0 n2)) (seq 0 n1).

Definition reachableDigits : list digits6 :=
  List.filter digitsOk (digitGrid 3 2 3 3 3 2).

(** Equality of two optional numbers as values *)
Definition optFloatEqb (a b : option float) : bool :=
  match a, b with
  | Some x, Some y => Leibniz.eqb x y
  | None, None => true
  | _, _ => false
  end.

(** The larger of the candidates that exist *)
Definition maxOfExisting (l r : option float) : option float :=
  match l, r with
  | Some a, Some b => Some (if (a <? b)%float then b else a)
  | Some a, None => Some a
  | None, Some b => Some b
  | None, None => None
  end.

(** The EQ3/EQ6 neighbour in the words of the specification: both digits 0,
    the larger of the two single-step candidates that exist; (0,1) and
    (1,1), EQ3 stepped alone; (1,0), EQ6 stepped alone; otherwise both
    stepped at once. *)
Definition eq3eq6NeighbourSpec (table : list (string * float))
    (eq1 eq2 eq3 eq4 eq5 eq6 : nat) : option float :=
  let T a b c d e f := Js.prop table (macroKey a b c d e f) in
  match eq3, eq6 with
  | 0, 0 => maxOfExisting (T eq1 eq2 eq3 eq4 eq5 (eq6 + 1))
                          (T eq1 eq2 (eq3 + 1) eq4 eq5 eq6)
  | 0, 1 | 1, 1 => T eq1 eq2 (eq3 + 1) eq4 eq5 eq6
  | 1, 0 => T eq1 eq2 eq3 eq4 eq5 (eq6 + 1)
  | _, _ => T eq1 eq2 (eq3 + 1) eq4 eq5 (eq6 + 1)
  end.

(** The declared enumeration of a base metric: the values of its options *)
Definition enumOf (key : string) : list string :=
  default [] (Js.prop CVSS4_METRICS key).

(** How a metrics object stands on one required base metric *)
Inductive MetricStatus : Type :=
  | MetricOk
  | MetricMissing
  | MetricInvalid (value : string).

Definition metricStatus (metrics : gmap string string) (key : string)
  : MetricStatus :=
  match metrics !! key with
  | None | Some EmptyString => MetricMissing
  | Some v => if bool_decide (v ∈ enumOf key) then MetricOk
              else MetricInvalid v
  end.

(** The assignments that the tokens of a vector string carry: the string is
    trimmed, the nine code units of the prefix are dropped, and each
    [KEY:VALUE] token between slashes assigns, a later token overriding an
    earlier one of the same key. *)
Definition vectorAssignments (vectorString : string) : gmap string string :=
  fold_left parseToken
    (Js.split "/" (Js.slice_from 9 (Js.trim vectorString))) ∅.

(** What [buildVector] writes for one base metric *)
Definition baseValue (metrics : gmap string string) (key : string) : string :=
  Js.template (Js.or (metrics !! key) (Js.prop CVSS4_DEFAULTS key)).

(** The metrics object with exactly the eleven base metrics that
    [buildVector] writes *)
Definition baseOnly (metrics : gmap string string) : gmap string string :=
  fold_left (fun acc key => <[key := baseValue metrics key]> acc)
            BASE_METRIC_ORDER ∅.

(** [c] occurs in [s] *)
Fixpoint occurs (c : ascii) (s : string) : bool :=
  match s with
  | EmptyString => false
  | String c' s' => Ascii.eqb c' c || occurs c s'
  end.

(** The last code unit of [s] exists and is no white space. *)
Fixpoint endsNonBlank (s : string) : bool :=
  match s with
  | EmptyString => false
  | String c EmptyString => negb (Js.isWhiteSpace c)
  | String _ s' => endsNonBlank s'
  end.

(** The token [KEY:VALUE] that [buildVector] writes for one base metric *)
Definition baseToken (metrics : gmap string string) (key : string) : string :=
  key +:+ ":" +:+ baseValue metrics key.

(** ** The distance search, metric by metric *)

(** The metrics that [severityDistances] walks over *)
Definition scoredMetrics : list string := map fst METRIC_LEVELS.

(** [METRIC_LEVELS[metric]] *)
Definition levelsOfMetric (metric : string) : list (string * float) :=
  default [] (Js.prop METRIC_LEVELS metric).

(** The level of value [v] of [metric], [NaN] when it has none *)
Definition lv (metric v : string) : float := levelOf (levelsOfMetric metric) v.

(** What [severityDistances] reads from a max-vector string: for every
    metric of [METRIC_LEVELS] that the string holds, the metric, its level
    table and its value in the string, in the order of [METRIC_LEVELS]. *)
Definition extracted (maxVectorStr : string)
  : list (string * list (string * float) * string) :=
  omap (fun '(metric, levels) =>
          match extractFromStr metric maxVectorStr with
          | None => None
          | Some maxVal => Some (metric, levels, maxVal)
          end)
       METRIC_LEVELS.

(** The distances of the effective values [ev] from such a reading *)
Definition distancesOf (ev : string -> string)
    (entry : list (string * list (string * float) * string))
  : list (string * float) :=
  map (fun '(metric, levels, maxVal) =>
         (metric, (levelOf levels (ev metric) - levelOf levels maxVal)%float))
      entry.

(** The body of the loop that looks for [distances] *)
Definition checkDistances (d : list (string * float))
  : option (list (string * float)) :=
  if forallb (fun kv => Num.ge (snd kv) 0) d then Some d else None.

(** The max vectors that [calculateScore] composes for six digits *)
Definition maxVectorsOf (d : digits6) : list string :=
  let '(eq1, eq2, eq3, eq4, eq5, eq6) := d in
  composeMaxVectors
    (MAX_COMPOSED_eq1 eq1) (MAX_COMPOSED_eq2 eq2)
    (default [] (MAX_COMPOSED_eq3 eq3 eq6))
    (MAX_COMPOSED_eq4 eq4) (MAX_COMPOSED_eq5 eq5).

(** The first test of [calculateScore]: all six impact metrics are N. *)
Definition noImpact (metrics : gmap string string) : bool :=
  forallb (fun m => String.eqb (effectiveValue metrics m) "N")
          ["VC"; "VI"; "VA"; "SC"; "SI"; "SA"].

(** A reading holds every metric of [METRIC_LEVELS] with its level table. *)
Definition entryComplete
    (entry : list (string * list (string * float) * string)) : bool :=
  bool_decide (map (fun x => fst (fst x)) entry = scoredMetrics) &&
  forallb (fun x => bool_decide (Js.prop METRIC_LEVELS (fst (fst x)) <> None) &&
                    bool_decide (map fst (snd (fst x)) =
                                 map fst (levelsOfMetric (fst (fst x)))))
          entry.

(** The threat, environmental and modified metrics: what a metrics object
    may hold besides the eleven base metrics and the scoring reads. *)
Definition supplementalMetrics : list string :=
  ["E"; "CR"; "IR"; "AR"] ++ map (String.append "M") scoredMetrics.

(** A metrics object of base metrics only, each in its enumeration: a
    base metric that is present has a value of its enumeration, and every
    threat, environmental or modified metric is absent or X. *)
Definition plainBase (m : gmap string string) : Prop :=
  (forall k v, In k BASE_METRIC_ORDER -> m !! k = Some v -> In v (enumOf k)) /\
  (forall k, In k supplementalMetrics -> definedNotX (m !! k) = false).

(** ** The score as a function of five group summaries *)

(** The digit of each equivalence class, as [macroVector] computes it from
    the effective values *)
Definition eq1Of (AV PR UI : string) : nat :=
  if String.eqb AV "N" && String.eqb PR "N" && String.eqb UI "N" then 0
  else if (String.eqb AV "N" || String.eqb PR "N" || String.eqb UI "N") &&
          negb (String.eqb AV "N" && String.eqb PR "N" && String.eqb UI "N") &&
          negb (String.eqb AV "P") then 1
  else 2.

Definition eq2Of (AC AT : string) : nat :=
  if String.eqb AC "L" && String.eqb AT "N" then 0 else 1.

Definition eq3Of (VC VI VA : string) : nat :=
  if String.eqb VC "H" && String.eqb VI "H" then 0
  else if String.eqb VC "H" || String.eqb VI "H" || String.eqb VA "H" then 1
  else 2.

Definition eq4Of (MSI MSA SC SI SA : string) : nat :=
  if String.eqb MSI "S" || String.eqb MSA "S" then 0
  else if String.eqb SC "H" || String.eqb SI "H" || String.eqb SA "H" then 1
  else 2.

Definition eq5Of (E : string) : nat :=
  if String.eqb E "A" then 0
  else if String.eqb E "P" then 1
  else 2.

Definition eq6Of (CR IR AR VC VI VA : string) : nat :=
  if (String.eqb CR "H" && String.eqb VC "H") ||
     (String.eqb IR "H" && String.eqb VI "H") ||
     (String.eqb AR "H" && String.eqb VA "H") then 0 else 1.

(** The metrics of each group of the interpolation, in the order in which
    their distances are added *)
Definition keys1 : list string := ["AV"; "PR"; "UI"].
Definition keys2 : list string := ["AC"; "AT"].
Definition keys36 : list string := ["VC"; "VI"; "VA"; "CR"; "IR"; "AR"].
Definition keys4 : list string := ["SC"; "SI"; "SA"].
Definition keys5 : list string := ["E"].

(** The values and the levels that a part of a max vector holds for the
    metrics [keys] *)
Definition refValues (keys : list string) (part : string) : list string :=
  map (fun k => default "" (extractFromStr k part)) keys.

Definition refLevels (keys : list string) (part : string) : list float :=
  map (fun k => lv k (default "" (extractFromStr k part))) keys.

(** [x1 + x2 + ... + xn], added from the left *)
Definition sumLeft (ds : list float) : float :=
  match ds with
  | [] => 0%float
  | x :: r => fold_left PrimFloat.add r x
  end.

(** The distances of the levels [cur] from the levels [ref] of one
    reference vector: their sum when none is negative *)
Definition groupCheck (cur ref : list float) : option float :=
  let ds := zip_with PrimFloat.sub cur ref in
  if forallb (fun v => Num.ge v 0) ds then Some (sumLeft ds) else None.

(** The sum for the first reference vector that qualifies *)
Definition groupDistance (cur : list float) (refs : list (list float))
  : option float :=
  firstSome (groupCheck cur) refs.

(** Both are there, or neither counts. *)
Definition comb {X Y : Type} (a : option X) (b : option Y) : option (X * Y) :=
  match a, b with
  | Some x, Some y => Some (x, y)
  | _, _ => None
  end.

(** The reading of a composed max vector, from the values of its parts:
    the fifteen metrics in the order of [METRIC_LEVELS] *)
Definition entryOf (r1 r2 r36 r4 r5 : list string)
  : list (string * list (string * float) * string) :=
  match r1, r2, r36, r4, r5 with
  | [a1; a2; a3], [b1; b2], [c1; c2; c3; c4; c5; c6], [d1; d2; d3], [e1] =>
      [ ("AV", levelsOfMetric "AV", a1); ("PR", levelsOfMetric "PR", a2);
        ("UI", levelsOfMetric "UI", a3); ("AC", levelsOfMetric "AC", b1);
        ("AT", levelsOfMetric "AT", b2); ("VC", levelsOfMetric "VC", c1);
        ("VI", levelsOfMetric "VI", c2); ("VA", levelsOfMetric "VA", c3);
        ("SC", levelsOfMetric "SC", d1); ("SI", levelsOfMetric "SI", d2);
        ("SA", levelsOfMetric "SA", d3); ("CR", levelsOfMetric "CR", c4);
        ("IR", levelsOfMetric "IR", c5); ("AR", levelsOfMetric "AR", c6);
        ("E", levelsOfMetric "E", e1) ]
  | _, _, _, _, _ => []
  end.

Definition levelsEqb (a b : list (string * float)) : bool :=
  Nat.eqb (length a) (length b) &&
  forallb (fun p => String.eqb (fst (fst p)) (fst (snd p)) &&
                    Leibniz.eqb (snd (fst p)) (snd (snd p)))
          (combine a b).

Definition entryEqb (a b : list (string * list (string * float) * string))
  : bool :=
  Nat.eqb (length a) (length b) &&
  forallb (fun p =>
             String.eqb (fst (fst (fst p))) (fst (fst (snd p))) &&
             levelsEqb (snd (fst (fst p))) (snd (fst (snd p))) &&
             String.eqb (snd (fst p)) (snd (snd p)))
          (combine a b).

(** The four sums that the interpolation takes from [distances] *)
Definition sumsOf (distances : list (string * float))
  : float * float * float * float :=
  let dist (k : string) : float := default 0%float (Js.prop distances k) in
  ((dist "AV" + dist "PR" + dist "UI")%float,
   (dist "AC" + dist "AT")%float,
   (dist "VC" + dist "VI" + dist "VA" + dist "CR" + dist "IR" + dist "AR")%float,
   (dist "SC" + dist "SI" + dist "SA")%float).

(** What the interpolation reads from the tables for six digits: the
    neighbour scores as numbers and the four scaled depths *)
Definition Neighbours : Type :=
  float * float * float * float * float * (float * float * float * float).

Definition neighbours (table : list (string * float)) (d : digits6)
  : Neighbours :=
  let '(eq1, eq2, eq3, eq4, eq5, eq6) := d in
  (Num.toNumber (lookupScore table (macroKey (eq1 + 1) eq2 eq3 eq4 eq5 eq6)),
   Num.toNumber (lookupScore table (macroKey eq1 (eq2 + 1) eq3 eq4 eq5 eq6)),
   Num.toNumber (score_eq3eq6_next table eq1 eq2 eq3 eq4 eq5 eq6),
   Num.toNumber (lookupScore table (macroKey eq1 eq2 eq3 (eq4 + 1) eq5 eq6)),
   Num.toNumber (lookupScore table (macroKey eq1 eq2 eq3 eq4 (eq5 + 1) eq6)),
   ((Num.toNumber (MAX_SEVERITY_eq1 eq1) * 0.1)%float,
    (Num.toNumber (MAX_SEVERITY_eq2 eq2) * 0.1)%float,
    (Num.toNumber (MAX_SEVERITY_eq3eq6 eq3 eq6) * 0.1)%float,
    (Num.toNumber (MAX_SEVERITY_eq4 eq4) * 0.1)%float)).

(** The arithmetic of [interpolate] on what it has read *)
Definition interpolateCore (value : float) (nb : Neighbours)
    (sums : float * float * float * float) : float :=
  let '(n1, n2, n36, n4, n5, (maxSev_eq1, maxSev_eq2, maxSev_eq3eq6, maxSev_eq4)) := nb in
  let '(d_eq1, d_eq2, d_eq3eq6, d_eq4) := sums in
  let avail_eq1 := (value - n1)%float in
  let avail_eq2 := (value - n2)%float in
  let avail_eq3eq6 := (value - n36)%float in
  let avail_eq4 := (value - n4)%float in
  let avail_eq5 := (value - n5)%float in
  let n := 0%float in
  let '(n, norm_eq1) :=
    if negb (Num.isNaN avail_eq1)
    then ((n + 1)%float, (avail_eq1 * (d_eq1 / maxSev_eq1))%float)
    else (n, 0%float) in
  let '(n, norm_eq2) :=
    if negb (Num.isNaN avail_eq2)
    then ((n + 1)%float, (avail_eq2 * (d_eq2 / maxSev_eq2))%float)
    else (n, 0%float) in
  let '(n, norm_eq3eq6) :=
    if negb (Num.isNaN avail_eq3eq6) && Num.truthy maxSev_eq3eq6
    then ((n + 1)%float, (avail_eq3eq6 * (d_eq3eq6 / maxSev_eq3eq6))%float)
    else (n, 0%float) in
  let '(n, norm_eq4) :=
    if negb (Num.isNaN avail_eq4)
    then ((n + 1)%float, (avail_eq4 * (d_eq4 / maxSev_eq4))%float)
    else (n, 0%float) in
  let '(n, norm_eq5) :=
    if negb (Num.isNaN avail_eq5)
    then ((n + 1)%float, 0%float)
    else (n, 0%float) in
  let meanDistance :=
    if (n =? 0)%float then 0%float
    else ((norm_eq1 + norm_eq2 + norm_eq3eq6 + norm_eq4 + norm_eq5) / n)%float in
  roundHalfUp (Num.Math_max 0 (Num.Math_min 10 (value - meanDistance)%float)).

(** The levels of the effective values [ev] for the metrics [keys] *)
Definition curLevels (ev : string -> string) (keys : list string) : list float :=
  map (fun k => lv k (ev k)) keys.

(** The five lists of max-vector parts for six digits *)
Definition partsOf (d : digits6)
  : list string * list string * list string * list string * list string :=
  let '(eq1, eq2, eq3, eq4, eq5, eq6) := d in
  (MAX_COMPOSED_eq1 eq1, MAX_COMPOSED_eq2 eq2,
   default [] (MAX_COMPOSED_eq3 eq3 eq6),
   MAX_COMPOSED_eq4 eq4, MAX_COMPOSED_eq5 eq5).

(** Every composed max vector of [d] reads as the values of its parts. *)
Definition partsChecked (d : digits6) : bool :=
  let '(la, lb, lc, ld, le) := partsOf d in
  forallb (fun a => forallb (fun b => forallb (fun c =>
  forallb (fun dd => forallb (fun e =>
    entryEqb (extracted ((((a +:+ b) +:+ c) +:+ dd) +:+ e))
             (entryOf (refValues keys1 a) (refValues keys2 b)
                      (refValues keys36 c) (refValues keys4 dd)
                      (refValues keys5 e)))
  le) ld) lc) lb) la.

(** The sums of the four groups that carry a distance, out of the nested
    pairs of [comb] *)
Definition flatSums (x : float * (float * (float * (float * float))))
  : float * float * float * float :=
  let '(x1, (x2, (x36, (x4, _)))) := x in (x1, x2, x36, x4).

(** The search for [distances], group by group *)
Definition groupSearch (ev : string -> string) (d : digits6)
  : option (float * float * float * float) :=
  let '(la, lb, lc, ld, le) := partsOf d in
  flatSums <$>
  comb (groupDistance (curLevels ev keys1) (map (refLevels keys1) la))
  (comb (groupDistance (curLevels ev keys2) (map (refLevels keys2) lb))
  (comb (groupDistance (curLevels ev keys36) (map (refLevels keys36) lc))
  (comb (groupDistance (curLevels ev keys4) (map (refLevels keys4) ld))
        (groupDistance (curLevels ev keys5) (map (refLevels keys5) le))))).

(** The score from the digits, the zero-impact test and the sums of the
    group search *)
Definition scoreOfGroups (table : list (string * float)) (d : digits6)
    (noImp : bool) (sums : option (float * float * float * float))
  : option float :=
  if noImp then Some 0%float
  else
    let '(eq1, eq2, eq3, eq4, eq5, eq6) := d in
    match lookupScore table (macroKey eq1 eq2 eq3 eq4 eq5 eq6) with
    | None => None
    | Some value =>
        match sums with
        | None => Some value
        | Some sums => Some (interpolateCore value (neighbours table d) sums)
        end
    end.

(** What the score needs to know of each group of effective values: its
    digit (or digits), the distance sum of its first qualifying reference
    vector, and for the two impact groups whether the group is all N. *)
Definition Summary1 : Type := nat * option float.
Definition Summary36 : Type := nat * nat * option float * bool.
Definition Summary4 : Type := nat * option float * bool.

Definition summary1 (AV PR UI : string) : Summary1 :=
  let e := eq1Of AV PR UI in
  (e, groupDistance [lv "AV" AV; lv "PR" PR; lv "UI" UI]
                    (map (refLevels keys1) (MAX_COMPOSED_eq1 e))).

Definition summary2 (AC AT : string) : Summary1 :=
  let e := eq2Of AC AT in
  (e, groupDistance [lv "AC" AC; lv "AT" AT]
                    (map (refLevels keys2) (MAX_COMPOSED_eq2 e))).

Definition summary36 (VC VI VA CR IR AR : string) : Summary36 :=
  let e3 := eq3Of VC VI VA in
  let e6 := eq6Of CR IR AR VC VI VA in
  (e3, e6,
   groupDistance [lv "VC" VC; lv "VI" VI; lv "VA" VA;
                  lv "CR" CR; lv "IR" IR; lv "AR" AR]
                 (map (refLevels keys36) (default [] (MAX_COMPOSED_eq3 e3 e6))),
   String.eqb VC "N" && String.eqb VI "N" && String.eqb VA "N").

Definition summary4 (MSI MSA SC SI SA : string) : Summary4 :=
  let e := eq4Of MSI MSA SC SI SA in
  (e, groupDistance [lv "SC" SC; lv "SI" SI; lv "SA" SA]
                    (map (refLevels keys4) (MAX_COMPOSED_eq4 e)),
   String.eqb SC "N" && String.eqb SI "N" && String.eqb SA "N").

Definition summary5 (E : string) : Summary1 :=
  let e := eq5Of E in
  (e, groupDistance [lv "E" E] (map (refLevels keys5) (MAX_COMPOSED_eq5 e))).

Definition summaryDigits (s1 s2 : Summary1) (s36 : Summary36) (s4 : Summary4)
    (s5 : Summary1) : digits6 :=
  (fst s1, fst s2, fst (fst (fst s36)), fst (fst s4), fst s5,
   snd (fst (fst s36))).

Definition summarySums (s1 s2 : Summary1) (s36 : Summary36) (s4 : Summary4)
    (s5 : Summary1) : option (float * float * float * float) :=
  flatSums <$>
  comb (snd s1) (comb (snd s2) (comb (snd (fst s36))
       (comb (snd (fst s4)) (snd s5)))).

Definition scoreOfSummaries (s1 s2 : Summary1) (s36 : Summary36)
    (s4 : Summary4) (s5 : Summary1) : option float :=
  scoreOfGroups LOOKUP_TABLE (summaryDigits s1 s2 s36 s4 s5)
                (snd s36 && snd s4) (summarySums s1 s2 s36 s4 s5).

(** ** The finitely many summaries *)

(** A value of a metric stands for itself when it has a level, and all
    values without a level stand for the empty string. *)
Definition normValue (metric v : string) : string :=
  if existsb (String.eqb v) (map fst (levelsOfMetric metric)) then v else "".

Definition candidates (metric : string) : list string :=
  map fst (levelsOfMetric metric) ++ [""].

(** The raw MSI and MSA matter only as S or not S. *)
Definition normSafety (v : string) : string :=
  if String.eqb v "S" then "S" else "X".

Definition eqbSummary1 (a b : Summary1) : bool :=
  Nat.eqb (fst a) (fst b) && optFloatEqb (snd a) (snd b).

Definition eqbSummary36 (a b : Summary36) : bool :=
  Nat.eqb (fst (fst (fst a))) (fst (fst (fst b))) &&
  Nat.eqb (snd (fst (fst a))) (snd (fst (fst b))) &&
  optFloatEqb (snd (fst a)) (snd (fst b)) && Bool.eqb (snd a) (snd b).

Definition eqbSummary4 (a b : Summary4) : bool :=
  Nat.eqb (fst (fst a)) (fst (fst b)) &&
  optFloatEqb (snd (fst a)) (snd (fst b)) && Bool.eqb (snd a) (snd b).

Definition eqbPair {A : Type} (eqb : A -> A -> bool) (a b : A * A) : bool :=
  eqb (fst a) (fst b) && eqb (snd a) (snd b).

(** The list without repetitions, for an equality test [eqb] *)
Fixpoint dedup {A : Type} (eqb : A -> A -> bool) (l : list A) : list A :=
  match l with
  | [] => []
  | x :: r => let r' := dedup eqb r in
              if existsb (eqb x) r' then r' else x :: r'
  end.

Definition states1 : list (string * string * string) :=
  flat_map (fun a => flat_map (fun p => map (fun u => (a, p, u))
    (candidates "UI")) (candidates "PR")) (candidates "AV").

Definition states2 : list (string * string) :=
  flat_map (fun a => map (fun p => (a, p)) (candidates "AT")) (candidates "AC").

Definition states36 : list (string * string * string * string * string * string) :=
  flat_map (fun vc => flat_map (fun vi => flat_map (fun va =>
  flat_map (fun cr => flat_map (fun ir => map (fun ar => (vc, vi, va, cr, ir, ar))
    (candidates "AR")) (candidates "IR")) (candidates "CR"))
    (candidates "VA")) (candidates "VI")) (candidates "VC").

Definition states4 : list (string * string * string * string * string) :=
  flat_map (fun msi => flat_map (fun msa => flat_map (fun sc =>
  flat_map (fun si => map (fun sa => (msi, msa, sc, si, sa))
    (candidates "SA")) (candidates "SI")) (candidates "SC"))
    ["S"; "X"]) ["S"; "X"].

Definition summaries1 : list Summary1 :=
  Eval vm_compute in
  dedup eqbSummary1 (map (fun '(a, p, u) => summary1 a p u) states1).

Definition summaries2 : list Summary1 :=
  Eval vm_compute in
  dedup eqbSummary1 (map (fun '(a, p) => summary2 a p) states2).

Definition summaries36 : list Summary36 :=
  Eval vm_compute in
  dedup eqbSummary36
    (map (fun '(vc, vi, va, cr, ir, ar) => summary36 vc vi va cr ir ar) states36).

Definition summaries4 : list Summary4 :=
  Eval vm_compute in
  dedup eqbSummary4
    (map (fun '(msi, msa, sc, si, sa) => summary4 msi msa sc si sa) states4).

Definition summaries5 : list Summary1 :=
  Eval vm_compute in dedup eqbSummary1 (map summary5 (candidates "E")).

(** Raising an impact metric: from N to L or H, or from L to H *)
Definition raises : list (string * string) :=
  [("N", "L"); ("N", "H"); ("L", "H")].

(** The same value, or a raised one *)
Definition steps (metric : string) : list (string * string) :=
  raises ++ map (fun c => (c, c)) (candidates metric).

(** The summaries of the VC/VI/VA group before and after a step of one of
    its three impact metrics *)
Definition stepPairs36 : list (Summary36 * Summary36) :=
  Eval vm_compute in
  dedup (eqbPair eqbSummary36)
    (flat_map (fun '(vc, vi, va, cr, ir, ar) =>
       map (fun '(lo, hi) =>
              (summary36 lo vi va cr ir ar, summary36 hi vi va cr ir ar))
           (steps "VC") ++
       map (fun '(lo, hi) =>
              (summary36 vc lo va cr ir ar, summary36 vc hi va cr ir ar))
           (steps "VI") ++
       map (fun '(lo, hi) =>
              (summary36 vc vi lo cr ir ar, summary36 vc vi hi cr ir ar))
           (steps "VA"))
       states36).

Definition stepPairs4 : list (Summary4 * Summary4) :=
  Eval vm_compute in
  dedup (eqbPair eqbSummary4)
    (flat_map (fun '(msi, msa, sc, si, sa) =>
       map (fun '(lo, hi) =>
              (summary4 msi msa lo si sa, summary4 msi msa hi si sa))
           (steps "SC") ++
       map (fun '(lo, hi) =>
              (summary4 msi msa sc lo sa, summary4 msi msa sc hi sa))
           (steps "SI") ++
       map (fun '(lo, hi) =>
              (summary4 msi msa sc si lo, summary4 msi msa sc si hi))
           (steps "SA"))
       states4).

(** ** A table of what the score reads, by digit *)

Definition TableRow : Type := float * Neighbours.

Definition tableRows
  : list (list (list (list (list (list TableRow))))) :=
  Eval vm_compute in
  map (fun a => map (fun b => map (fun c => map (fun d => map (fun e =>
  map (fun f =>
         (Num.toNumber (lookupScore LOOKUP_TABLE (macroKey a b c d e f)),
          neighbours LOOKUP_TABLE (a, b, c, d, e, f)))
  (seq 0 2)) (seq 0 3)) (seq 0 3)) (seq 0 3)) (seq 0 2)) (seq 0 3).

Definition rowAt (d : digits6) : TableRow :=
  let '(a, b, c, dd, e, f) := d in
  nth f (nth e (nth dd (nth c (nth b (nth a tableRows []) []) []) []) [])
      (0, (0, 0, 0, 0, 0, (0, 0, 0, 0)))%float.

(** The score of five summaries as a number, read off [tableRows] *)
Definition scoreFast (s1 s2 : Summary1) (s36 : Summary36) (s4 : Summary4)
    (s5 : Summary1) : float :=
  if snd s36 && snd s4 then 0%float
  else
    let '(value, nb) := rowAt (summaryDigits s1 s2 s36 s4 s5) in
    match summarySums s1 s2 s36 s4 s5 with
    | None => value
    | Some sums => interpolateCore value nb sums
    end.

(** Along every step of the VC/VI/VA group, and of the SC/SI/SA group, the
    score does not decrease, whatever the other groups are. *)
Definition rises36 (s1 s2 : Summary1) (s4 : Summary4) (s5 : Summary1)
    (pp : Summary36 * Summary36) : bool :=
  (scoreFast s1 s2 (fst pp) s4 s5 <=? scoreFast s1 s2 (snd pp) s4 s5)%float.

Definition rises4 (s1 s2 : Summary1) (s36 : Summary36) (s5 : Summary1)
    (pp : Summary4 * Summary4) : bool :=
  (scoreFast s1 s2 s36 (fst pp) s5 <=? scoreFast s1 s2 s36 (snd pp) s5)%float.

Definition neighboursEqb (a b : Neighbours) : bool :=
  let '(a1, a2, a3, a4, a5, (a6, a7, a8, a9)) := a in
  let '(b1, b2, b3, b4, b5, (b6, b7, b8, b9)) := b in
  Leibniz.eqb a1 b1 && Leibniz.eqb a2 b2 && Leibniz.eqb a3 b3 &&
  Leibniz.eqb a4 b4 && Leibniz.eqb a5 b5 && Leibniz.eqb a6 b6 &&
  Leibniz.eqb a7 b7 && Leibniz.eqb a8 b8 && Leibniz.eqb a9 b9.

(** [tableRows] holds what the lookup table and the depth tables say. *)
Definition rowChecked (d : digits6) : bool :=
  let '(eq1, eq2, eq3, eq4, eq5, eq6) := d in
  optFloatEqb (lookupScore LOOKUP_TABLE (macroKey eq1 eq2 eq3 eq4 eq5 eq6))
              (Some (fst (rowAt d))) &&
  neighboursEqb (neighbours LOOKUP_TABLE d) (snd (rowAt d)).

(** The raw MSI or MSA as [macroVector] reads it *)
Definition safetyFlag (metrics : gmap string string) (key : string) : string :=
  Js.template (Js.or (metrics !! key) (Some "X")).

(** * Further definitions: the score over all summaries *)

(** A function of the five summaries, at the summaries of a metrics object *)
Definition onSummaries {A : Type}
    (f : Summary1 -> Summary1 -> Summary36 -> Summary4 -> Summary1 -> A)
    (m : gmap string string) : A :=
  let ev := effectiveValue m in
  f (summary1 (ev "AV") (ev "PR") (ev "UI"))
    (summary2 (ev "AC") (ev "AT"))
    (summary36 (ev "VC") (ev "VI") (ev "VA") (ev "CR") (ev "IR") (ev "AR"))
    (summary4 (safetyFlag m "MSI") (safetyFlag m "MSA")
              (ev "SC") (ev "SI") (ev "SA"))
    (summary5 (ev "E")).

(** A test that holds of all summaries *)
Definition all5
    (P : Summary1 -> Summary1 -> Summary36 -> Summary4 -> Summary1 -> bool)
  : bool :=
  forallb (fun s1 => forallb (fun s2 => forallb (fun s36 => forallb (fun s4 =>
  forallb (fun s5 => P s1 s2 s36 s4 s5)
  summaries5) summaries4) summaries36) summaries2) summaries1.

(** Equality of optional strings *)
Definition optStringEqb (a b : option string) : bool :=
  match a, b with
  | Some x, Some y => String.eqb x y
  | None, None => true
  | _, _ => false
  end.

(** The numbers 0.0, 0.1, ..., 10.0 *)
Definition tenthsList : list float :=
  Eval vm_compute in map tenths (seq 0 101).

(** * Further definitions: the order of severity *)

(** [METRIC_LEVELS] orders the values of a metric, the lower level being
    the more severe: [a] is at least as severe as [b]. Both values have a
    level when this holds. *)
Definition atLeastAsSevere (metric a b : string) : bool :=
  (lv metric a <=? lv metric b)%float.

(** The pairs of values of a metric in which the second is at least as
    severe as the first, and each candidate with itself *)
Definition levelSteps (metric : string) : list (string * string) :=
  let vals := map fst (levelsOfMetric metric) in
  List.filter (fun '(lo, hi) => atLeastAsSevere metric hi lo)
              (list_prod vals vals) ++
  map (fun c => (c, c)) (candidates metric).

(** The steps of a metric that start at the value [lo] *)
Definition stepsFrom (metric lo : string) : list (string * string) :=
  List.filter (fun lh => String.eqb (fst lh) lo) (levelSteps metric).

(** The summaries of the AV/PR/UI group before and after such a step of
    one of its metrics *)
Definition stepPairs1 : list (Summary1 * Summary1) :=
  Eval vm_compute in
  dedup (eqbPair eqbSummary1)
    (flat_map (fun '(a, p, u) =>
       map (fun '(lo, hi) => (summary1 lo p u, summary1 hi p u))
           (stepsFrom "AV" a) ++
       map (fun '(lo, hi) => (summary1 a lo u, summary1 a hi u))
           (stepsFrom "PR" p) ++
       map (fun '(lo, hi) => (summary1 a p lo, summary1 a p hi))
           (stepsFrom "UI" u))
       states1).

Definition stepPairs2 : list (Summary1 * Summary1) :=
  Eval vm_compute in
  dedup (eqbPair eqbSummary1)
    (flat_map (fun '(a, p) =>
       map (fun '(lo, hi) => (summary2 lo p, summary2 hi p))
           (stepsFrom "AC" a) ++
       map (fun '(lo, hi) => (summary2 a lo, summary2 a hi))
           (stepsFrom "AT" p))
       states2).

Definition stepPairs5 : list (Summary1 * Summary1) :=
  Eval vm_compute in
  dedup (eqbPair eqbSummary1)
    (map (fun '(lo, hi) => (summary5 lo, summary5 hi)) (levelSteps "E")).

(** The summaries of the VC/VI/VA group before and after such a step of
    one of the requirements CR, IR and AR *)
Definition stepPairsReq : list (Summary36 * Summary36) :=
  Eval vm_compute in
  dedup (eqbPair eqbSummary36)
    (flat_map (fun '(vc, vi, va, cr, ir, ar) =>
       map (fun '(lo, hi) =>
              (summary36 vc vi va lo ir ar, summary36 vc vi va hi ir ar))
           (stepsFrom "CR" cr) ++
       map (fun '(lo, hi) =>
              (summary36 vc vi va cr lo ar, summary36 vc vi va cr hi ar))
           (stepsFrom "IR" ir) ++
       map (fun '(lo, hi) =>
              (summary36 vc vi va cr ir lo, summary36 vc vi va cr ir hi))
           (stepsFrom "AR" ar))
       states36).

Definition rises1 (s2 : Summary1) (s36 : Summary36) (s4 : Summary4)
    (s5 : Summary1) (pp : Summary1 * Summary1) : bool :=
  (scoreFast (fst pp) s2 s36 s4 s5 <=? scoreFast (snd pp) s2 s36 s4 s5)%float.

Definition rises2 (s1 : Summary1) (s36 : Summary36) (s4 : Summary4)
    (s5 : Summary1) (pp : Summary1 * Summary1) : bool :=
  (scoreFast s1 (fst pp) s36 s4 s5 <=? scoreFast s1 (snd pp) s36 s4 s5)%float.

Definition rises5 (s1 s2 : Summary1) (s36 : Summary36) (s4 : Summary4)
    (pp : Summary1 * Summary1) : bool :=
  (scoreFast s1 s2 s36 s4 (fst pp) <=? scoreFast s1 s2 s36 s4 (snd pp))%float.

(** * Further definitions: the tokens of a vector string *)



(** * Severity utilities (frontend/src/utils/severity.js) *)

#[local] Open Scope float_scope.

(** [SEVERITY_ORDER] *)
Definition SEVERITY_ORDER : list (string * float) :=
  [("CRITICAL", 4); ("HIGH", 3); ("MEDIUM", 2); ("LOW", 1); ("INFO", 0)].

#[local] Close Scope float_scope.

(** A [switch] over string labels with a [return] in every case: the first
    case that is strictly equal to the value decides, and a value that is
    no string, or equals no label, takes the default. *)
Definition switchReturn {A : Type} (v : option string)
    (cases : list (string * A)) (dflt : A) : A :=
  match v with
  | Some s => default dflt (Js.prop cases s)
  | None => dflt
  end.

(** [getSeverityBadgeClass(severity)] *)
Definition getSeverityBadgeClass (severity : option string) : string :=
  switchReturn severity
    [("CRITICAL", "text-red-600 dark:text-red-400 bg-red-50 dark:bg-red-900/30 border-red-200 dark:border-red-700");
     ("HIGH", "text-orange-600 dark:text-orange-400 bg-orange-50 dark:bg-orange-900/30 border-orange-200 dark:border-orange-700");
     ("MEDIUM", "text-yellow-600 dark:text-yellow-400 bg-yellow-50 dark:bg-yellow-900/30 border-yellow-200 dark:border-yellow-700");
     ("LOW", "text-blue-600 dark:text-blue-400 bg-blue-50 dark:bg-blue-900/30 border-blue-200 dark:border-blue-700");
     ("INFO", "text-cyan-600 dark:text-cyan-400 bg-cyan-50 dark:bg-cyan-900/30 border-cyan-200 dark:border-cyan-700")]
    "text-neutral-600 dark:text-neutral-400 bg-neutral-50 dark:bg-neutral-800 border-neutral-200 dark:border-neutral-700".

(** [getSeverityTextClass(severity)] *)
Definition getSeverityTextClass (severity : option string) : string :=
  switchReturn severity
    [("CRITICAL", "text-red-600 dark:text-red-400");
     ("HIGH", "text-orange-600 dark:text-orange-400");
     ("MEDIUM", "text-yellow-600 dark:text-yellow-400");
     ("LOW", "text-blue-600 dark:text-blue-400");
     ("INFO", "text-cyan-600 dark:text-cyan-400")]
    "text-neutral-600 dark:text-neutral-400".

(** [getSeverityBarClass(severity)] *)
Definition getSeverityBarClass (severity : option string) : string :=
  switchReturn severity
    [("CRITICAL", "bg-red-500"); ("HIGH", "bg-orange-500");
     ("MEDIUM", "bg-yellow-500"); ("LOW", "bg-blue-500")]
    "bg-neutral-500".

(** [getSeverityDotClass(severity)] *)
Definition getSeverityDotClass (severity : option string) : string :=
  switchReturn severity
    [("CRITICAL", "bg-red-500"); ("HIGH", "bg-orange-500");
     ("MEDIUM", "bg-yellow-500"); ("LOW", "bg-blue-500")]
    "bg-neutral-400".

(** * The calculator component
      (frontend/src/components/assessment/CvssCalculator.jsx)

    The three state variables of the component are the fields of a record.
    A handler is the state that its setter calls ask for, given the state
    before. The effect that follows a change of [metrics] is a step of its
    own, with the arguments that it passes to [onChange]; when React runs it
    is not modelled, so what holds after any sequence of steps holds after
    those that React makes. *)

(** [{ ...a, ...b }]: the entries of [b], and those of [a] under other keys *)
Definition spread (a b : gmap string string) : gmap string string := b ∪ a.

(** [SEVERITY_STYLES] *)
Definition SEVERITY_STYLES : list (string * string) :=
  [("CRITICAL", "bg-red-500/10 text-red-400 border-red-500/30");
   ("HIGH", "bg-orange-500/10 text-orange-400 border-orange-500/30");
   ("MEDIUM", "bg-yellow-500/10 text-yellow-400 border-yellow-500/30");
   ("LOW", "bg-blue-500/10 text-blue-400 border-blue-500/30");
   ("INFO", "bg-cyan-500/10 text-cyan-400 border-cyan-500/30")].

(** [GROUPS] *)
Definition GROUPS : list (string * list string) :=
  [("Exploitability", ["AV"; "AC"; "AT"; "PR"; "UI"]);
   ("Vulnerable System", ["VC"; "VI"; "VA"]);
   ("Subsequent System", ["SC"; "SI"; "SA"])].

Record CalculatorState := mkCalculatorState {
  st_metrics : gmap string string;
  st_vectorInput : string;
  st_vectorError : option string
}.

(** The initial values of the three [useState] calls *)
Definition initialState : CalculatorState :=
  mkCalculatorState (list_to_map CVSS4_DEFAULTS) "" None.

(** The effect on [initialVector] *)
Definition loadInitialVector (initialVector : option string)
    (st : CalculatorState) : CalculatorState :=
  if Js.truthy initialVector then
    let r := parseVector (Js.template initialVector) in
    match isValid r, metrics r with
    | true, Some parsed =>
        mkCalculatorState (spread (list_to_map CVSS4_DEFAULTS) parsed)
                          (Js.template initialVector) (st_vectorError st)
    | _, _ => st
    end
  else st.

(** The effect on [metrics]: the state it leaves, and the arguments
    [(vector, score, severity)] of [onChange] *)
Definition metricsEffect (st : CalculatorState)
  : CalculatorState * (string * option float * option string) :=
  let r := metricsToScore (st_metrics st) in
  (mkCalculatorState (st_metrics st) (ms_vector r) None,
   (ms_vector r, ms_score r, ms_severity r)).

(** [handleMetric(key, value)] *)
Definition handleMetric (key value : string) (st : CalculatorState)
  : CalculatorState :=
  mkCalculatorState (<[key := value]> (st_metrics st))
                    (st_vectorInput st) (st_vectorError st).

(** [handleVectorInput(e)] with [raw = e.target.value] *)
Definition handleVectorInput (raw : string) (st : CalculatorState)
  : CalculatorState :=
  let r := parseVector raw in
  match isValid r, metrics r with
  | true, Some parsed =>
      mkCalculatorState (spread (list_to_map CVSS4_DEFAULTS) parsed) raw None
  | _, _ => mkCalculatorState (st_metrics st) raw (error r)
  end.

(** [severityStyle] of the render *)
Definition severityStyle (st : CalculatorState) : option string :=
  let severity := ms_severity (metricsToScore (st_metrics st)) in
  if Js.truthy severity then Js.prop SEVERITY_STYLES (Js.template severity)
  else Some "bg-neutral-500/10 text-neutral-400 border-neutral-500/20".

(** The buttons that the render draws: for every key of every group that
    [CVSS4_METRICS] defines, one button per option, whose click calls
    [handleMetric(key, opt.value)] *)
Definition buttons : list (string * string) :=
  flat_map (fun '(_, keys) =>
    flat_map (fun key =>
      match Js.prop CVSS4_METRICS key with
      | Some options => map (fun value => (key, value)) options
      | None => []
      end) keys) GROUPS.

(** What the user and React can do to the component *)
Inductive step : CalculatorState -> CalculatorState -> Prop :=
  | step_button key value st :
      In (key, value) buttons -> step st (handleMetric key value st)
  | step_input raw st : step st (handleVectorInput raw st)
  | step_initial initialVector st : step st (loadInitialVector initialVector st)
  | step_effect st : step st (fst (metricsEffect st)).

Inductive reachableState : CalculatorState -> Prop :=
  | reachableState_initial : reachableState initialState
  | reachableState_step st st' : reachableState st -> step st st' -> reachableState st'.

(** Every base metric is present with a value of its enumeration. *)
Definition baseComplete (m : gmap string string) : Prop :=
  forall k, In k BASE_METRIC_ORDER ->
    exists v, m !! k = Some v /\ In v (enumOf k).

(** * Facts about binary64 comparisons *)

Module FloatFacts.

#[local] Open Scope float_scope.

Lemma SFcompare_antisym x y :
  SFcompare y x = option_map CompOpp (SFcompare x y).
Proof.
  destruct x as [sx|sx| |sx mx ex], y as [sy|sy| |sy my ey]; simpl;
    try reflexivity; try (destruct sx; reflexivity);
    try (destruct sy; reflexivity); try (destruct sx, sy; reflexivity).
  destruct sx, sy; simpl; try reflexivity;
    rewrite (BinInt.Z.compare_antisym ex ey); destruct (ex ?= ey)%Z; simpl;
    try reflexivity; f_equal; rewrite ?CompOpp_involutive;
    [ exact (Pos.compare_cont_antisym my mx Eq)
    | symmetry; exact (Pos.compare_cont_antisym mx my Eq) ].
Qed.

Lemma SFcompare_refl x : x <> S754_nan -> SFcompare x x = Some Eq.
Proof.
  destruct x as [s|s| |s m e]; simpl; intros H; try congruence.
  - destruct s; reflexivity.
  - rewrite (BinInt.Z.compare_refl e), (BinPos.Pos.compare_cont_refl m Eq).
    destruct s; reflexivity.
Qed.

Lemma SFcompare_nan_r x : SFcompare x S754_nan = None.
Proof. destruct x; reflexivity. Qed.

Lemma is_nan_Prim2SF x : is_nan x = true <-> Prim2SF x = S754_nan.
Proof.
  unfold is_nan. rewrite FloatAxioms.eqb_spec. unfold SFeqb. split.
  - destruct (Prim2SF x) eqn:E; try reflexivity; intros H;
      rewrite SFcompare_refl in H by congruence; discriminate.
  - intros ->. reflexivity.
Qed.

Lemma ltb_leb_false x y : (x <? y) = true -> (y <=? x) = false.
Proof.
  rewrite FloatAxioms.ltb_spec, FloatAxioms.leb_spec. unfold SFltb, SFleb.
  rewrite (SFcompare_antisym (Prim2SF x) (Prim2SF y)).
  destruct (SFcompare (Prim2SF x) (Prim2SF y)) as [[]|]; simpl; congruence.
Qed.

Lemma leb_ltb_false x y : (x <=? y) = true -> (y <? x) = false.
Proof.
  rewrite FloatAxioms.ltb_spec, FloatAxioms.leb_spec. unfold SFltb, SFleb.
  rewrite (SFcompare_antisym (Prim2SF x) (Prim2SF y)).
  destruct (SFcompare (Prim2SF x) (Prim2SF y)) as [[]|]; simpl; congruence.
Qed.

Lemma leb_not_nan_r x y : (x <=? y) = true -> is_nan y = false.
Proof.
  rewrite FloatAxioms.leb_spec. intros H.
  destruct (is_nan y) eqn:E; [|reflexivity].
  apply is_nan_Prim2SF in E. rewrite E in H. unfold SFleb in H.
  rewrite SFcompare_nan_r in H. discriminate.
Qed.

Lemma ltb_not_nan_r x y : (x <? y) = true -> is_nan y = false.
Proof.
  rewrite FloatAxioms.ltb_spec. intros H.
  destruct (is_nan y) eqn:E; [|reflexivity].
  apply is_nan_Prim2SF in E. rewrite E in H. unfold SFltb in H.
  rewrite SFcompare_nan_r in H. discriminate.
Qed.

Lemma leb_nan_r x y : is_nan y = true -> (x <=? y) = false.
Proof.
  intros H. destruct (x <=? y) eqn:E; [|reflexivity].
  apply leb_not_nan_r in E. congruence.
Qed.

Lemma SFcompare_rank x y :
  x <> S754_nan -> y <> S754_nan ->
  SFcompare x y = Some (lexCompare (rank x) (rank y)).
Proof.
  destruct x as [sx|sx| |sx mx ex], y as [sy|sy| |sy my ey]; intros Hx Hy;
    try congruence; try (destruct sx; reflexivity);
    try (destruct sy; reflexivity); try (destruct sx, sy; reflexivity).
  destruct sx, sy; try reflexivity; cbn [SFcompare rank lexCompare]; f_equal.
  change (-1 ?= -1)%Z with Eq. cbv iota.
  rewrite (BinInt.Z.compare_opp ex ey), (BinInt.Z.compare_antisym ex ey).
  destruct (ex ?= ey)%Z; reflexivity.
Qed.

Lemma lexCompare_trans a b c :
  lexCompare a b = Lt -> lexCompare b c <> Gt -> lexCompare a c = Lt.
Proof.
  destruct a as [[a1 a2] a3], b as [[b1 b2] b3], c as [[c1 c2] c3].
  unfold lexCompare.
  destruct (Z.compare_spec a1 b1), (Z.compare_spec b1 c1),
    (Z.compare_spec a2 b2), (Z.compare_spec b2 c2),
    (Z.compare_spec a3 b3), (Z.compare_spec b3 c3);
    try congruence; intros _ _; subst;
    repeat (match goal with
            | |- context [(?x ?= ?y)%Z] => destruct (Z.compare_spec x y)
            end; try lia; try reflexivity).
Qed.

Lemma lexCompare_eq a b : lexCompare a b = Eq -> a = b.
Proof.
  destruct a as [[a1 a2] a3], b as [[b1 b2] b3]. unfold lexCompare.
  destruct (Z.compare_spec a1 b1), (Z.compare_spec a2 b2),
    (Z.compare_spec a3 b3); try discriminate; intros _; congruence.
Qed.

Lemma SFcompare_Some_not_nan x y c :
  SFcompare x y = Some c -> x <> S754_nan /\ y <> S754_nan.
Proof.
  destruct x, y; simpl; intros H; split; congruence.
Qed.

(** [x < y] and [y <= z] give [x < z]. *)
Lemma ltb_leb_trans x y z :
  (x <? y) = true -> (y <=? z) = true -> (x <? z) = true.
Proof.
  rewrite !FloatAxioms.ltb_spec, FloatAxioms.leb_spec. unfold SFltb, SFleb.
  destruct (SFcompare (Prim2SF x) (Prim2SF y)) as [c1|] eqn:E1; [|discriminate].
  destruct (SFcompare (Prim2SF y) (Prim2SF z)) as [c2|] eqn:E2; [|discriminate].
  destruct (SFcompare_Some_not_nan _ _ _ E1) as [Hx Hy].
  destruct (SFcompare_Some_not_nan _ _ _ E2) as [_ Hz].
  rewrite SFcompare_rank in E1, E2 |- * by assumption.
  injection E1 as <-. injection E2 as <-. intros H1 H2.
  rewrite (lexCompare_trans (rank (Prim2SF x)) (rank (Prim2SF y))
             (rank (Prim2SF z))); [reflexivity| |].
  - destruct (lexCompare (rank (Prim2SF x)) (rank (Prim2SF y)));
      [discriminate|reflexivity|discriminate].
  - destruct (lexCompare (rank (Prim2SF y)) (rank (Prim2SF z)));
      [discriminate|discriminate|congruence].
Qed.

(** Below [a], hence not at or above any [b] that is at or above [a]. *)
Lemma ltb_bound_leb_false s a b :
  (s <? a) = true -> (a <=? b) = true -> (b <=? s) = false.
Proof.
  intros H1 H2. apply ltb_leb_false. exact (ltb_leb_trans s a b H1 H2).
Qed.

(** Numbers that compare equal compare alike against every third number. *)
Lemma eqb_compare_congr s t c :
  (s =? t) = true ->
  (c <=? s) = (c <=? t) /\ (c <? s) = (c <? t) /\ is_nan s = false.
Proof.
  rewrite FloatAxioms.eqb_spec. unfold SFeqb.
  destruct (SFcompare (Prim2SF s) (Prim2SF t)) as [c1|] eqn:E1; [|discriminate].
  destruct (SFcompare_Some_not_nan _ _ _ E1) as [Hs Ht].
  rewrite SFcompare_rank in E1 by assumption. injection E1 as <-.
  intros H.
  assert (Hr : rank (Prim2SF s) = rank (Prim2SF t)).
  { apply lexCompare_eq.
    destruct (lexCompare (rank (Prim2SF s)) (rank (Prim2SF t)));
      [reflexivity|discriminate|discriminate]. }
  assert (Hn : is_nan s = false).
  { destruct (is_nan s) eqn:E; [|reflexivity].
    apply is_nan_Prim2SF in E. congruence. }
  rewrite !FloatAxioms.leb_spec, !FloatAxioms.ltb_spec. unfold SFleb, SFltb.
  destruct (Prim2SF c) eqn:Ec;
    try (rewrite !SFcompare_rank by congruence; rewrite Hr; auto).
  repeat split; auto.
  all: destruct (Prim2SF s), (Prim2SF t); try congruence; reflexivity.
Qed.

End FloatFacts.

(** * Severity classifier *)

Section Severity.

#[local] Open Scope float_scope.

(** C9. [scoreToSeverity] gives no label for [null] and for [NaN]; it gives
    CRITICAL from 9.0 up, HIGH from 7.0 up to 9.0 excluded, MEDIUM from 4.0
    up to 7.0 excluded, LOW above 0.0 and below 4.0, and INFO at 0.0; in
    particular the scores 9.0, 7.0, 4.0 and 0.0 themselves are CRITICAL,
    HIGH, MEDIUM and INFO. *)
Theorem scoreToSeverity_thresholds (s : float) :
  scoreToSeverity None = None /\
  (is_nan s = true -> scoreToSeverity (Some s) = None) /\
  ((9.0 <=? s) = true -> scoreToSeverity (Some s) = Some "CRITICAL") /\
  ((7.0 <=? s) = true -> (s <? 9.0) = true ->
     scoreToSeverity (Some s) = Some "HIGH") /\
  ((4.0 <=? s) = true -> (s <? 7.0) = true ->
     scoreToSeverity (Some s) = Some "MEDIUM") /\
  ((0.0 <? s) = true -> (s <? 4.0) = true ->
     scoreToSeverity (Some s) = Some "LOW") /\
  ((s =? 0.0) = true -> scoreToSeverity (Some s) = Some "INFO") /\
  scoreToSeverity (Some 9.0) = Some "CRITICAL" /\
  scoreToSeverity (Some 7.0) = Some "HIGH" /\
  scoreToSeverity (Some 4.0) = Some "MEDIUM" /\
  scoreToSeverity (Some 0.0) = Some "INFO".
Proof.
  assert (Hle : forall a b, (a <=? b) = true -> (s <? a) = true ->
                            (b <=? s) = false).
  { intros a b Hab Hs. exact (FloatFacts.ltb_bound_leb_false s a b Hs Hab). }
  unfold scoreToSeverity, Num.isNaN, Num.ge, Num.gt.
  split; [reflexivity|].
  split. { intros ->. reflexivity. }
  split. { intros H. rewrite (FloatFacts.leb_not_nan_r _ _ H), H. reflexivity. }
  split.
  { intros H7 H9.
    rewrite (FloatFacts.leb_not_nan_r _ _ H7),
      (FloatFacts.ltb_leb_false _ _ H9), H7.
    reflexivity. }
  split.
  { intros H4 H7.
    rewrite (FloatFacts.leb_not_nan_r _ _ H4), (Hle 7.0 9.0 eq_refl H7),
      (FloatFacts.ltb_leb_false _ _ H7), H4.
    reflexivity. }
  split.
  { intros H0 H4.
    rewrite (FloatFacts.ltb_not_nan_r _ _ H0), (Hle 4.0 9.0 eq_refl H4),
      (Hle 4.0 7.0 eq_refl H4), (FloatFacts.ltb_leb_false _ _ H4), H0.
    reflexivity. }
  split.
  { intros H0.
    destruct (FloatFacts.eqb_compare_congr s 0.0 9.0 H0) as (-> & _ & ->).
    destruct (FloatFacts.eqb_compare_congr s 0.0 7.0 H0) as (-> & _ & _).
    destruct (FloatFacts.eqb_compare_congr s 0.0 4.0 H0) as (-> & _ & _).
    destruct (FloatFacts.eqb_compare_congr s 0.0 0.0 H0) as (_ & -> & _).
    reflexivity. }
  repeat split; reflexivity.
Qed.

(** A score of 7.5 is HIGH, one of 3.9 is LOW, and minus zero is INFO. *)
Lemma scoreToSeverity_thresholds_witness :
  scoreToSeverity (Some 7.5) = Some "HIGH" /\
  scoreToSeverity (Some 3.9) = Some "LOW" /\
  scoreToSeverity (Some (-0)) = Some "INFO".
Proof.
  split; [|split].
  - apply (proj1 (proj2 (proj2 (proj2 (scoreToSeverity_thresholds 7.5)))));
      reflexivity.
  - apply (proj1 (proj2 (proj2 (proj2 (proj2 (proj2
             (scoreToSeverity_thresholds 3.9)))))));
      reflexivity.
  - apply (proj1 (proj2 (proj2 (proj2 (proj2 (proj2 (proj2
             (scoreToSeverity_thresholds (-0)))))))));
      reflexivity.
Defined.

End Severity.
(** * The lookup table *)

Section LookupTable.

#[local] Open Scope float_scope.

Lemma isTenthUpTo_sound bound v :
  isTenthUpTo bound v = true -> exists n, (n <= bound)%nat /\ v = tenths n.
Proof.
  unfold isTenthUpTo. rewrite existsb_exists. intros (n & Hin & Heq).
  exists n. split.
  - apply in_seq in Hin. lia.
  - apply FloatAxioms.Leibniz.eqb_spec. exact Heq.
Qed.

(** C4 (as amended). The lookup table is a constant association with
    exactly 270 pairwise distinct keys; every value lies between 0 and 10
    and is a multiple of 0.1, that is, the binary64 number of [n / 10] for
    a whole number [n] of at most 100. *)
Theorem LOOKUP_TABLE_shape :
  length LOOKUP_TABLE = 270%nat /\
  NoDup (map fst LOOKUP_TABLE) /\
  Forall (fun kv => (0 <=? snd kv) = true /\ (snd kv <=? 10) = true /\
                    exists n, (n <= 100)%nat /\ snd kv = tenths n)
         LOOKUP_TABLE.
Proof.
  split; [reflexivity|]. split.
  - apply (bool_decide_unpack _). vm_compute. reflexivity.
  - apply List.Forall_forall. intros kv Hin.
    assert (H : forallb (fun kv => (0 <=? snd kv) && (snd kv <=? 10) &&
                                   isTenthUpTo 100%nat (snd kv)) LOOKUP_TABLE
                = true) by (vm_compute; reflexivity).
    rewrite forallb_forall in H. specialize (H kv Hin).
    apply andb_prop in H as [H H3]. apply andb_prop in H as [H1 H2].
    auto using isTenthUpTo_sound.
Qed.

(** The table does not have 246 keys: its keys are pairwise distinct and
    there are 270 of them. *)
Lemma LOOKUP_TABLE_not_246_keys :
  ~ (NoDup (map fst LOOKUP_TABLE) /\ length (map fst LOOKUP_TABLE) = 246%nat).
Proof.
  intros [_ H]. vm_compute in H. discriminate H.
Qed.

End LookupTable.

(** * The zero-impact short circuit *)

Section ZeroImpact.

(** C3. When the six impact metrics all resolve to N, the score is exactly
    0.0 whatever the lookup table holds and whatever the exploitability
    metrics are, and the severity is INFO. *)
Theorem zero_impact_scores_zero
    (table : list (string * float)) (m : gmap string string) :
  effectiveValue m "VC" = "N" -> effectiveValue m "VI" = "N" ->
  effectiveValue m "VA" = "N" -> effectiveValue m "SC" = "N" ->
  effectiveValue m "SI" = "N" -> effectiveValue m "SA" = "N" ->
  calculateScoreIn table m = Some 0%float /\
  ms_score (metricsToScore m) = Some 0%float /\
  ms_severity (metricsToScore m) = Some "INFO".
Proof.
  intros HVC HVI HVA HSC HSI HSA.
  assert (H : forall t, calculateScoreIn t m = Some 0%float).
  { intros t. unfold calculateScoreIn. cbn [forallb].
    rewrite HVC, HVI, HVA, HSC, HSI, HSA. reflexivity. }
  split; [apply H|].
  unfold metricsToScore, calculateScore. cbn [ms_score ms_severity].
  rewrite H. split; reflexivity.
Qed.

(** Physical access, high complexity, high privileges and no impact at all:
    the score is 0.0 and the label INFO. *)
Lemma zero_impact_scores_zero_witness :
  let m : gmap string string :=
    {[ "AV" := "P"; "AC" := "H"; "PR" := "H"; "UI" := "A" ]} in
  calculateScoreIn [] m = Some 0%float /\
  ms_score (metricsToScore m) = Some 0%float /\
  ms_severity (metricsToScore m) = Some "INFO".
Proof.
  intros m. apply (zero_impact_scores_zero [] m); vm_compute; reflexivity.
Defined.

End ZeroImpact.

(** * The MacroVector classifier *)

Section Classifier.

Ltac case_eqb :=
  repeat match goal with
         | |- context [String.eqb ?a ?b] => destruct (String.eqb a b)
         end.

Lemma macroDigits_ok (m : gmap string string) : digitsOk (macroDigits m) = true.
Proof.
  unfold macroDigits, digitsOk. cbv zeta.
  generalize (effectiveValue m "AV") (effectiveValue m "PR")
    (effectiveValue m "UI") (effectiveValue m "AC") (effectiveValue m "AT")
    (effectiveValue m "VC") (effectiveValue m "VI") (effectiveValue m "VA")
    (effectiveValue m "SC") (effectiveValue m "SI") (effectiveValue m "SA")
    (effectiveValue m "E") (effectiveValue m "CR") (effectiveValue m "IR")
    (effectiveValue m "AR")
    (Js.template (Js.or (m !! "MSI") (Some "X")))
    (Js.template (Js.or (m !! "MSA") (Some "X"))).
  intros AV PR UI AC AT VC VI VA SC SI SA E CR IR AR MSI MSA.
  repeat (apply andb_true_intro; split); case_eqb; reflexivity.
Qed.

Lemma digitsOk_reachable (d : digits6) :
  digitsOk d = true -> In d reachableDigits.
Proof.
  intros H. apply filter_In. split; [|exact H].
  destruct d as [[[[[e1 e2] e3] e4] e5] e6]. unfold digitsOk in H.
  rewrite !andb_true_iff, !Nat.leb_le in H.
  destruct H as [[[[[[H1 H2] H3] H4] H5] H6] _].
  unfold digitGrid.
  apply (proj2 (List.in_flat_map _ _ _)). exists e1. split; [apply in_seq; lia|].
  apply (proj2 (List.in_flat_map _ _ _)). exists e2. split; [apply in_seq; lia|].
  apply (proj2 (List.in_flat_map _ _ _)). exists e3. split; [apply in_seq; lia|].
  apply (proj2 (List.in_flat_map _ _ _)). exists e4. split; [apply in_seq; lia|].
  apply (proj2 (List.in_flat_map _ _ _)). exists e5. split; [apply in_seq; lia|].
  apply (proj2 (List.in_map_iff _ _ _)). exists e6.
  split; [reflexivity|apply in_seq; lia].
Qed.

Lemma macroDigits_reachable (m : gmap string string) :
  In (macroDigits m) reachableDigits.
Proof. apply digitsOk_reachable, macroDigits_ok. Qed.

(** A property of digit tuples that a computation confirms on the 270
    reachable ones holds of the digits of every metrics object. *)
Lemma reachable_ind (P : digits6 -> bool) (m : gmap string string) :
  forallb P reachableDigits = true -> P (macroDigits m) = true.
Proof.
  intros H. rewrite forallb_forall in H. apply H, macroDigits_reachable.
Qed.

Lemma optFloatEqb_eq (a b : option float) : optFloatEqb a b = true -> a = b.
Proof.
  destruct a, b; simpl; try discriminate; try reflexivity.
  intros H. apply FloatAxioms.Leibniz.eqb_spec in H. congruence.
Qed.

Lemma macroVector_key (m : gmap string string) :
  macroVector m =
  (let '(eq1, eq2, eq3, eq4, eq5, eq6) := macroDigits m in
   macroKey eq1 eq2 eq3 eq4 eq5 eq6).
Proof. reflexivity. Qed.

(** Reading the digits back from the key gives the digits. *)
Lemma digitsOf_macroVector (m : gmap string string) :
  digitsOf (macroVector m) =
  (let '(eq1, eq2, eq3, eq4, eq5, eq6) := macroDigits m in
   [Some eq1; Some eq2; Some eq3; Some eq4; Some eq5; Some eq6]).
Proof.
  rewrite macroVector_key.
  pose (P := fun d : digits6 =>
    let '(eq1, eq2, eq3, eq4, eq5, eq6) := d in
    bool_decide (digitsOf (macroKey eq1 eq2 eq3 eq4 eq5 eq6) =
                 [Some eq1; Some eq2; Some eq3; Some eq4; Some eq5; Some eq6])).
  assert (H : P (macroDigits m) = true)
    by (apply reachable_ind; vm_compute; reflexivity).
  subst P. destruct (macroDigits m) as [[[[[e1 e2] e3] e4] e5] e6].
  apply bool_decide_eq_true in H. exact H.
Qed.

Lemma lookup_macroVector (m : gmap string string) :
  exists value, lookupScore LOOKUP_TABLE (macroVector m) = Some value.
Proof.
  rewrite macroVector_key.
  pose (P := fun d : digits6 =>
    let '(eq1, eq2, eq3, eq4, eq5, eq6) := d in
    match lookupScore LOOKUP_TABLE (macroKey eq1 eq2 eq3 eq4 eq5 eq6) with
    | Some _ => true
    | None => false
    end).
  assert (H : P (macroDigits m) = true)
    by (apply reachable_ind; vm_compute; reflexivity).
  subst P. destruct (macroDigits m) as [[[[[e1 e2] e3] e4] e5] e6].
  destruct (lookupScore _ _); [eauto|discriminate].
Qed.

(** C10. The MacroVector of every metrics object is a key of the lookup
    table: the classifier never yields EQ3 = 2 together with EQ6 = 0, every
    other combination of digits in range is in the table, and so
    [calculateScore] never takes the branch that returns [null]. *)
Theorem macroVector_in_table (m : gmap string string) :
  (let '(eq1, eq2, eq3, eq4, eq5, eq6) := macroDigits m in
   ~ (eq3 = 2 /\ eq6 = 0)) /\
  (forall d, digitsOk d = true ->
     let '(eq1, eq2, eq3, eq4, eq5, eq6) := d in
     exists value,
       lookupScore LOOKUP_TABLE (macroKey eq1 eq2 eq3 eq4 eq5 eq6) = Some value) /\
  (exists value, lookupScore LOOKUP_TABLE (macroVector m) = Some value) /\
  (exists score, calculateScore m = Some score).
Proof.
  split; [|split; [|split]].
  - pose proof (macroDigits_ok m) as H.
    destruct (macroDigits m) as [[[[[e1 e2] e3] e4] e5] e6].
    unfold digitsOk in H. rewrite !andb_true_iff in H. destruct H as [_ H].
    intros [-> ->]. discriminate H.
  - intros d Hd. apply digitsOk_reachable in Hd.
    assert (H : forallb (fun d : digits6 =>
      let '(eq1, eq2, eq3, eq4, eq5, eq6) := d in
      match lookupScore LOOKUP_TABLE (macroKey eq1 eq2 eq3 eq4 eq5 eq6) with
      | Some _ => true
      | None => false
      end) reachableDigits = true) by (vm_compute; reflexivity).
    rewrite forallb_forall in H. specialize (H d Hd).
    destruct d as [[[[[e1 e2] e3] e4] e5] e6].
    destruct (lookupScore _ _); [eauto|discriminate].
  - apply lookup_macroVector.
  - unfold calculateScore, calculateScoreIn.
    destruct (forallb _ _); [eauto|].
    destruct (lookup_macroVector m) as [value ->].
    rewrite digitsOf_macroVector.
    destruct (macroDigits m) as [[[[[e1 e2] e3] e4] e5] e6].
    destruct (firstSome _ _); eauto.
Qed.

(** C7. For the digits of every metrics object, the EQ3/EQ6 neighbour that
    the interpolation uses is the one the specification describes. *)
Theorem score_eq3eq6_next_spec (m : gmap string string) :
  let '(eq1, eq2, eq3, eq4, eq5, eq6) := macroDigits m in
  score_eq3eq6_next LOOKUP_TABLE eq1 eq2 eq3 eq4 eq5 eq6 =
  eq3eq6NeighbourSpec LOOKUP_TABLE eq1 eq2 eq3 eq4 eq5 eq6.
Proof.
  pose (P := fun d : digits6 =>
    let '(eq1, eq2, eq3, eq4, eq5, eq6) := d in
    optFloatEqb (score_eq3eq6_next LOOKUP_TABLE eq1 eq2 eq3 eq4 eq5 eq6)
                (eq3eq6NeighbourSpec LOOKUP_TABLE eq1 eq2 eq3 eq4 eq5 eq6)).
  assert (H : P (macroDigits m) = true)
    by (apply reachable_ind; vm_compute; reflexivity).
  subst P. destruct (macroDigits m) as [[[[[e1 e2] e3] e4] e5] e6].
  apply optFloatEqb_eq. exact H.
Qed.

End Classifier.

(** * JavaScript string operations *)

Module JsFacts.

Lemma append_cons c s t : String c s +:+ t = String c (s +:+ t).
Proof. reflexivity. Qed.

Lemma append_nil s : "" +:+ s = s.
Proof. reflexivity. Qed.

Lemma append_assoc s t u : (s +:+ t) +:+ u = s +:+ (t +:+ u).
Proof. induction s as [|c s IH]; [reflexivity|]. rewrite !append_cons, IH. reflexivity. Qed.

Lemma append_nil_r s : s +:+ "" = s.
Proof. induction s as [|c s IH]; [reflexivity|]. rewrite append_cons, IH. reflexivity. Qed.

Lemma prefix_append p s : String.prefix p (p +:+ s) = true.
Proof.
  induction p as [|c p IH]; [destruct s; reflexivity|].
  rewrite append_cons. cbn [String.prefix].
  destruct (ascii_dec c c); [exact IH|congruence].
Qed.

Lemma prefix_inv p s : String.prefix p s = true -> s = p +:+ Js.slice_from (String.length p) s.
Proof.
  revert s. induction p as [|c p IH]; intros s H; [reflexivity|].
  destruct s as [|c' s]; [discriminate|]. cbn [String.prefix] in H.
  destruct (ascii_dec c c'); [|discriminate]. subst c'.
  cbn [String.length Js.slice_from]. rewrite append_cons. f_equal. apply IH, H.
Qed.

Lemma indexOf_prefix s p : String.prefix p s = true -> Js.indexOf s p = Some 0.
Proof. intros H. destruct s; cbn [Js.indexOf]; rewrite H; reflexivity. Qed.

(** Replacing a leading [p] by the empty string drops it. *)
Lemma replace_prefix s p :
  Js.startsWith s p = true -> Js.replace s p "" = Js.slice_from (String.length p) s.
Proof.
  unfold Js.startsWith, Js.replace. intros H. rewrite (indexOf_prefix s p H).
  destruct s; reflexivity.
Qed.

Lemma split_token sep a rest :
  occurs sep a = false ->
  Js.split sep (a +:+ String sep rest) = a :: Js.split sep rest.
Proof.
  induction a as [|c a IH]; intros H.
  - rewrite append_nil. cbn [Js.split]. rewrite Ascii.eqb_refl. reflexivity.
  - cbn [occurs] in H. apply orb_false_elim in H as [Hc Ha].
    rewrite append_cons. cbn [Js.split]. rewrite Hc, (IH Ha). reflexivity.
Qed.

Lemma split_last sep a : occurs sep a = false -> Js.split sep a = [a].
Proof.
  induction a as [|c a IH]; intros H; [reflexivity|].
  cbn [occurs] in H. apply orb_false_elim in H as [Hc Ha].
  cbn [Js.split]. rewrite Hc, (IH Ha). reflexivity.
Qed.

Lemma rev_app_append s t acc :
  String.rev_app (s +:+ t) acc = String.rev_app t (String.rev_app s acc).
Proof.
  revert acc. induction s as [|c s IH]; intros acc; [reflexivity|].
  rewrite append_cons. cbn [String.rev_app]. apply IH.
Qed.

Lemma rev_app_rev_app s acc t :
  String.rev_app (String.rev_app s acc) t = String.rev_app acc (s +:+ t).
Proof.
  revert acc t. induction s as [|c s IH]; intros acc t; [reflexivity|].
  cbn [String.rev_app]. rewrite IH. cbn [String.rev_app]. reflexivity.
Qed.

Lemma rev_involutive s : String.rev (String.rev s) = s.
Proof.
  unfold String.rev. rewrite rev_app_rev_app. cbn [String.rev_app].
  apply append_nil_r.
Qed.

(** A string that ends in a code unit that is no white space is its own
    [trimEnd]. *)
Lemma trimEnd_last s c :
  Js.isWhiteSpace c = false -> Js.trimEnd (s +:+ String c "") = s +:+ String c "".
Proof.
  intros H. unfold Js.trimEnd.
  assert (E : String.rev (s +:+ String c "") = String c (String.rev s)).
  { unfold String.rev. rewrite rev_app_append. reflexivity. }
  rewrite E. cbn [Js.trimStart]. rewrite H, <- E. apply rev_involutive.
Qed.

End JsFacts.

(** * The vector parser *)

Section Parser.

Lemma existsb_eqb_elem_of (v : string) (l : list string) :
  existsb (String.eqb v) l = bool_decide (v ∈ l).
Proof.
  induction l as [|x l IH]; [reflexivity|].
  cbn [existsb]. rewrite IH.
  destruct (String.eqb_spec v x) as [->|Hne].
  - symmetry. apply bool_decide_eq_true. left.
  - cbn [orb]. apply bool_decide_ext. rewrite elem_of_cons. tauto.
Qed.

(** One round of the validation loop in terms of [metricStatus] *)
Lemma validateBase_step key rest (M : gmap string string) :
  enumOf key <> [] ->
  validateBase (key :: rest) M =
  match metricStatus M key with
  | MetricMissing =>
      mkParseResult (Some M) false (Some ("Missing metric: " +:+ key))
  | MetricInvalid v =>
      mkParseResult (Some M) false
        (Some ("Invalid value for " +:+ key +:+ ": " +:+ v))
  | MetricOk => validateBase rest M
  end.
Proof.
  intros Hne. cbn [validateBase]. unfold metricStatus.
  destruct (M !! key) as [[|c v]|]; try reflexivity.
  fold (enumOf key). rewrite existsb_eqb_elem_of.
  destruct (enumOf key) as [|o os] eqn:E; [congruence|].
  cbn [length Nat.eqb negb andb].
  destruct (bool_decide (String c v ∈ o :: os)); reflexivity.
Qed.

Lemma enumOf_base key : In key BASE_METRIC_ORDER -> enumOf key <> [].
Proof.
  unfold BASE_METRIC_ORDER. cbn [In].
  intros H; repeat (destruct H as [<-|H]; [discriminate|]); destruct H.
Qed.

Lemma validateBase_first pre key post (M : gmap string string) :
  (forall k, In k (pre ++ key :: post) -> enumOf k <> []) ->
  (forall k, In k pre -> metricStatus M k = MetricOk) ->
  validateBase (pre ++ key :: post) M =
  match metricStatus M key with
  | MetricMissing =>
      mkParseResult (Some M) false (Some ("Missing metric: " +:+ key))
  | MetricInvalid v =>
      mkParseResult (Some M) false
        (Some ("Invalid value for " +:+ key +:+ ": " +:+ v))
  | MetricOk => validateBase post M
  end.
Proof.
  induction pre as [|p pre IH]; intros Hne Hok.
  - apply validateBase_step, Hne. left. reflexivity.
  - rewrite <- app_comm_cons, validateBase_step by (apply Hne; left; reflexivity).
    rewrite (Hok p) by (left; reflexivity).
    apply IH.
    + intros k Hk. apply Hne. right. exact Hk.
    + intros k Hk. apply Hok. right. exact Hk.
Qed.

Lemma validateBase_all_ok keys (M : gmap string string) :
  (forall k, In k keys -> enumOf k <> []) ->
  (forall k, In k keys -> metricStatus M k = MetricOk) ->
  validateBase keys M = mkParseResult (Some M) true None.
Proof.
  induction keys as [|k keys IH]; intros Hne Hok; [reflexivity|].
  rewrite validateBase_step by (apply Hne; left; reflexivity).
  rewrite (Hok k) by (left; reflexivity).
  apply IH; intros k' Hk'; [apply Hne|apply Hok]; right; exact Hk'.
Qed.

(** Past the two format checks [parseVector] validates the assignments of
    the tokens. *)
Lemma parseVector_validate (V : string) :
  V <> "" -> Js.startsWith (Js.trim V) "CVSS:4.0/" = true ->
  parseVector V = validateBase BASE_METRIC_ORDER (vectorAssignments V).
Proof.
  intros Hne Hpre. unfold parseVector, vectorAssignments.
  destruct (String.eqb_spec V "") as [->|_]; [congruence|].
  rewrite Hpre. cbn [negb]. rewrite JsFacts.replace_prefix by exact Hpre.
  reflexivity.
Qed.

(** C8 (as amended). [parseVector] fails with a format error for the empty
    input and for every input that, once trimmed of surrounding white
    space, does not start with [CVSS:4.0/]. Otherwise it reports the first
    base metric in the fixed order whose assignment is absent or invalid:
    as missing, by name, when it is absent, and as invalid, by name and
    value, when its value is outside the enumeration. When no base metric
    is absent or invalid the input is valid, whatever other tokens it
    holds. *)
Theorem parseVector_errors (V : string) :
  (V = "" ->
     parseVector V = mkParseResult None false (Some "Empty vector")) /\
  (V <> "" -> Js.startsWith (Js.trim V) "CVSS:4.0/" = false ->
     parseVector V =
     mkParseResult None false (Some "Must start with CVSS:4.0/")) /\
  (V <> "" -> Js.startsWith (Js.trim V) "CVSS:4.0/" = true ->
     let M := vectorAssignments V in
     (forall pre key post,
        BASE_METRIC_ORDER = pre ++ key :: post ->
        (forall k, In k pre -> metricStatus M k = MetricOk) ->
        (metricStatus M key = MetricMissing ->
           parseVector V =
           mkParseResult (Some M) false (Some ("Missing metric: " +:+ key))) /\
        (forall v, metricStatus M key = MetricInvalid v ->
           parseVector V =
           mkParseResult (Some M) false
             (Some ("Invalid value for " +:+ key +:+ ": " +:+ v)))) /\
     ((forall k, In k BASE_METRIC_ORDER -> metricStatus M k = MetricOk) ->
        parseVector V = mkParseResult (Some M) true None)).
Proof.
  split; [|split].
  - intros ->. reflexivity.
  - intros Hne Hpre. unfold parseVector.
    destruct (String.eqb_spec V "") as [->|_]; [congruence|].
    rewrite Hpre. reflexivity.
  - intros Hne Hpre M. rewrite (parseVector_validate V Hne Hpre). fold M.
    split.
    + intros pre key post Horder Hok. rewrite Horder.
      rewrite validateBase_first; [|rewrite <- Horder; apply enumOf_base|exact Hok].
      split; [intros ->; reflexivity|intros v ->; reflexivity].
    + intros Hok. apply validateBase_all_ok; [apply enumOf_base|exact Hok].
Qed.

(** A vector without AV is reported as missing AV, and one whose AC is Q
    as an invalid value for AC. *)
Lemma parseVector_errors_witness :
  parseVector "CVSS:4.0/AC:L/AT:N/PR:N/UI:N/VC:H/VI:H/VA:H/SC:N/SI:N/SA:N" =
    mkParseResult
      (Some (vectorAssignments
               "CVSS:4.0/AC:L/AT:N/PR:N/UI:N/VC:H/VI:H/VA:H/SC:N/SI:N/SA:N"))
      false (Some "Missing metric: AV") /\
  parseVector "CVSS:4.0/AV:N/AC:Q" =
    mkParseResult (Some (vectorAssignments "CVSS:4.0/AV:N/AC:Q"))
      false (Some "Invalid value for AC: Q").
Proof.
  split.
  - refine (proj1 (proj1 (proj2 (proj2 (parseVector_errors _)) _ _)
                     [] "AV" _ eq_refl _) _).
    + discriminate.
    + reflexivity.
    + intros k [].
    + vm_compute. reflexivity.
  - refine (proj2 (proj1 (proj2 (proj2 (parseVector_errors _)) _ _)
                     ["AV"] "AC" _ eq_refl _) "Q" _).
    + discriminate.
    + reflexivity.
    + intros k [<-|[]]. vm_compute. reflexivity.
    + vm_compute. reflexivity.
Defined.

(** An input with a leading blank does not start with the prefix and is
    valid all the same. *)
Lemma parseVector_leading_blank_valid :
  let V := " CVSS:4.0/AV:N/AC:L/AT:N/PR:N/UI:N/VC:N/VI:N/VA:N/SC:N/SI:N/SA:N" in
  V <> "" /\ Js.startsWith V "CVSS:4.0/" = false /\
  isValid (parseVector V) = true /\ error (parseVector V) = None.
Proof.
  cbv zeta. split; [discriminate|]. repeat split; vm_compute; reflexivity.
Qed.

End Parser.

(** * Building a vector and parsing it back *)

Section RoundTrip.

Lemma occurs_append c s t : occurs c (s +:+ t) = occurs c s || occurs c t.
Proof.
  induction s as [|a s IH]; [reflexivity|].
  rewrite JsFacts.append_cons. cbn [occurs]. rewrite IH, orb_assoc. reflexivity.
Qed.

Lemma split_join (sep : ascii) (ps : list string) :
  ps <> [] -> (forall p, In p ps -> occurs sep p = false) ->
  Js.split sep (Js.join (String sep "") ps) = ps.
Proof.
  induction ps as [|p ps IH]; intros Hne Hocc; [congruence|].
  destruct ps as [|q ps].
  - cbn [Js.join]. apply JsFacts.split_last, Hocc. left. reflexivity.
  - cbn [Js.join] in *. rewrite JsFacts.append_cons, JsFacts.append_nil.
    rewrite JsFacts.split_token by (apply Hocc; left; reflexivity).
    f_equal. apply IH; [discriminate|]. intros r Hr. apply Hocc. right. exact Hr.
Qed.

Lemma endsNonBlank_append s t :
  endsNonBlank t = true -> endsNonBlank (s +:+ t) = true.
Proof.
  intros Ht. induction s as [|c s IH]; [exact Ht|].
  rewrite JsFacts.append_cons. cbn [endsNonBlank].
  destruct (s +:+ t) eqn:E; [|exact IH].
  destruct s; [|rewrite JsFacts.append_cons in E; discriminate].
  rewrite JsFacts.append_nil in E. rewrite E in Ht. discriminate.
Qed.

Lemma endsNonBlank_last s :
  endsNonBlank s = true ->
  exists s' c, s = s' +:+ String c "" /\ Js.isWhiteSpace c = false.
Proof.
  induction s as [|c s IH]; [discriminate|].
  destruct s as [|d s].
  - cbn. intros H. exists "", c. split; [reflexivity|].
    destruct (Js.isWhiteSpace c); [discriminate|reflexivity].
  - intros H. destruct (IH H) as (s' & e & -> & He).
    exists (String c s'), e. split; [reflexivity|exact He].
Qed.

Lemma trimEnd_endsNonBlank s : endsNonBlank s = true -> Js.trimEnd s = s.
Proof.
  intros H. destruct (endsNonBlank_last s H) as (s' & c & -> & Hc).
  apply JsFacts.trimEnd_last, Hc.
Qed.

(** The values of the enumerations are single letters: they hold no
    separator, are not empty and end in no white space. *)
Lemma enum_value_simple key v :
  In key BASE_METRIC_ORDER -> In v (enumOf key) ->
  occurs "/" v = false /\ occurs ":" v = false /\
  Js.truthy (Some v) = true /\ endsNonBlank v = true.
Proof.
  unfold BASE_METRIC_ORDER. cbn [In]. intros Hk Hv.
  repeat (destruct Hk as [<-|Hk];
          [vm_compute in Hv;
           repeat (destruct Hv as [<-|Hv]; [repeat split; reflexivity|]);
           destruct Hv|]).
  destruct Hk.
Qed.

Lemma base_key_simple key :
  In key BASE_METRIC_ORDER ->
  occurs "/" key = false /\ occurs ":" key = false /\
  Js.truthy (Some key) = true.
Proof.
  unfold BASE_METRIC_ORDER. cbn [In]. intros Hk.
  repeat (destruct Hk as [<-|Hk]; [repeat split; reflexivity|]). destruct Hk.
Qed.

Lemma parseToken_assign (M : gmap string string) (k v : string) :
  occurs ":" k = false -> occurs ":" v = false ->
  Js.truthy (Some k) = true -> Js.truthy (Some v) = true ->
  parseToken M (k +:+ ":" +:+ v) = <[k := v]> M.
Proof.
  intros Hk Hv Tk Tv. unfold parseToken.
  rewrite JsFacts.append_cons, JsFacts.append_nil.
  rewrite JsFacts.split_token by exact Hk.
  rewrite JsFacts.split_last by exact Hv.
  rewrite Tk, Tv. reflexivity.
Qed.

Lemma fold_parseToken_tokens (val : string -> string) (ks : list string)
    (M : gmap string string) :
  (forall k, In k ks ->
     occurs ":" k = false /\ occurs ":" (val k) = false /\
     Js.truthy (Some k) = true /\ Js.truthy (Some (val k)) = true) ->
  fold_left parseToken (map (fun k => k +:+ ":" +:+ val k) ks) M =
  fold_left (fun acc k => <[k := val k]> acc) ks M.
Proof.
  revert M. induction ks as [|k ks IH]; intros M H; [reflexivity|].
  cbn [map fold_left].
  destruct (H k (or_introl eq_refl)) as (H1 & H2 & H3 & H4).
  rewrite parseToken_assign by assumption.
  apply IH. intros k' Hk'. apply H. right. exact Hk'.
Qed.

Lemma lookup_fold_insert (val : string -> string) (ks : list string)
    (M : gmap string string) (k : string) :
  fold_left (fun acc key => <[key := val key]> acc) ks M !! k =
  if bool_decide (k ∈ ks) then Some (val k) else M !! k.
Proof.
  revert M. induction ks as [|a ks IH]; intros M; [reflexivity|].
  cbn [fold_left]. rewrite IH.
  destruct (decide (k ∈ ks)) as [Hin|Hnin].
  - rewrite !bool_decide_eq_true_2; [reflexivity| |exact Hin].
    right. exact Hin.
  - rewrite (bool_decide_eq_false_2 _ Hnin).
    destruct (decide (a = k)) as [->|Hne].
    + rewrite lookup_insert_eq, bool_decide_eq_true_2; [reflexivity|left].
    + rewrite lookup_insert_ne by exact Hne.
      rewrite bool_decide_eq_false_2; [reflexivity|].
      rewrite elem_of_cons. intros [->|?]; tauto.
Qed.

Lemma baseOnly_lookup (m : gmap string string) (k : string) :
  baseOnly m !! k =
  if bool_decide (k ∈ BASE_METRIC_ORDER) then Some (baseValue m k) else None.
Proof. unfold baseOnly. rewrite lookup_fold_insert. reflexivity. Qed.

(** [buildVector] writes the prefix and the eleven tokens. *)
Lemma buildVector_tokens (m : gmap string string) :
  buildVector m =
  "CVSS:4.0/" +:+ Js.join "/" (map (baseToken m) BASE_METRIC_ORDER).
Proof. reflexivity. Qed.

(** When every value that [buildVector] writes is in its enumeration, the
    vector parses back, valid, to those eleven assignments. *)
Lemma parseVector_buildVector (m : gmap string string) :
  (forall k, In k BASE_METRIC_ORDER -> In (baseValue m k) (enumOf k)) ->
  Js.split "/" (Js.slice_from 9 (Js.trim (buildVector m))) =
    map (baseToken m) BASE_METRIC_ORDER /\
  parseVector (buildVector m) = mkParseResult (Some (baseOnly m)) true None.
Proof.
  intros Henum.
  assert (Hv : forall k, In k BASE_METRIC_ORDER ->
             occurs "/" (baseValue m k) = false /\
             occurs ":" (baseValue m k) = false /\
             Js.truthy (Some (baseValue m k)) = true /\
             endsNonBlank (baseValue m k) = true).
  { intros k Hk. apply (enum_value_simple k); [exact Hk|apply Henum, Hk]. }
  set (toks := Js.join "/" (map (baseToken m) BASE_METRIC_ORDER)).
  assert (Hb : buildVector m = "CVSS:4.0/" +:+ toks) by reflexivity.
  assert (Htrim : Js.trim (buildVector m) = buildVector m).
  { unfold Js.trim. rewrite Hb.
    change (Js.trimStart ("CVSS:4.0/" +:+ toks)) with ("CVSS:4.0/" +:+ toks).
    apply trimEnd_endsNonBlank, endsNonBlank_append.
    subst toks. cbn [map BASE_METRIC_ORDER Js.join].
    repeat apply endsNonBlank_append.
    apply Hv. cbn. tauto. }
  assert (Hsplit : Js.split "/" (Js.slice_from 9 (Js.trim (buildVector m))) =
                   map (baseToken m) BASE_METRIC_ORDER).
  { rewrite Htrim, Hb.
    change (Js.slice_from 9 ("CVSS:4.0/" +:+ toks)) with toks.
    subst toks. apply split_join; [discriminate|].
    intros p Hp. apply in_map_iff in Hp as (k & <- & Hk).
    unfold baseToken. rewrite !occurs_append.
    destruct (base_key_simple k Hk) as (-> & _ & _).
    destruct (Hv k Hk) as (-> & _). reflexivity. }
  split; [exact Hsplit|].
  rewrite parseVector_validate.
  - unfold vectorAssignments. rewrite Hsplit.
    unfold baseToken. rewrite (fold_parseToken_tokens (baseValue m)).
    + fold (baseOnly m). apply validateBase_all_ok; [apply enumOf_base|].
      intros k Hk. unfold metricStatus. rewrite baseOnly_lookup.
      rewrite bool_decide_eq_true_2 by (apply list_elem_of_In; exact Hk).
      destruct (Hv k Hk) as (_ & _ & Ht & _).
      destruct (baseValue m k) as [|c v] eqn:E; [discriminate|].
      rewrite bool_decide_eq_true_2; [reflexivity|].
      apply list_elem_of_In. rewrite <- E. apply Henum, Hk.
    + intros k Hk. destruct (base_key_simple k Hk) as (_ & H1 & H2).
      destruct (Hv k Hk) as (_ & H3 & H4 & _). auto.
  - rewrite Hb. discriminate.
  - rewrite Htrim, Hb. reflexivity.
Qed.

Lemma validateBase_valid_inv keys (M : gmap string string) :
  (forall k, In k keys -> enumOf k <> []) ->
  isValid (validateBase keys M) = true ->
  forall k, In k keys -> metricStatus M k = MetricOk.
Proof.
  induction keys as [|a keys IH]; intros Hne Hvalid k Hk; [destruct Hk|].
  rewrite validateBase_step in Hvalid by (apply Hne; left; reflexivity).
  destruct (metricStatus M a) eqn:Ea; try discriminate.
  destruct Hk as [<-|Hk]; [exact Ea|].
  apply IH; [|exact Hvalid|exact Hk].
  intros k' Hk'. apply Hne. right. exact Hk'.
Qed.

Lemma metricStatus_ok_inv (M : gmap string string) (k : string) :
  metricStatus M k = MetricOk ->
  exists v, M !! k = Some v /\ In v (enumOf k) /\ baseValue M k = v.
Proof.
  unfold metricStatus, baseValue. destruct (M !! k) as [[|c v]|]; try discriminate.
  destruct (bool_decide (String c v ∈ enumOf k)) eqn:E; [|discriminate].
  intros _. exists (String c v). apply bool_decide_eq_true in E.
  split; [reflexivity|]. split; [apply list_elem_of_In, E|reflexivity].
Qed.

(** A valid input is not empty, starts with the prefix once trimmed, and
    its result holds the assignments of its tokens, all base metrics among
    them in their enumerations. *)
Lemma parseVector_valid_inv (V : string) :
  isValid (parseVector V) = true ->
  metrics (parseVector V) = Some (vectorAssignments V) /\
  forall k, In k BASE_METRIC_ORDER -> metricStatus (vectorAssignments V) k = MetricOk.
Proof.
  intros Hvalid.
  assert (Hne : V <> "") by (intros ->; discriminate Hvalid).
  assert (Hpre : Js.startsWith (Js.trim V) "CVSS:4.0/" = true).
  { destruct (Js.startsWith (Js.trim V) "CVSS:4.0/") eqn:E; [reflexivity|].
    unfold parseVector in Hvalid.
    destruct (String.eqb V ""); [discriminate|]. rewrite E in Hvalid.
    discriminate. }
  rewrite (parseVector_validate V Hne Hpre) in Hvalid |- *.
  pose proof (validateBase_valid_inv _ _ enumOf_base Hvalid) as Hok.
  split; [|exact Hok].
  rewrite (validateBase_all_ok _ _ enumOf_base Hok). reflexivity.
Qed.

(** C5. For a valid vector string [V] with parsed metrics [M], the string
    that [buildVector] makes of [M] consists of the prefix and the eleven
    tokens [KEY:VALUE] in which [VALUE] is the value that [V] assigns to
    [KEY], and it parses back, valid, to the same eleven assignments. *)
Theorem buildVector_parseVector_roundtrip (V : string) (M : gmap string string) :
  isValid (parseVector V) = true -> metrics (parseVector V) = Some M ->
  M = vectorAssignments V /\
  Js.split "/" (Js.slice_from 9 (Js.trim (buildVector M))) =
    map (fun k => k +:+ ":" +:+ Js.template (M !! k)) BASE_METRIC_ORDER /\
  isValid (parseVector (buildVector M)) = true /\
  forall k, In k BASE_METRIC_ORDER ->
    exists v, M !! k = Some v /\ In v (enumOf k) /\
              vectorAssignments (buildVector M) !! k = Some v.
Proof.
  intros Hvalid HM.
  destruct (parseVector_valid_inv V Hvalid) as [HM' Hok].
  assert (M = vectorAssignments V) as -> by congruence. clear HM HM'.
  set (M := vectorAssignments V) in *.
  assert (Hval : forall k, In k BASE_METRIC_ORDER ->
            exists v, M !! k = Some v /\ In v (enumOf k) /\ baseValue M k = v).
  { intros k Hk. apply metricStatus_ok_inv, Hok, Hk. }
  destruct (parseVector_buildVector M) as [Hsplit Hparse].
  { intros k Hk. destruct (Hval k Hk) as (v & _ & Hin & ->). exact Hin. }
  split; [reflexivity|]. split; [|split].
  - rewrite Hsplit. apply map_ext_in. intros k Hk.
    destruct (Hval k Hk) as (v & Hv & _ & Hb).
    unfold baseToken. rewrite Hb, Hv. reflexivity.
  - rewrite Hparse. reflexivity.
  - intros k Hk. destruct (Hval k Hk) as (v & Hv & Hin & Hb).
    exists v. split; [exact Hv|]. split; [exact Hin|].
    assert (Hvalid' : isValid (parseVector (buildVector M)) = true)
      by (rewrite Hparse; reflexivity).
    destruct (parseVector_valid_inv _ Hvalid') as [HM' _].
    rewrite Hparse in HM'. cbn [metrics] in HM'. injection HM' as <-.
    rewrite baseOnly_lookup, bool_decide_eq_true_2, Hb; [reflexivity|].
    apply list_elem_of_In, Hk.
Qed.

(** A vector with a threat metric and a repeated base metric: the rebuilt
    vector carries the eleven base assignments of the original. *)
Lemma buildVector_parseVector_roundtrip_witness :
  let V := "CVSS:4.0/AV:N/AC:L/AT:N/PR:N/UI:N/VC:H/VI:H/VA:H/SC:N/SI:N/SA:N/E:U/AV:P" in
  buildVector (vectorAssignments V) =
    "CVSS:4.0/AV:P/AC:L/AT:N/PR:N/UI:N/VC:H/VI:H/VA:H/SC:N/SI:N/SA:N" /\
  isValid (parseVector (buildVector (vectorAssignments V))) = true.
Proof.
  intros V. split; [vm_compute; reflexivity|].
  refine (proj1 (proj2 (proj2
    (buildVector_parseVector_roundtrip V (vectorAssignments V) _ _))));
    vm_compute; reflexivity.
Defined.

End RoundTrip.

(** * The shape of the scoring function *)

Section ScoreShape.

Lemma firstSome_ext {A B : Type} (f g : A -> option B) (l : list A) :
  (forall x, In x l -> f x = g x) -> firstSome f l = firstSome g l.
Proof.
  induction l as [|x l IH]; intros H; [reflexivity|].
  cbn [firstSome]. rewrite (H x (or_introl eq_refl)).
  destruct (g x); [reflexivity|]. apply IH. intros y Hy. apply H. right. exact Hy.
Qed.

Lemma firstSome_none {A B : Type} (f : A -> option B) (l : list A) :
  (forall x, In x l -> f x = None) -> firstSome f l = None.
Proof.
  induction l as [|x l IH]; intros H; [reflexivity|].
  cbn [firstSome]. rewrite (H x (or_introl eq_refl)).
  apply IH. intros y Hy. apply H. right. exact Hy.
Qed.

(** [severityDistances] reads the string once and then only the effective
    values. *)
Lemma severityDistances_extracted (m : gmap string string) (s : string) :
  severityDistances m s = distancesOf (effectiveValue m) (extracted s).
Proof.
  unfold severityDistances, distancesOf, extracted.
  induction METRIC_LEVELS as [|[metric levels] l IH]; [reflexivity|].
  cbn [omap list_omap]. destruct (extractFromStr metric s); cbn [map];
    rewrite IH; reflexivity.
Qed.

Lemma extracted_metrics (s : string) x :
  In x (extracted s) -> In (fst (fst x)) scoredMetrics.
Proof.
  unfold extracted, scoredMetrics.
  induction METRIC_LEVELS as [|[metric levels] l IH]; [intros []|].
  cbn [omap list_omap map In]. destruct (extractFromStr metric s).
  - intros [<-|H]; [left; reflexivity|right; apply IH, H].
  - intros H. right. apply IH, H.
Qed.

(** [calculateScore] in terms of the digits and the search. *)
Lemma calculateScoreIn_shape table (m : gmap string string) :
  calculateScoreIn table m =
  if noImpact m then Some 0%float
  else
    let '(eq1, eq2, eq3, eq4, eq5, eq6) := macroDigits m in
    match lookupScore table (macroKey eq1 eq2 eq3 eq4 eq5 eq6) with
    | None => None
    | Some value =>
        match firstSome (fun s => checkDistances
                                    (distancesOf (effectiveValue m) (extracted s)))
                        (maxVectorsOf (macroDigits m)) with
        | None => Some value
        | Some distances =>
            Some (interpolate table value eq1 eq2 eq3 eq4 eq5 eq6 distances)
        end
    end.
Proof.
  unfold calculateScoreIn. fold (noImpact m).
  destruct (noImpact m); [reflexivity|].
  rewrite digitsOf_macroVector, macroVector_key.
  destruct (macroDigits m) as [[[[[e1 e2] e3] e4] e5] e6].
  destruct (lookupScore table _); [|reflexivity].
  unfold maxVectorsOf.
  erewrite firstSome_ext; [reflexivity|].
  intros s _. cbv beta zeta. rewrite severityDistances_extracted. reflexivity.
Qed.

(** The score depends on the metrics object through the effective values
    of the fifteen scored metrics and the raw MSI and MSA alone. *)
Lemma calculateScoreIn_ext table (m m' : gmap string string) :
  (forall k, In k scoredMetrics -> effectiveValue m k = effectiveValue m' k) ->
  Js.or (m !! "MSI") (Some "X") = Js.or (m' !! "MSI") (Some "X") ->
  Js.or (m !! "MSA") (Some "X") = Js.or (m' !! "MSA") (Some "X") ->
  calculateScoreIn table m = calculateScoreIn table m'.
Proof.
  intros Hev Hsi Hsa.
  assert (Hd : macroDigits m = macroDigits m').
  { unfold macroDigits. rewrite Hsi, Hsa.
    rewrite !(Hev _) by (vm_compute; tauto). reflexivity. }
  assert (Hn : noImpact m = noImpact m').
  { unfold noImpact. cbn [forallb].
    rewrite !(Hev _) by (vm_compute; tauto). reflexivity. }
  rewrite !calculateScoreIn_shape, Hd, Hn.
  destruct (noImpact m'); [reflexivity|].
  destruct (macroDigits m') as [[[[[e1 e2] e3] e4] e5] e6].
  destruct (lookupScore table _); [|reflexivity].
  erewrite firstSome_ext; [reflexivity|].
  intros s _. cbv beta. f_equal. unfold distancesOf.
  apply map_ext_in. intros [[metric levels] maxVal] Hin.
  rewrite (Hev metric); [reflexivity|].
  exact (extracted_metrics s _ Hin).
Qed.

Lemma calculateScore_some (m : gmap string string) :
  exists score, calculateScore m = Some score.
Proof.
  unfold calculateScore. rewrite calculateScoreIn_shape.
  destruct (noImpact m); [eauto|].
  destruct (lookup_macroVector m) as [value Hv]. rewrite macroVector_key in Hv.
  destruct (macroDigits m) as [[[[[e1 e2] e3] e4] e5] e6].
  rewrite Hv. destruct (firstSome _ _); eauto.
Qed.

End ScoreShape.

(** * Recomputing the score from the vector *)

Section Recompute.

Lemma baseOnly_modified (m : gmap string string) (k : string) :
  baseOnly m !! ("M" +:+ k) = None.
Proof.
  rewrite baseOnly_lookup, bool_decide_eq_false_2; [reflexivity|].
  rewrite list_elem_of_In. unfold BASE_METRIC_ORDER. cbn [In].
  rewrite JsFacts.append_cons, JsFacts.append_nil.
  intros H. repeat (destruct H as [H|H]; [discriminate H|]). destruct H.
Qed.

Lemma baseOnly_other (m : gmap string string) (k : string) :
  ~ In k BASE_METRIC_ORDER -> baseOnly m !! k = None.
Proof.
  intros H. rewrite baseOnly_lookup, bool_decide_eq_false_2; [reflexivity|].
  rewrite list_elem_of_In. exact H.
Qed.

Lemma baseOnly_base (m : gmap string string) (k : string) :
  In k BASE_METRIC_ORDER -> baseOnly m !! k = Some (baseValue m k).
Proof.
  intros H. rewrite baseOnly_lookup, bool_decide_eq_true_2; [reflexivity|].
  rewrite list_elem_of_In. exact H.
Qed.

Lemma plainBase_baseValue (m : gmap string string) (k : string) :
  plainBase m -> In k BASE_METRIC_ORDER -> In (baseValue m k) (enumOf k).
Proof.
  intros [Hbase _] Hk. unfold baseValue.
  destruct (m !! k) as [v|] eqn:E.
  - pose proof (Hbase k v Hk E) as Hv.
    destruct (enum_value_simple k v Hk Hv) as (_ & _ & Ht & _).
    unfold Js.or. rewrite Ht. exact Hv.
  - revert Hk. unfold BASE_METRIC_ORDER. cbn [In].
    intros Hk. repeat (destruct Hk as [<-|Hk]; [vm_compute; tauto|]). destruct Hk.
Qed.

Lemma effectiveValue_baseOnly (m : gmap string string) (k : string) :
  plainBase m -> In k scoredMetrics ->
  effectiveValue (baseOnly m) k = effectiveValue m k.
Proof.
  intros Hp Hk. pose proof Hp as [Hbase Hsupp].
  unfold effectiveValue. rewrite baseOnly_modified.
  rewrite (Hsupp ("M" +:+ k)) by (apply in_or_app; right; apply in_map, Hk).
  cbn [definedNotX].
  destruct (decide (In k BASE_METRIC_ORDER)) as [Hb|Hnb].
  - rewrite (baseOnly_base m k Hb).
    pose proof (plainBase_baseValue m k Hp Hb) as Hv.
    destruct (m !! k) as [v|] eqn:E.
    + pose proof (Hbase k v Hb E) as Hv'.
      assert (baseValue m k = v) as ->.
      { unfold baseValue. rewrite E.
        destruct (enum_value_simple k v Hb Hv') as (_ & _ & Ht & _).
        unfold Js.or. rewrite Ht. reflexivity. }
      reflexivity.
    + revert Hv. unfold baseValue. rewrite E.
      revert Hb. unfold BASE_METRIC_ORDER. cbn [In].
      intros Hb. repeat (destruct Hb as [<-|Hb]; [reflexivity|]). destruct Hb.
  - rewrite (baseOnly_other m k Hnb).
    revert Hk Hnb. unfold scoredMetrics, BASE_METRIC_ORDER. cbn [map fst METRIC_LEVELS In].
    intros Hk Hnb.
    repeat (destruct Hk as [<-|Hk];
            [first [ exfalso; apply Hnb; tauto
                   | rewrite (Hsupp _) by (vm_compute; tauto); reflexivity ]|]).
    destruct Hk.
Qed.

Lemma calculateScore_baseOnly (m : gmap string string) :
  plainBase m -> calculateScore (baseOnly m) = calculateScore m.
Proof.
  intros Hp. unfold calculateScore. apply calculateScoreIn_ext.
  - intros k Hk. apply effectiveValue_baseOnly; assumption.
  - change "MSI" with ("M" +:+ "SI"). rewrite baseOnly_modified.
    destruct Hp as [_ Hsupp].
    pose proof (Hsupp ("M" +:+ "SI") ltac:(vm_compute; tauto)) as H.
    destruct (m !! ("M" +:+ "SI")) as [v|]; [|reflexivity].
    cbn [definedNotX] in H. apply negb_false_iff, String.eqb_eq in H.
    rewrite H. reflexivity.
  - change "MSA" with ("M" +:+ "SA"). rewrite baseOnly_modified.
    destruct Hp as [_ Hsupp].
    pose proof (Hsupp ("M" +:+ "SA") ltac:(vm_compute; tauto)) as H.
    destruct (m !! ("M" +:+ "SA")) as [v|]; [|reflexivity].
    cbn [definedNotX] in H. apply negb_false_iff, String.eqb_eq in H.
    rewrite H. reflexivity.
Qed.

(** C1 (as amended). For every metrics object that holds base metrics
    only, each with a value of its enumeration (a threat, environmental or
    modified metric is absent or X), the score and the severity that
    [metricsToScore] returns are those that [vectorToScore] computes from
    the returned vector string. *)
Theorem metricsToScore_recomputable (m : gmap string string) :
  (forall k v, In k BASE_METRIC_ORDER -> m !! k = Some v -> In v (enumOf k)) ->
  (forall k, In k supplementalMetrics -> definedNotX (m !! k) = false) ->
  let r := metricsToScore m in
  let r' := vectorToScore (ms_vector r) in
  vs_isValid r' = true /\
  vs_score r' = ms_score r /\
  vs_severity r' = ms_severity r.
Proof.
  intros Hbase Hsupp. assert (Hp : plainBase m) by (split; assumption).
  cbv zeta. unfold metricsToScore, vectorToScore. cbn [ms_vector ms_score ms_severity].
  destruct (parseVector_buildVector m) as [_ Hparse].
  { intros k Hk. apply plainBase_baseValue; assumption. }
  rewrite Hparse. cbn [isValid negb metrics mbind option_bind].
  rewrite (calculateScore_baseOnly m Hp).
  destruct (calculateScore_some m) as [score ->].
  repeat split.
Qed.

(** The eleven base metrics at their most severe values *)
Lemma metricsToScore_recomputable_witness :
  let m : gmap string string :=
    {[ "AV" := "N"; "AC" := "L"; "AT" := "N"; "PR" := "N"; "UI" := "N";
       "VC" := "H"; "VI" := "H"; "VA" := "H";
       "SC" := "H"; "SI" := "H"; "SA" := "H" ]} in
  vs_isValid (vectorToScore (ms_vector (metricsToScore m))) = true /\
  vs_score (vectorToScore (ms_vector (metricsToScore m))) =
    ms_score (metricsToScore m) /\
  vs_severity (vectorToScore (ms_vector (metricsToScore m))) =
    ms_severity (metricsToScore m).
Proof.
  intros m. apply (metricsToScore_recomputable m).
  - intros k v Hk. unfold BASE_METRIC_ORDER in Hk. cbn [In] in Hk.
    repeat (destruct Hk as [<-|Hk];
            [vm_compute; intros [= <-]; tauto|]).
    destruct Hk.
  - intros k Hk. vm_compute in Hk.
    repeat (destruct Hk as [<-|Hk]; [vm_compute; reflexivity|]). destruct Hk.
Defined.

(** With the threat metric E at U the score is 8.1, HIGH, but the vector
    drops E and scores 9.3, CRITICAL. *)
Lemma metricsToScore_not_recomputable :
  let m : gmap string string :=
    {[ "VC" := "H"; "VI" := "H"; "VA" := "H"; "E" := "U" ]} in
  ms_vector (metricsToScore m) =
    "CVSS:4.0/AV:N/AC:L/AT:N/PR:N/UI:N/VC:H/VI:H/VA:H/SC:N/SI:N/SA:N" /\
  ms_score (metricsToScore m) = Some 8.1%float /\
  vs_score (vectorToScore (ms_vector (metricsToScore m))) = Some 9.3%float /\
  ms_severity (metricsToScore m) = Some "HIGH" /\
  vs_severity (vectorToScore (ms_vector (metricsToScore m))) = Some "CRITICAL" /\
  vs_severity (vectorToScore (ms_vector (metricsToScore m))) <>
    ms_severity (metricsToScore m).
Proof.
  cbv zeta. repeat (split; [vm_compute; reflexivity|]).
  vm_compute. discriminate.
Qed.

End Recompute.

(** * Values outside the level tables *)

Section InvalidValues.

#[local] Open Scope float_scope.

Lemma sub_nan_l (y : float) : is_nan (nan - y) = true.
Proof.
  apply FloatFacts.is_nan_Prim2SF. rewrite FloatAxioms.sub_spec.
  change (Prim2SF nan) with S754_nan. reflexivity.
Qed.

Lemma ge_nan_false (x : float) : is_nan x = true -> Num.ge x 0 = false.
Proof. intros H. unfold Num.ge. apply FloatFacts.leb_nan_r, H. Qed.

Lemma prop_keys {A : Type} (l l' : list (string * A)) (k : string) :
  map fst l = map fst l' -> Js.prop l k = None -> Js.prop l' k = None.
Proof.
  revert l'. induction l as [|[a x] l IH]; intros [|[a' x'] l'] H;
    try discriminate; [reflexivity|].
  cbn [map fst] in H. injection H as <- H. cbn [Js.prop].
  destruct (String.eqb a k); [discriminate|]. apply IH, H.
Qed.

(** Every max vector that the scoring composes holds all fifteen scored
    metrics. *)
Lemma maxVectors_complete (d : digits6) (s : string) :
  In d reachableDigits -> In s (maxVectorsOf d) ->
  entryComplete (extracted s) = true.
Proof.
  intros Hd Hs.
  assert (H : forallb (fun d => forallb (fun s => entryComplete (extracted s))
                                        (maxVectorsOf d)) reachableDigits = true)
    by (vm_compute; reflexivity).
  rewrite forallb_forall in H. specialize (H d Hd).
  rewrite forallb_forall in H. exact (H s Hs).
Qed.

Lemma entryComplete_metric entry (metric : string) :
  entryComplete entry = true -> In metric scoredMetrics ->
  exists levels maxVal,
    In (metric, levels, maxVal) entry /\
    map fst levels = map fst (levelsOfMetric metric).
Proof.
  unfold entryComplete. intros H Hm. apply andb_prop in H as [H1 H2].
  apply bool_decide_eq_true in H1. rewrite <- H1 in Hm.
  apply in_map_iff in Hm as ([[k levels] maxVal] & Hk & Hin). cbn in Hk. subst k.
  rewrite forallb_forall in H2. specialize (H2 _ Hin). cbn [fst snd] in H2.
  apply andb_prop in H2 as [_ H2]. apply bool_decide_eq_true in H2.
  eauto.
Qed.

(** A value without a level makes every distance check fail. *)
Lemma checkDistances_invalid (ev : string -> string) entry (metric : string) :
  entryComplete entry = true -> In metric scoredMetrics ->
  Js.prop (levelsOfMetric metric) (ev metric) = None ->
  checkDistances (distancesOf ev entry) = None.
Proof.
  intros Hc Hm Hnone.
  destruct (entryComplete_metric entry metric Hc Hm) as (levels & maxVal & Hin & Hk).
  unfold checkDistances.
  destruct (forallb _ _) eqn:E; [|reflexivity].
  rewrite forallb_forall in E.
  specialize (E (metric, (levelOf levels (ev metric) - levelOf levels maxVal))).
  rewrite ge_nan_false in E.
  - discriminate E. unfold distancesOf.
    apply in_map_iff. exists (metric, levels, maxVal). split; [reflexivity|exact Hin].
  - cbn [snd]. unfold levelOf at 1.
    rewrite (prop_keys (levelsOfMetric metric) levels) by (symmetry; exact Hk) || exact Hnone.
    apply sub_nan_l.
Qed.

Lemma lookupScore_number (key : string) (value : float) :
  lookupScore LOOKUP_TABLE key = Some value -> Num.isNaN value = false.
Proof.
  intros H.
  assert (Hin : In (key, value) LOOKUP_TABLE).
  { revert H. unfold lookupScore. induction LOOKUP_TABLE as [|[k v] l IH]; [discriminate|].
    cbn [Js.prop]. destruct (String.eqb_spec k key) as [->|_].
    - intros [= ->]. left. reflexivity.
    - intros H. right. apply IH, H. }
  assert (Hall : forallb (fun kv => negb (Num.isNaN (snd kv))) LOOKUP_TABLE = true)
    by (vm_compute; reflexivity).
  rewrite forallb_forall in Hall. specialize (Hall _ Hin).
  apply negb_true_iff in Hall. exact Hall.
Qed.

(** C6 (as amended). Scoring has no error path: [calculateScore] returns a
    number for every metrics object. When a scored metric resolves to a
    value that has no level in [METRIC_LEVELS], that number is 0.0 if the
    six impact metrics all resolve to N, and otherwise the value of the
    lookup table at the MacroVector, without interpolation. *)
Theorem invalid_value_scores_table_value (m : gmap string string) (metric : string) :
  In metric scoredMetrics ->
  Js.prop (levelsOfMetric metric) (effectiveValue m metric) = None ->
  calculateScore m =
    (if noImpact m then Some 0 else lookupScore LOOKUP_TABLE (macroVector m)) /\
  exists score, calculateScore m = Some score /\ Num.isNaN score = false.
Proof.
  intros Hm Hnone.
  assert (Heq : calculateScore m =
    (if noImpact m then Some 0 else lookupScore LOOKUP_TABLE (macroVector m))).
  { unfold calculateScore. rewrite calculateScoreIn_shape.
    destruct (noImpact m); [reflexivity|].
    pose proof (macroDigits_reachable m) as Hd.
    rewrite macroVector_key.
    rewrite (firstSome_none _ (maxVectorsOf (macroDigits m))).
    - destruct (macroDigits m) as [[[[[e1 e2] e3] e4] e5] e6].
      destruct (lookupScore _ _); reflexivity.
    - intros s Hs. apply (checkDistances_invalid _ _ metric); [|exact Hm|exact Hnone].
      exact (maxVectors_complete _ s Hd Hs). }
  split; [exact Heq|]. rewrite Heq.
  destruct (noImpact m); [exists 0; split; reflexivity|].
  destruct (lookup_macroVector m) as [value Hv]. rewrite Hv.
  exists value. split; [reflexivity|exact (lookupScore_number _ _ Hv)].
Qed.

(** Attack vector Z with high confidentiality impact: no error, the table
    value 7.2 of MacroVector 101200. *)
Lemma invalid_value_scores_table_value_witness :
  let m : gmap string string := {[ "AV" := "Z"; "VC" := "H" ]} in
  calculateScore m = lookupScore LOOKUP_TABLE "101200" /\
  exists score, calculateScore m = Some score /\ Num.isNaN score = false.
Proof.
  intros m.
  apply (invalid_value_scores_table_value m "AV"); [vm_compute; tauto|reflexivity].
Defined.

(** An attack vector outside its enumeration, and not X, gets the numeric
    score 7.2 and the label HIGH. *)
Lemma invalid_value_gets_score :
  let m : gmap string string := {[ "AV" := "Z"; "VC" := "H" ]} in
  m !! "AV" = Some "Z" /\ ~ In "Z" (enumOf "AV") /\ "Z" <> "X" /\
  ms_score (metricsToScore m) = Some 7.2 /\
  ms_severity (metricsToScore m) = Some "HIGH".
Proof.
  cbv zeta. split; [reflexivity|]. split.
  - vm_compute. intros H. repeat (destruct H as [H|H]; [discriminate H|]). exact H.
  - split; [discriminate|]. split; vm_compute; reflexivity.
Qed.

End InvalidValues.

(** * The distance search, group by group *)

Section GroupSearch.

Lemma interpolate_core table value eq1 eq2 eq3 eq4 eq5 eq6 distances :
  interpolate table value eq1 eq2 eq3 eq4 eq5 eq6 distances =
  interpolateCore value (neighbours table (eq1, eq2, eq3, eq4, eq5, eq6))
                  (sumsOf distances).
Proof. reflexivity. Qed.

Lemma firstSome_app {A B : Type} (f : A -> option B) (l1 l2 : list A) :
  firstSome f (l1 ++ l2) =
  match firstSome f l1 with
  | Some y => Some y
  | None => firstSome f l2
  end.
Proof.
  induction l1 as [|x l1 IH]; [reflexivity|].
  cbn [app firstSome]. destruct (f x); [reflexivity|exact IH].
Qed.

Lemma firstSome_flat_map {A B C : Type} (f : B -> option C) (g : A -> list B)
    (l : list A) :
  firstSome f (flat_map g l) = firstSome (fun a => firstSome f (g a)) l.
Proof.
  induction l as [|x l IH]; [reflexivity|].
  cbn [flat_map firstSome]. rewrite firstSome_app, IH. reflexivity.
Qed.

Lemma firstSome_map {A B C : Type} (f : B -> option C) (g : A -> B)
    (l : list A) :
  firstSome f (map g l) = firstSome (fun a => f (g a)) l.
Proof.
  induction l as [|x l IH]; [reflexivity|].
  cbn [map firstSome]. rewrite IH. reflexivity.
Qed.

Lemma firstSome_fmap {A B C : Type} (h : B -> C) (f : A -> option B)
    (l : list A) :
  h <$> firstSome f l = firstSome (fun a => h <$> f a) l.
Proof.
  induction l as [|x l IH]; [reflexivity|].
  cbn [firstSome]. destruct (f x); [reflexivity|exact IH].
Qed.

Lemma firstSome_comb_l {A X Y : Type} (o : option X) (f : A -> option Y)
    (l : list A) :
  firstSome (fun a => comb o (f a)) l = comb o (firstSome f l).
Proof.
  destruct o as [x|].
  - induction l as [|a l IH]; [reflexivity|].
    cbn [firstSome]. destruct (f a); [reflexivity|exact IH].
  - rewrite firstSome_none by reflexivity. reflexivity.
Qed.

Lemma firstSome_comb_r {A X Y : Type} (f : A -> option X) (o : option Y)
    (l : list A) :
  firstSome (fun a => comb (f a) o) l = comb (firstSome f l) o.
Proof.
  destruct o as [y|].
  - induction l as [|a l IH]; [reflexivity|].
    cbn [firstSome]. destruct (f a); [reflexivity|exact IH].
  - rewrite firstSome_none by (intros a _; destruct (f a); reflexivity).
    destruct (firstSome f l); reflexivity.
Qed.

Lemma levelsEqb_eq (a b : list (string * float)) : levelsEqb a b = true -> a = b.
Proof.
  unfold levelsEqb. revert b.
  induction a as [|[k x] a IH]; intros [|[k' x'] b]; try discriminate;
    [reflexivity|].
  cbn [length Nat.eqb combine forallb fst snd].
  rewrite !andb_true_iff. intros (Hl & (Hk & Hx) & Hr).
  apply String.eqb_eq in Hk. apply FloatAxioms.Leibniz.eqb_spec in Hx.
  subst. f_equal. apply IH. rewrite Hl, Hr. reflexivity.
Qed.

Lemma entryEqb_eq a b : entryEqb a b = true -> a = b.
Proof.
  unfold entryEqb. revert b.
  induction a as [|[[k l] v] a IH]; intros [|[[k' l'] v'] b]; try discriminate;
    [reflexivity|].
  cbn [length Nat.eqb combine forallb fst snd].
  rewrite !andb_true_iff. intros (Hl & ((Hk & Hlv) & Hv) & Hr).
  apply String.eqb_eq in Hk, Hv. apply levelsEqb_eq in Hlv.
  subst. f_equal. apply IH. rewrite Hl, Hr. reflexivity.
Qed.

(** What a composed max vector of reachable digits reads as *)
Lemma extracted_parts (d : digits6) (a b c dd e : string) :
  In d reachableDigits ->
  let '(la, lb, lc, ld, le) := partsOf d in
  In a la -> In b lb -> In c lc -> In dd ld -> In e le ->
  extracted ((((a +:+ b) +:+ c) +:+ dd) +:+ e) =
  entryOf (refValues keys1 a) (refValues keys2 b) (refValues keys36 c)
          (refValues keys4 dd) (refValues keys5 e).
Proof.
  intros Hd.
  assert (H : forallb partsChecked reachableDigits = true)
    by (vm_compute; reflexivity).
  rewrite forallb_forall in H. specialize (H d Hd). unfold partsChecked in H.
  destruct (partsOf d) as [[[[la lb] lc] ld] le].
  intros Ha Hb Hc Hdd He.
  rewrite forallb_forall in H. specialize (H a Ha).
  rewrite forallb_forall in H. specialize (H b Hb).
  rewrite forallb_forall in H. specialize (H c Hc).
  rewrite forallb_forall in H. specialize (H dd Hdd).
  rewrite forallb_forall in H. specialize (H e He).
  apply entryEqb_eq, H.
Qed.

(** The check of one composed max vector is the check of its five parts. *)
Lemma check_parts (ev : string -> string) (a b c dd e : string) :
  sumsOf <$> checkDistances
    (distancesOf ev (entryOf (refValues keys1 a) (refValues keys2 b)
                             (refValues keys36 c) (refValues keys4 dd)
                             (refValues keys5 e))) =
  flatSums <$>
  comb (groupCheck (curLevels ev keys1) (refLevels keys1 a))
  (comb (groupCheck (curLevels ev keys2) (refLevels keys2 b))
  (comb (groupCheck (curLevels ev keys36) (refLevels keys36 c))
  (comb (groupCheck (curLevels ev keys4) (refLevels keys4 dd))
        (groupCheck (curLevels ev keys5) (refLevels keys5 e))))).
Proof.
  unfold refValues, refLevels, curLevels, keys1, keys2, keys36, keys4, keys5.
  cbn [map entryOf distancesOf].
  generalize (default "" (extractFromStr "AV" a)) (default "" (extractFromStr "PR" a))
    (default "" (extractFromStr "UI" a)) (default "" (extractFromStr "AC" b))
    (default "" (extractFromStr "AT" b)) (default "" (extractFromStr "VC" c))
    (default "" (extractFromStr "VI" c)) (default "" (extractFromStr "VA" c))
    (default "" (extractFromStr "CR" c)) (default "" (extractFromStr "IR" c))
    (default "" (extractFromStr "AR" c)) (default "" (extractFromStr "SC" dd))
    (default "" (extractFromStr "SI" dd)) (default "" (extractFromStr "SA" dd))
    (default "" (extractFromStr "E" e)).
  intros a1 a2 a3 b1 b2 c1 c2 c3 c4 c5 c6 d1 d2 d3 e1.
  unfold lv, groupCheck, checkDistances. cbn [zip_with forallb snd].
  set (x1 := (levelOf (levelsOfMetric "AV") (ev "AV") - levelOf (levelsOfMetric "AV") a1)%float).
  set (x2 := (levelOf (levelsOfMetric "PR") (ev "PR") - levelOf (levelsOfMetric "PR") a2)%float).
  set (x3 := (levelOf (levelsOfMetric "UI") (ev "UI") - levelOf (levelsOfMetric "UI") a3)%float).
  set (x4 := (levelOf (levelsOfMetric "AC") (ev "AC") - levelOf (levelsOfMetric "AC") b1)%float).
  set (x5 := (levelOf (levelsOfMetric "AT") (ev "AT") - levelOf (levelsOfMetric "AT") b2)%float).
  set (x6 := (levelOf (levelsOfMetric "VC") (ev "VC") - levelOf (levelsOfMetric "VC") c1)%float).
  set (x7 := (levelOf (levelsOfMetric "VI") (ev "VI") - levelOf (levelsOfMetric "VI") c2)%float).
  set (x8 := (levelOf (levelsOfMetric "VA") (ev "VA") - levelOf (levelsOfMetric "VA") c3)%float).
  set (x9 := (levelOf (levelsOfMetric "CR") (ev "CR") - levelOf (levelsOfMetric "CR") c4)%float).
  set (x10 := (levelOf (levelsOfMetric "IR") (ev "IR") - levelOf (levelsOfMetric "IR") c5)%float).
  set (x11 := (levelOf (levelsOfMetric "AR") (ev "AR") - levelOf (levelsOfMetric "AR") c6)%float).
  set (x12 := (levelOf (levelsOfMetric "SC") (ev "SC") - levelOf (levelsOfMetric "SC") d1)%float).
  set (x13 := (levelOf (levelsOfMetric "SI") (ev "SI") - levelOf (levelsOfMetric "SI") d2)%float).
  set (x14 := (levelOf (levelsOfMetric "SA") (ev "SA") - levelOf (levelsOfMetric "SA") d3)%float).
  set (x15 := (levelOf (levelsOfMetric "E") (ev "E") - levelOf (levelsOfMetric "E") e1)%float).
  destruct (Num.ge x1 0); [|reflexivity].
  destruct (Num.ge x2 0); [|reflexivity].
  destruct (Num.ge x3 0); [|reflexivity].
  destruct (Num.ge x4 0); [|reflexivity].
  destruct (Num.ge x5 0); [|reflexivity].
  destruct (Num.ge x6 0); [|reflexivity].
  destruct (Num.ge x7 0); [|reflexivity].
  destruct (Num.ge x8 0); [|reflexivity].
  destruct (Num.ge x9 0);
    [|destruct (Num.ge x12 0), (Num.ge x13 0), (Num.ge x14 0); reflexivity].
  destruct (Num.ge x10 0);
    [|destruct (Num.ge x12 0), (Num.ge x13 0), (Num.ge x14 0); reflexivity].
  destruct (Num.ge x11 0);
    [|destruct (Num.ge x12 0), (Num.ge x13 0), (Num.ge x14 0); reflexivity].
  destruct (Num.ge x12 0); [|reflexivity].
  destruct (Num.ge x13 0); [|reflexivity].
  destruct (Num.ge x14 0); [|reflexivity].
  destruct (Num.ge x15 0); reflexivity.
Qed.

(** The search over the composed max vectors finds the first qualifying
    part of each group. *)
Lemma search_groups (ev : string -> string) (d : digits6) :
  In d reachableDigits ->
  sumsOf <$> firstSome (fun s => checkDistances (distancesOf ev (extracted s)))
                       (maxVectorsOf d) =
  groupSearch ev d.
Proof.
  intros Hd. pose proof (extracted_parts d) as Hparts.
  unfold groupSearch, groupDistance.
  assert (Hmv : maxVectorsOf d =
    let '(la, lb, lc, ld, le) := partsOf d in composeMaxVectors la lb lc ld le).
  { destruct d as [[[[[e1 e2] e3] e4] e5] e6]. reflexivity. }
  rewrite Hmv. clear Hmv.
  destruct (partsOf d) as [[[[la lb] lc] ld] le].
  rewrite !firstSome_map.
  set (gA := fun a => groupCheck (curLevels ev keys1) (refLevels keys1 a)).
  set (gB := fun b => groupCheck (curLevels ev keys2) (refLevels keys2 b)).
  set (gC := fun c => groupCheck (curLevels ev keys36) (refLevels keys36 c)).
  set (gD := fun dd => groupCheck (curLevels ev keys4) (refLevels keys4 dd)).
  set (gE := fun e => groupCheck (curLevels ev keys5) (refLevels keys5 e)).
  unfold composeMaxVectors.
  rewrite firstSome_fmap, firstSome_flat_map.
  transitivity
    (firstSome (fun a => firstSome (fun b => firstSome (fun c =>
     firstSome (fun dd => firstSome (fun e =>
       flatSums <$> comb (gA a) (comb (gB b) (comb (gC c) (comb (gD dd) (gE e)))))
     le) ld) lc) lb) la).
  { apply firstSome_ext; intros a Ha. rewrite firstSome_flat_map.
    apply firstSome_ext; intros b Hb. rewrite firstSome_flat_map.
    apply firstSome_ext; intros c Hc. rewrite firstSome_flat_map.
    apply firstSome_ext; intros dd Hdd. rewrite firstSome_map.
    apply firstSome_ext; intros e He.
    rewrite (Hparts a b c dd e Hd Ha Hb Hc Hdd He). apply check_parts. }
  transitivity
    (firstSome (fun a => firstSome (fun b => firstSome (fun c =>
     firstSome (fun dd =>
       flatSums <$> comb (gA a) (comb (gB b) (comb (gC c)
                      (comb (gD dd) (firstSome gE le)))))
     ld) lc) lb) la).
  { apply firstSome_ext; intros a _. apply firstSome_ext; intros b _.
    apply firstSome_ext; intros c _. apply firstSome_ext; intros dd _.
    rewrite <- firstSome_fmap, !firstSome_comb_l. reflexivity. }
  transitivity
    (firstSome (fun a => firstSome (fun b => firstSome (fun c =>
       flatSums <$> comb (gA a) (comb (gB b) (comb (gC c)
                      (comb (firstSome gD ld) (firstSome gE le)))))
     lc) lb) la).
  { apply firstSome_ext; intros a _. apply firstSome_ext; intros b _.
    apply firstSome_ext; intros c _.
    rewrite <- firstSome_fmap, !firstSome_comb_l, firstSome_comb_r. reflexivity. }
  transitivity
    (firstSome (fun a => firstSome (fun b =>
       flatSums <$> comb (gA a) (comb (gB b) (comb (firstSome gC lc)
                      (comb (firstSome gD ld) (firstSome gE le)))))
     lb) la).
  { apply firstSome_ext; intros a _. apply firstSome_ext; intros b _.
    rewrite <- firstSome_fmap, !firstSome_comb_l, firstSome_comb_r. reflexivity. }
  transitivity
    (firstSome (fun a =>
       flatSums <$> comb (gA a) (comb (firstSome gB lb) (comb (firstSome gC lc)
                      (comb (firstSome gD ld) (firstSome gE le)))))
     la).
  { apply firstSome_ext; intros a _.
    rewrite <- firstSome_fmap, !firstSome_comb_l, firstSome_comb_r. reflexivity. }
  rewrite <- firstSome_fmap, firstSome_comb_r. reflexivity.
Qed.

End GroupSearch.

(** * The score as a function of the group summaries *)

Section Summaries.

Lemma calculateScoreIn_groups table (m : gmap string string) :
  calculateScoreIn table m =
  scoreOfGroups table (macroDigits m) (noImpact m)
                (groupSearch (effectiveValue m) (macroDigits m)).
Proof.
  rewrite calculateScoreIn_shape. unfold scoreOfGroups.
  destruct (noImpact m); [reflexivity|].
  rewrite <- (search_groups _ _ (macroDigits_reachable m)).
  destruct (macroDigits m) as [[[[[e1 e2] e3] e4] e5] e6].
  destruct (lookupScore table _); [|reflexivity].
  destruct (firstSome _ _); reflexivity.
Qed.

Lemma macroDigits_eqOf (m : gmap string string) :
  let ev := effectiveValue m in
  macroDigits m =
  (eq1Of (ev "AV") (ev "PR") (ev "UI"), eq2Of (ev "AC") (ev "AT"),
   eq3Of (ev "VC") (ev "VI") (ev "VA"),
   eq4Of (safetyFlag m "MSI") (safetyFlag m "MSA") (ev "SC") (ev "SI") (ev "SA"),
   eq5Of (ev "E"),
   eq6Of (ev "CR") (ev "IR") (ev "AR") (ev "VC") (ev "VI") (ev "VA")).
Proof. reflexivity. Qed.

(** The score of a metrics object is the score of its five summaries. *)
Lemma calculateScore_summaries (m : gmap string string) :
  let ev := effectiveValue m in
  calculateScore m =
  scoreOfSummaries
    (summary1 (ev "AV") (ev "PR") (ev "UI"))
    (summary2 (ev "AC") (ev "AT"))
    (summary36 (ev "VC") (ev "VI") (ev "VA") (ev "CR") (ev "IR") (ev "AR"))
    (summary4 (safetyFlag m "MSI") (safetyFlag m "MSA")
              (ev "SC") (ev "SI") (ev "SA"))
    (summary5 (ev "E")).
Proof.
  intros ev. unfold calculateScore. rewrite calculateScoreIn_groups.
  unfold scoreOfSummaries.
  assert (Hn : noImpact m =
               snd (summary36 (ev "VC") (ev "VI") (ev "VA")
                              (ev "CR") (ev "IR") (ev "AR")) &&
               snd (summary4 (safetyFlag m "MSI") (safetyFlag m "MSA")
                             (ev "SC") (ev "SI") (ev "SA"))).
  { unfold noImpact. cbn [forallb]. fold ev. cbn [summary36 summary4 snd].
    destruct (String.eqb (ev "VC") "N"), (String.eqb (ev "VI") "N"),
      (String.eqb (ev "VA") "N"), (String.eqb (ev "SC") "N"),
      (String.eqb (ev "SI") "N"), (String.eqb (ev "SA") "N"); reflexivity. }
  rewrite Hn, macroDigits_eqOf. reflexivity.
Qed.

End Summaries.

(** * The table of rows *)

Section FastRows.

Lemma neighboursEqb_eq (a b : Neighbours) : neighboursEqb a b = true -> a = b.
Proof.
  destruct a as [[[[[a1 a2] a3] a4] a5] [[[a6 a7] a8] a9]].
  destruct b as [[[[[b1 b2] b3] b4] b5] [[[b6 b7] b8] b9]].
  unfold neighboursEqb. rewrite !andb_true_iff.
  intros [[[[[[[[H1 H2] H3] H4] H5] H6] H7] H8] H9].
  apply FloatAxioms.Leibniz.eqb_spec in H1, H2, H3, H4, H5, H6, H7, H8, H9.
  congruence.
Qed.

Lemma rowAt_reachable (d : digits6) :
  In d reachableDigits ->
  (let '(eq1, eq2, eq3, eq4, eq5, eq6) := d in
   lookupScore LOOKUP_TABLE (macroKey eq1 eq2 eq3 eq4 eq5 eq6)) =
    Some (fst (rowAt d)) /\
  neighbours LOOKUP_TABLE d = snd (rowAt d).
Proof.
  intros Hd.
  assert (H : forallb rowChecked reachableDigits = true)
    by (vm_compute; reflexivity).
  rewrite forallb_forall in H. specialize (H d Hd). unfold rowChecked in H.
  destruct d as [[[[[e1 e2] e3] e4] e5] e6].
  apply andb_prop in H as [H1 H2].
  split; [apply optFloatEqb_eq, H1|apply neighboursEqb_eq, H2].
Qed.

Lemma scoreOfSummaries_fast (s1 s2 : Summary1) (s36 : Summary36)
    (s4 : Summary4) (s5 : Summary1) :
  In (summaryDigits s1 s2 s36 s4 s5) reachableDigits ->
  scoreOfSummaries s1 s2 s36 s4 s5 = Some (scoreFast s1 s2 s36 s4 s5).
Proof.
  intros Hd. unfold scoreOfSummaries, scoreOfGroups, scoreFast.
  destruct (snd s36 && snd s4); [reflexivity|].
  destruct (rowAt_reachable _ Hd) as [Hv Hn].
  destruct (summaryDigits s1 s2 s36 s4 s5) as [[[[[e1 e2] e3] e4] e5] e6] eqn:E.
  rewrite Hv, Hn. destruct (rowAt _) as [value nb]. cbn [fst snd].
  destruct (summarySums s1 s2 s36 s4 s5); reflexivity.
Qed.

End FastRows.

(** * The finitely many summaries *)

Section Coverage.

Lemma eqbSummary1_eq (a b : Summary1) : eqbSummary1 a b = true -> a = b.
Proof.
  destruct a as [a1 a2], b as [b1 b2]. unfold eqbSummary1. cbn [fst snd].
  rewrite andb_true_iff. intros [H1 H2].
  apply Nat.eqb_eq in H1. apply optFloatEqb_eq in H2. congruence.
Qed.

Lemma eqbSummary36_eq (a b : Summary36) : eqbSummary36 a b = true -> a = b.
Proof.
  destruct a as [[[a1 a2] a3] a4], b as [[[b1 b2] b3] b4].
  unfold eqbSummary36. cbn [fst snd]. rewrite !andb_true_iff.
  intros [[[H1 H2] H3] H4].
  apply Nat.eqb_eq in H1, H2. apply optFloatEqb_eq in H3.
  apply Bool.eqb_prop in H4. congruence.
Qed.

Lemma eqbSummary4_eq (a b : Summary4) : eqbSummary4 a b = true -> a = b.
Proof.
  destruct a as [[a1 a2] a3], b as [[b1 b2] b3].
  unfold eqbSummary4. cbn [fst snd]. rewrite !andb_true_iff.
  intros [[H1 H2] H3].
  apply Nat.eqb_eq in H1. apply optFloatEqb_eq in H2.
  apply Bool.eqb_prop in H3. congruence.
Qed.

Lemma eqbPair_eq {A : Type} (eqb : A -> A -> bool) (a b : A * A) :
  (forall x y, eqb x y = true -> x = y) -> eqbPair eqb a b = true -> a = b.
Proof.
  intros Heq. destruct a, b. unfold eqbPair. cbn [fst snd].
  rewrite andb_true_iff. intros [H1 H2].
  apply Heq in H1, H2. congruence.
Qed.

Lemma existsb_In {A : Type} (eqb : A -> A -> bool) (x : A) (l : list A) :
  (forall y, eqb x y = true -> x = y) -> existsb (eqb x) l = true -> In x l.
Proof.
  intros Heq H. apply existsb_exists in H as (y & Hy & E).
  apply Heq in E. subst. exact Hy.
Qed.

Lemma prop_none_existsb {A : Type} (l : list (string * A)) (k : string) :
  existsb (String.eqb k) (map fst l) = false -> Js.prop l k = None.
Proof.
  induction l as [|[a x] l IH]; [reflexivity|].
  cbn [map fst existsb Js.prop]. rewrite (String.eqb_sym k a).
  destruct (String.eqb a k); [discriminate|exact IH].
Qed.

Lemma normValue_candidates (metric v : string) :
  In (normValue metric v) (candidates metric).
Proof.
  unfold normValue, candidates. apply in_or_app.
  destruct (existsb _ _) eqn:E.
  - left. apply existsb_exists in E as (x & Hx & E).
    apply String.eqb_eq in E. subst. exact Hx.
  - right. left. reflexivity.
Qed.

Lemma normValue_eqb (metric v c : string) :
  existsb (String.eqb c) (map fst (levelsOfMetric metric)) = true ->
  existsb (String.eqb "") (map fst (levelsOfMetric metric)) = false ->
  String.eqb (normValue metric v) c = String.eqb v c.
Proof.
  intros Hc He. unfold normValue.
  destruct (existsb (String.eqb v) _) eqn:E; [reflexivity|].
  destruct (String.eqb_spec v c) as [->|_]; [congruence|].
  destruct (String.eqb_spec "" c) as [<-|_]; [congruence|reflexivity].
Qed.

Lemma normValue_lv (metric v : string) :
  existsb (String.eqb "") (map fst (levelsOfMetric metric)) = false ->
  lv metric (normValue metric v) = lv metric v.
Proof.
  intros He. unfold normValue.
  destruct (existsb (String.eqb v) _) eqn:E; [reflexivity|].
  unfold lv, levelOf.
  rewrite (prop_none_existsb _ _ He), (prop_none_existsb _ _ E). reflexivity.
Qed.

Lemma normSafety_eqb (v : string) :
  String.eqb (normSafety v) "S" = String.eqb v "S".
Proof. unfold normSafety. destruct (String.eqb v "S") eqn:E; reflexivity. Qed.

Lemma normSafety_candidates (v : string) : In (normSafety v) ["S"; "X"].
Proof. unfold normSafety. destruct (String.eqb v "S"); cbn; tauto. Qed.

Ltac norm_values :=
  rewrite ?normSafety_eqb;
  rewrite ?normValue_eqb by reflexivity;
  rewrite ?normValue_lv by reflexivity.

Lemma summary1_norm (AV PR UI : string) :
  summary1 AV PR UI =
  summary1 (normValue "AV" AV) (normValue "PR" PR) (normValue "UI" UI).
Proof. unfold summary1, eq1Of. norm_values. reflexivity. Qed.

Lemma summary2_norm (AC AT : string) :
  summary2 AC AT = summary2 (normValue "AC" AC) (normValue "AT" AT).
Proof. unfold summary2, eq2Of. norm_values. reflexivity. Qed.

Lemma summary36_norm (VC VI VA CR IR AR : string) :
  summary36 VC VI VA CR IR AR =
  summary36 (normValue "VC" VC) (normValue "VI" VI) (normValue "VA" VA)
            (normValue "CR" CR) (normValue "IR" IR) (normValue "AR" AR).
Proof. unfold summary36, eq3Of, eq6Of. norm_values. reflexivity. Qed.

Lemma summary4_norm (MSI MSA SC SI SA : string) :
  summary4 MSI MSA SC SI SA =
  summary4 (normSafety MSI) (normSafety MSA)
           (normValue "SC" SC) (normValue "SI" SI) (normValue "SA" SA).
Proof. unfold summary4, eq4Of. norm_values. reflexivity. Qed.

Lemma summary5_norm (E : string) : summary5 E = summary5 (normValue "E" E).
Proof. unfold summary5, eq5Of. norm_values. reflexivity. Qed.

End Coverage.

(** * Every summary is in the lists *)

Section Covered.

Ltac take H x Hx := rewrite forallb_forall in H; specialize (H x Hx).

Lemma summary1_covered (AV PR UI : string) :
  In (summary1 AV PR UI) summaries1.
Proof.
  rewrite summary1_norm.
  assert (H : forallb (fun a => forallb (fun p => forallb (fun u =>
      existsb (eqbSummary1 (summary1 a p u)) summaries1)
    (candidates "UI")) (candidates "PR")) (candidates "AV") = true)
    by (vm_compute; reflexivity).
  take H (normValue "AV" AV) (normValue_candidates "AV" AV).
  take H (normValue "PR" PR) (normValue_candidates "PR" PR).
  take H (normValue "UI" UI) (normValue_candidates "UI" UI).
  exact (existsb_In _ _ _ (eqbSummary1_eq _) H).
Qed.

Lemma summary2_covered (AC AT : string) : In (summary2 AC AT) summaries2.
Proof.
  rewrite summary2_norm.
  assert (H : forallb (fun a => forallb (fun p =>
      existsb (eqbSummary1 (summary2 a p)) summaries2)
    (candidates "AT")) (candidates "AC") = true)
    by (vm_compute; reflexivity).
  take H (normValue "AC" AC) (normValue_candidates "AC" AC).
  take H (normValue "AT" AT) (normValue_candidates "AT" AT).
  exact (existsb_In _ _ _ (eqbSummary1_eq _) H).
Qed.

Lemma summary5_covered (E : string) : In (summary5 E) summaries5.
Proof.
  rewrite summary5_norm.
  assert (H : forallb (fun e => existsb (eqbSummary1 (summary5 e)) summaries5)
                      (candidates "E") = true)
    by (vm_compute; reflexivity).
  take H (normValue "E" E) (normValue_candidates "E" E).
  exact (existsb_In _ _ _ (eqbSummary1_eq _) H).
Qed.

Lemma summary36_covered (VC VI VA CR IR AR : string) :
  In (summary36 VC VI VA CR IR AR) summaries36.
Proof.
  rewrite summary36_norm.
  assert (H : forallb (fun vc => forallb (fun vi => forallb (fun va =>
      forallb (fun cr => forallb (fun ir => forallb (fun ar =>
        existsb (eqbSummary36 (summary36 vc vi va cr ir ar)) summaries36)
      (candidates "AR")) (candidates "IR")) (candidates "CR"))
      (candidates "VA")) (candidates "VI")) (candidates "VC") = true)
    by (vm_compute; reflexivity).
  take H (normValue "VC" VC) (normValue_candidates "VC" VC).
  take H (normValue "VI" VI) (normValue_candidates "VI" VI).
  take H (normValue "VA" VA) (normValue_candidates "VA" VA).
  take H (normValue "CR" CR) (normValue_candidates "CR" CR).
  take H (normValue "IR" IR) (normValue_candidates "IR" IR).
  take H (normValue "AR" AR) (normValue_candidates "AR" AR).
  exact (existsb_In _ _ _ (eqbSummary36_eq _) H).
Qed.

Lemma summary4_covered (MSI MSA SC SI SA : string) :
  In (summary4 MSI MSA SC SI SA) summaries4.
Proof.
  rewrite summary4_norm.
  assert (H : forallb (fun msi => forallb (fun msa => forallb (fun sc =>
      forallb (fun si => forallb (fun sa =>
        existsb (eqbSummary4 (summary4 msi msa sc si sa)) summaries4)
      (candidates "SA")) (candidates "SI")) (candidates "SC"))
      ["S"; "X"]) ["S"; "X"] = true)
    by (vm_compute; reflexivity).
  take H (normSafety MSI) (normSafety_candidates MSI).
  take H (normSafety MSA) (normSafety_candidates MSA).
  take H (normValue "SC" SC) (normValue_candidates "SC" SC).
  take H (normValue "SI" SI) (normValue_candidates "SI" SI).
  take H (normValue "SA" SA) (normValue_candidates "SA" SA).
  exact (existsb_In _ _ _ (eqbSummary4_eq _) H).
Qed.

(** A value and the value it is raised to, or twice the same value, are a
    step once normalised. *)
Lemma norm_step (metric lo hi : string) :
  In metric ["VC"; "VI"; "VA"; "SC"; "SI"; "SA"] ->
  lo = hi \/ In (lo, hi) raises ->
  In (normValue metric lo, normValue metric hi) (steps metric).
Proof.
  intros Hm [<-|Hr]; unfold steps; apply in_or_app.
  - right. apply in_map_iff. exists (normValue metric lo).
    split; [reflexivity|apply normValue_candidates].
  - left. cbn [In] in Hm.
    repeat (destruct Hm as [<-|Hm];
            [unfold raises in *; cbn [In] in *;
             repeat (destruct Hr as [[= <- <-]|Hr]; [vm_compute; tauto|]);
             destruct Hr|]).
    destruct Hm.
Qed.

Lemma step36_VC (lo hi VI VA CR IR AR : string) :
  lo = hi \/ In (lo, hi) raises ->
  In (summary36 lo VI VA CR IR AR, summary36 hi VI VA CR IR AR) stepPairs36.
Proof.
  intros Hs. rewrite (summary36_norm lo), (summary36_norm hi).
  assert (H : forallb (fun lh : string * string => forallb (fun vi =>
      forallb (fun va => forallb (fun cr => forallb (fun ir => forallb (fun ar =>
        existsb (eqbPair eqbSummary36
                   (summary36 (fst lh) vi va cr ir ar,
                    summary36 (snd lh) vi va cr ir ar)) stepPairs36)
      (candidates "AR")) (candidates "IR")) (candidates "CR"))
      (candidates "VA")) (candidates "VI")) (steps "VC") = true)
    by (vm_compute; reflexivity).
  take H (normValue "VC" lo, normValue "VC" hi)
         (norm_step "VC" lo hi ltac:(cbn; tauto) Hs).
  take H (normValue "VI" VI) (normValue_candidates "VI" VI).
  take H (normValue "VA" VA) (normValue_candidates "VA" VA).
  take H (normValue "CR" CR) (normValue_candidates "CR" CR).
  take H (normValue "IR" IR) (normValue_candidates "IR" IR).
  take H (normValue "AR" AR) (normValue_candidates "AR" AR).
  cbn [fst snd] in H. exact (existsb_In _ _ _ (fun y => eqbPair_eq eqbSummary36 _ y eqbSummary36_eq) H).
Qed.

Lemma step36_VI (lo hi VC VA CR IR AR : string) :
  lo = hi \/ In (lo, hi) raises ->
  In (summary36 VC lo VA CR IR AR, summary36 VC hi VA CR IR AR) stepPairs36.
Proof.
  intros Hs. rewrite (summary36_norm VC lo), (summary36_norm VC hi).
  assert (H : forallb (fun lh : string * string => forallb (fun vc =>
      forallb (fun va => forallb (fun cr => forallb (fun ir => forallb (fun ar =>
        existsb (eqbPair eqbSummary36
                   (summary36 vc (fst lh) va cr ir ar,
                    summary36 vc (snd lh) va cr ir ar)) stepPairs36)
      (candidates "AR")) (candidates "IR")) (candidates "CR"))
      (candidates "VA")) (candidates "VC")) (steps "VI") = true)
    by (vm_compute; reflexivity).
  take H (normValue "VI" lo, normValue "VI" hi)
         (norm_step "VI" lo hi ltac:(cbn; tauto) Hs).
  take H (normValue "VC" VC) (normValue_candidates "VC" VC).
  take H (normValue "VA" VA) (normValue_candidates "VA" VA).
  take H (normValue "CR" CR) (normValue_candidates "CR" CR).
  take H (normValue "IR" IR) (normValue_candidates "IR" IR).
  take H (normValue "AR" AR) (normValue_candidates "AR" AR).
  cbn [fst snd] in H. exact (existsb_In _ _ _ (fun y => eqbPair_eq eqbSummary36 _ y eqbSummary36_eq) H).
Qed.

Lemma step36_VA (lo hi VC VI CR IR AR : string) :
  lo = hi \/ In (lo, hi) raises ->
  In (summary36 VC VI lo CR IR AR, summary36 VC VI hi CR IR AR) stepPairs36.
Proof.
  intros Hs. rewrite (summary36_norm VC VI lo), (summary36_norm VC VI hi).
  assert (H : forallb (fun lh : string * string => forallb (fun vc =>
      forallb (fun vi => forallb (fun cr => forallb (fun ir => forallb (fun ar =>
        existsb (eqbPair eqbSummary36
                   (summary36 vc vi (fst lh) cr ir ar,
                    summary36 vc vi (snd lh) cr ir ar)) stepPairs36)
      (candidates "AR")) (candidates "IR")) (candidates "CR"))
      (candidates "VI")) (candidates "VC")) (steps "VA") = true)
    by (vm_compute; reflexivity).
  take H (normValue "VA" lo, normValue "VA" hi)
         (norm_step "VA" lo hi ltac:(cbn; tauto) Hs).
  take H (normValue "VC" VC) (normValue_candidates "VC" VC).
  take H (normValue "VI" VI) (normValue_candidates "VI" VI).
  take H (normValue "CR" CR) (normValue_candidates "CR" CR).
  take H (normValue "IR" IR) (normValue_candidates "IR" IR).
  take H (normValue "AR" AR) (normValue_candidates "AR" AR).
  cbn [fst snd] in H. exact (existsb_In _ _ _ (fun y => eqbPair_eq eqbSummary36 _ y eqbSummary36_eq) H).
Qed.

Lemma step4_SC (lo hi MSI MSA SI SA : string) :
  lo = hi \/ In (lo, hi) raises ->
  In (summary4 MSI MSA lo SI SA, summary4 MSI MSA hi SI SA) stepPairs4.
Proof.
  intros Hs. rewrite (summary4_norm MSI MSA lo), (summary4_norm MSI MSA hi).
  assert (H : forallb (fun lh : string * string => forallb (fun msi =>
      forallb (fun msa => forallb (fun si => forallb (fun sa =>
        existsb (eqbPair eqbSummary4
                   (summary4 msi msa (fst lh) si sa,
                    summary4 msi msa (snd lh) si sa)) stepPairs4)
      (candidates "SA")) (candidates "SI")) ["S"; "X"]) ["S"; "X"])
      (steps "SC") = true)
    by (vm_compute; reflexivity).
  take H (normValue "SC" lo, normValue "SC" hi)
         (norm_step "SC" lo hi ltac:(cbn; tauto) Hs).
  take H (normSafety MSI) (normSafety_candidates MSI).
  take H (normSafety MSA) (normSafety_candidates MSA).
  take H (normValue "SI" SI) (normValue_candidates "SI" SI).
  take H (normValue "SA" SA) (normValue_candidates "SA" SA).
  cbn [fst snd] in H. exact (existsb_In _ _ _ (fun y => eqbPair_eq eqbSummary4 _ y eqbSummary4_eq) H).
Qed.

Lemma step4_SI (lo hi MSI MSA SC SA : string) :
  lo = hi \/ In (lo, hi) raises ->
  In (summary4 MSI MSA SC lo SA, summary4 MSI MSA SC hi SA) stepPairs4.
Proof.
  intros Hs. rewrite (summary4_norm MSI MSA SC lo), (summary4_norm MSI MSA SC hi).
  assert (H : forallb (fun lh : string * string => forallb (fun msi =>
      forallb (fun msa => forallb (fun sc => forallb (fun sa =>
        existsb (eqbPair eqbSummary4
                   (summary4 msi msa sc (fst lh) sa,
                    summary4 msi msa sc (snd lh) sa)) stepPairs4)
      (candidates "SA")) (candidates "SC")) ["S"; "X"]) ["S"; "X"])
      (steps "SI") = true)
    by (vm_compute; reflexivity).
  take H (normValue "SI" lo, normValue "SI" hi)
         (norm_step "SI" lo hi ltac:(cbn; tauto) Hs).
  take H (normSafety MSI) (normSafety_candidates MSI).
  take H (normSafety MSA) (normSafety_candidates MSA).
  take H (normValue "SC" SC) (normValue_candidates "SC" SC).
  take H (normValue "SA" SA) (normValue_candidates "SA" SA).
  cbn [fst snd] in H. exact (existsb_In _ _ _ (fun y => eqbPair_eq eqbSummary4 _ y eqbSummary4_eq) H).
Qed.

Lemma step4_SA (lo hi MSI MSA SC SI : string) :
  lo = hi \/ In (lo, hi) raises ->
  In (summary4 MSI MSA SC SI lo, summary4 MSI MSA SC SI hi) stepPairs4.
Proof.
  intros Hs. rewrite (summary4_norm MSI MSA SC SI lo), (summary4_norm MSI MSA SC SI hi).
  assert (H : forallb (fun lh : string * string => forallb (fun msi =>
      forallb (fun msa => forallb (fun sc => forallb (fun si =>
        existsb (eqbPair eqbSummary4
                   (summary4 msi msa sc si (fst lh),
                    summary4 msi msa sc si (snd lh))) stepPairs4)
      (candidates "SI")) (candidates "SC")) ["S"; "X"]) ["S"; "X"])
      (steps "SA") = true)
    by (vm_compute; reflexivity).
  take H (normValue "SA" lo, normValue "SA" hi)
         (norm_step "SA" lo hi ltac:(cbn; tauto) Hs).
  take H (normSafety MSI) (normSafety_candidates MSI).
  take H (normSafety MSA) (normSafety_candidates MSA).
  take H (normValue "SC" SC) (normValue_candidates "SC" SC).
  take H (normValue "SI" SI) (normValue_candidates "SI" SI).
  cbn [fst snd] in H. exact (existsb_In _ _ _ (fun y => eqbPair_eq eqbSummary4 _ y eqbSummary4_eq) H).
Qed.

Lemma rises36_all :
  forallb (fun s1 => forallb (fun s2 => forallb (fun s4 => forallb (fun s5 =>
    forallb (rises36 s1 s2 s4 s5) stepPairs36)
    summaries5) summaries4) summaries2) summaries1 = true.
Proof. vm_compute. reflexivity. Qed.

Lemma rises4_all :
  forallb (fun s1 => forallb (fun s2 => forallb (fun s36 => forallb (fun s5 =>
    forallb (rises4 s1 s2 s36 s5) stepPairs4)
    summaries5) summaries36) summaries2) summaries1 = true.
Proof. vm_compute. reflexivity. Qed.

(** Along a step of the VC/VI/VA group the score does not decrease. *)
Lemma scoreFast_monotone36 (s1 s2 : Summary1) (p p' : Summary36)
    (s4 : Summary4) (s5 : Summary1) :
  In s1 summaries1 -> In s2 summaries2 -> In s4 summaries4 ->
  In s5 summaries5 -> In (p, p') stepPairs36 ->
  (scoreFast s1 s2 p s4 s5 <=? scoreFast s1 s2 p' s4 s5)%float = true.
Proof.
  intros H1 H2 H4 H5 Hp.
  pose proof rises36_all as H.
  take H s1 H1. take H s2 H2. take H s4 H4. take H s5 H5. take H (p, p') Hp.
  exact H.
Qed.

(** Along a step of the SC/SI/SA group the score does not decrease. *)
Lemma scoreFast_monotone4 (s1 s2 : Summary1) (s36 : Summary36)
    (p p' : Summary4) (s5 : Summary1) :
  In s1 summaries1 -> In s2 summaries2 -> In s36 summaries36 ->
  In s5 summaries5 -> In (p, p') stepPairs4 ->
  (scoreFast s1 s2 s36 p s5 <=? scoreFast s1 s2 s36 p' s5)%float = true.
Proof.
  intros H1 H2 H36 H5 Hp.
  pose proof rises4_all as H.
  take H s1 H1. take H s2 H2. take H s36 H36. take H s5 H5. take H (p, p') Hp.
  exact H.
Qed.

End Covered.

(** * Monotonicity in the impact metrics *)

Section Monotone.

(** The score of every metrics object is a number, the one the fast rows
    give for its five summaries. *)
Lemma calculateScore_fast (m : gmap string string) :
  let ev := effectiveValue m in
  calculateScore m =
  Some (scoreFast
    (summary1 (ev "AV") (ev "PR") (ev "UI"))
    (summary2 (ev "AC") (ev "AT"))
    (summary36 (ev "VC") (ev "VI") (ev "VA") (ev "CR") (ev "IR") (ev "AR"))
    (summary4 (safetyFlag m "MSI") (safetyFlag m "MSA")
              (ev "SC") (ev "SI") (ev "SA"))
    (summary5 (ev "E"))).
Proof.
  intros ev. rewrite calculateScore_summaries.
  apply scoreOfSummaries_fast.
  change (In (macroDigits m) reachableDigits).
  apply macroDigits_reachable.
Qed.

(** Writing one metric leaves the effective value of another one alone,
    when the written key is not the other's modified key either. *)
Lemma effectiveValue_insert_ne (m : gmap string string) (k v k' : string) :
  k <> k' -> k <> "M" +:+ k' ->
  effectiveValue (<[k := v]> m) k' = effectiveValue m k'.
Proof.
  intros H1 H2. unfold effectiveValue.
  rewrite !(lookup_insert_ne m k) by assumption. reflexivity.
Qed.

Lemma safetyFlag_insert_ne (m : gmap string string) (k v k' : string) :
  k <> k' -> safetyFlag (<[k := v]> m) k' = safetyFlag m k'.
Proof.
  intros H. unfold safetyFlag. rewrite lookup_insert_ne by assumption.
  reflexivity.
Qed.

(** Raising an impact metric raises its effective value, or leaves it as it
    is when the modified metric overrides it. *)
Lemma effectiveValue_raise (m : gmap string string) (k v v' : string) :
  In k ["VC"; "VI"; "VA"; "SC"; "SI"; "SA"] ->
  m !! k = Some v -> In (v, v') raises ->
  effectiveValue m k = effectiveValue (<[k := v']> m) k \/
  In (effectiveValue m k, effectiveValue (<[k := v']> m) k) raises.
Proof.
  intros Hk Hv Hr. unfold effectiveValue.
  assert (Hne : k <> "M" +:+ k)
    by (cbn [In] in Hk; intuition (subst; discriminate)).
  rewrite (lookup_insert_ne m k) by assumption.
  destruct (definedNotX (m !! ("M" +:+ k))); [left; reflexivity|].
  right. rewrite lookup_insert_eq, Hv.
  unfold raises in *. cbn [In] in Hr.
  repeat (destruct Hr as [[= <- <-]|Hr]; [cbn; tauto|]).
  destruct Hr.
Qed.

(** C2. For every metrics object and each of the impact metrics VC, VI, VA,
    SC, SI and SA: when the metric's value is replaced by a more severe one of
    its ordering N, L, H (from N to L or H, or from L to H) and every other
    entry is left as it is, [metricsToScore] returns a number before and
    after, and the number after is not below the number before. *)
Theorem raising_impact_never_lowers_score
    (m : gmap string string) (k v v' : string) :
  In k ["VC"; "VI"; "VA"; "SC"; "SI"; "SA"] ->
  m !! k = Some v -> In (v, v') raises ->
  exists s s' : float,
    ms_score (metricsToScore m) = Some s /\
    ms_score (metricsToScore (<[k := v']> m)) = Some s' /\
    (s <=? s')%float = true.
Proof.
  intros Hk Hv Hr.
  pose proof (effectiveValue_raise m k v v' Hk Hv Hr) as Hstep.
  unfold metricsToScore. cbn [ms_score].
  rewrite (calculateScore_fast m), (calculateScore_fast (<[k := v']> m)).
  cbv zeta.
  eexists. eexists. split; [reflexivity|]. split; [reflexivity|].
  cbn [In] in Hk.
  repeat (destruct Hk as [<-|Hk];
    [rewrite ?(effectiveValue_insert_ne m _ v' "AV"),
             ?(effectiveValue_insert_ne m _ v' "PR"),
             ?(effectiveValue_insert_ne m _ v' "UI"),
             ?(effectiveValue_insert_ne m _ v' "AC"),
             ?(effectiveValue_insert_ne m _ v' "AT"),
             ?(effectiveValue_insert_ne m _ v' "VC"),
             ?(effectiveValue_insert_ne m _ v' "VI"),
             ?(effectiveValue_insert_ne m _ v' "VA"),
             ?(effectiveValue_insert_ne m _ v' "CR"),
             ?(effectiveValue_insert_ne m _ v' "IR"),
             ?(effectiveValue_insert_ne m _ v' "AR"),
             ?(effectiveValue_insert_ne m _ v' "SC"),
             ?(effectiveValue_insert_ne m _ v' "SI"),
             ?(effectiveValue_insert_ne m _ v' "SA"),
             ?(effectiveValue_insert_ne m _ v' "E"),
             ?(safetyFlag_insert_ne m _ v' "MSI"),
             ?(safetyFlag_insert_ne m _ v' "MSA") by discriminate|]);
    [| | | | | |destruct Hk].
  - apply scoreFast_monotone36;
      auto using summary1_covered, summary2_covered, summary4_covered,
                 summary5_covered, step36_VC.
  - apply scoreFast_monotone36;
      auto using summary1_covered, summary2_covered, summary4_covered,
                 summary5_covered, step36_VI.
  - apply scoreFast_monotone36;
      auto using summary1_covered, summary2_covered, summary4_covered,
                 summary5_covered, step36_VA.
  - apply scoreFast_monotone4;
      auto using summary1_covered, summary2_covered, summary36_covered,
                 summary5_covered, step4_SC.
  - apply scoreFast_monotone4;
      auto using summary1_covered, summary2_covered, summary36_covered,
                 summary5_covered, step4_SI.
  - apply scoreFast_monotone4;
      auto using summary1_covered, summary2_covered, summary36_covered,
                 summary5_covered, step4_SA.
Qed.

(** High confidentiality impact on the vulnerable system, and the integrity
    impact raised from none to low *)
Lemma raising_impact_never_lowers_score_witness :
  let m : gmap string string := {[ "VC" := "H"; "VI" := "N" ]} in
  exists s s' : float,
    ms_score (metricsToScore m) = Some s /\
    ms_score (metricsToScore (<["VI" := "L"]> m)) = Some s' /\
    (s <=? s')%float = true.
Proof.
  intros m.
  apply (raising_impact_never_lowers_score m "VI" "N" "L");
    [vm_compute; tauto|reflexivity|vm_compute; tauto].
Defined.

End Monotone.

(** * The range of the score *)

Section ScoreRange.

(** What holds of all summaries in the lists holds at every metrics
    object. *)
Lemma all5_spec
    (P : Summary1 -> Summary1 -> Summary36 -> Summary4 -> Summary1 -> bool)
    (m : gmap string string) :
  all5 P = true -> onSummaries P m = true.
Proof.
  unfold all5, onSummaries. intros H. set (ev := effectiveValue m).
  rewrite forallb_forall in H.
  specialize (H _ (summary1_covered (ev "AV") (ev "PR") (ev "UI"))).
  rewrite forallb_forall in H.
  specialize (H _ (summary2_covered (ev "AC") (ev "AT"))).
  rewrite forallb_forall in H.
  specialize (H _ (summary36_covered (ev "VC") (ev "VI") (ev "VA")
                                     (ev "CR") (ev "IR") (ev "AR"))).
  rewrite forallb_forall in H.
  specialize (H _ (summary4_covered (safetyFlag m "MSI") (safetyFlag m "MSA")
                                    (ev "SC") (ev "SI") (ev "SA"))).
  rewrite forallb_forall in H.
  specialize (H _ (summary5_covered (ev "E"))).
  exact H.
Qed.

Lemma calculateScore_onSummaries (m : gmap string string) :
  calculateScore m = Some (onSummaries scoreFast m).
Proof. apply calculateScore_fast. Qed.

Lemma noImpact_onSummaries (m : gmap string string) :
  noImpact m = onSummaries (fun _ _ s36 s4 _ => snd s36 && snd s4) m.
Proof.
  unfold noImpact, onSummaries, summary36, summary4. cbn [forallb snd].
  rewrite andb_true_r, !andb_assoc. reflexivity.
Qed.

Lemma tenthsList_spec (v : float) :
  existsb (Leibniz.eqb v) tenthsList = true ->
  exists n, n <= 100 /\ v = tenths n.
Proof.
  assert (E : tenthsList = map tenths (seq 0 101)) by (vm_compute; reflexivity).
  rewrite E, existsb_exists. intros (x & Hin & Heq).
  apply in_map_iff in Hin as (n & <- & Hn). apply in_seq in Hn.
  exists n. split; [lia|]. apply FloatAxioms.Leibniz.eqb_spec. exact Heq.
Qed.

Lemma scores_tenths :
  all5 (fun s1 s2 s36 s4 s5 =>
          existsb (Leibniz.eqb (scoreFast s1 s2 s36 s4 s5)) tenthsList)
  = true.
Proof. vm_compute. reflexivity. Qed.

Lemma scores_bounded :
  all5 (fun s1 s2 s36 s4 s5 =>
          (0 <=? scoreFast s1 s2 s36 s4 s5)%float &&
          (scoreFast s1 s2 s36 s4 s5 <=? 10)%float)
  = true.
Proof. vm_compute. reflexivity. Qed.

Lemma scores_zero :
  all5 (fun s1 s2 s36 s4 s5 =>
          Bool.eqb (Leibniz.eqb (scoreFast s1 s2 s36 s4 s5) 0)%float
                   (snd s36 && snd s4) &&
          Bool.eqb (optStringEqb
                      (scoreToSeverity (Some (scoreFast s1 s2 s36 s4 s5)))
                      (Some "INFO"))
                   (snd s36 && snd s4))
  = true.
Proof. vm_compute. reflexivity. Qed.

Lemma optStringEqb_eq (a b : option string) :
  optStringEqb a b = true <-> a = b.
Proof.
  destruct a as [x|], b as [y|]; cbn; try (split; congruence).
  rewrite String.eqb_eq. split; congruence.
Qed.

(** X1. For every metrics object [metricsToScore] returns a score, never
    [null] and never [NaN]: one of the numbers 0.0, 0.1, ..., 10.0, so a
    number between 0 and 10 with one decimal. *)
Theorem metricsToScore_score_range (m : gmap string string) :
  exists (n : nat) (s : float),
    ms_score (metricsToScore m) = Some s /\
    n <= 100 /\ s = tenths n /\
    (0 <=? s)%float = true /\ (s <=? 10)%float = true.
Proof.
  unfold metricsToScore. cbn [ms_score].
  rewrite calculateScore_onSummaries.
  destruct (tenthsList_spec _ (all5_spec _ m scores_tenths)) as (n & Hn & E).
  pose proof (all5_spec _ m scores_bounded) as Hb.
  unfold onSummaries in *. cbv zeta in *. apply andb_true_iff in Hb.
  exists n. eexists. split; [reflexivity|]. tauto.
Qed.

(** X2. The score is 0.0 exactly when all six impact metrics VC, VI, VA,
    SC, SI and SA resolve to N, and exactly then the severity is INFO: a
    metrics object with some impact gets a positive score and a severity of
    LOW or above. *)
Theorem score_zero_iff_no_impact (m : gmap string string) :
  exists s : float,
    ms_score (metricsToScore m) = Some s /\
    (s = 0%float <-> noImpact m = true) /\
    (ms_severity (metricsToScore m) = Some "INFO" <-> noImpact m = true).
Proof.
  unfold metricsToScore. cbn [ms_score ms_severity].
  rewrite calculateScore_onSummaries, noImpact_onSummaries.
  pose proof (all5_spec _ m scores_zero) as H.
  unfold onSummaries in *. cbv zeta in *.
  set (s := scoreFast _ _ _ _ _) in *. set (b := (_.2 && _.2)%bool) in *.
  apply andb_true_iff in H as [H1 H2].
  apply Bool.eqb_prop in H1, H2.
  exists s. split; [reflexivity|]. split.
  - rewrite <- H1. split.
    + intros ->. reflexivity.
    + apply FloatAxioms.Leibniz.eqb_spec.
  - rewrite <- H2. symmetry. apply optStringEqb_eq.
Qed.

Lemma scores_below_table :
  all5 (fun s1 s2 s36 s4 s5 =>
          (scoreFast s1 s2 s36 s4 s5 <=?
           fst (rowAt (summaryDigits s1 s2 s36 s4 s5)))%float)
  = true.
Proof. vm_compute. reflexivity. Qed.

(** X10. The interpolation only lowers: for every metrics object the score
    is at most the value that the lookup table holds for the MacroVector of
    the object. *)
Theorem score_at_most_table_value (m : gmap string string) :
  exists value s : float,
    lookupScore LOOKUP_TABLE (macroVector m) = Some value /\
    ms_score (metricsToScore m) = Some s /\
    (s <=? value)%float = true.
Proof.
  unfold metricsToScore. cbn [ms_score].
  rewrite calculateScore_onSummaries.
  pose proof (all5_spec _ m scores_below_table) as H.
  unfold onSummaries in *. cbv zeta in *.
  change (summaryDigits _ _ _ _ _) with (macroDigits m) in H.
  destruct (rowAt_reachable _ (macroDigits_reachable m)) as [Hrow _].
  rewrite macroVector_key.
  destruct (macroDigits m) as [[[[[e1 e2] e3] e4] e5] e6].
  eexists. eexists. split; [exact Hrow|]. split; [reflexivity|exact H].
Qed.

End ScoreRange.

(** * Monotonicity in the exploitability, threat and requirement metrics *)

Section SeverityOrder.

Ltac take H x Hx := rewrite forallb_forall in H; specialize (H x Hx).

Lemma prop_some_in {A : Type} (l : list (string * A)) (k : string) (a : A) :
  Js.prop l k = Some a -> In k (map fst l).
Proof.
  induction l as [|[k' a'] l IH]; cbn; [discriminate|].
  destruct (String.eqb_spec k' k) as [->|_]; [tauto|].
  intros H. right. apply IH. exact H.
Qed.

(** Only values with a level are compared. *)
Lemma level_in (metric v : string) (x : float) :
  (lv metric v <=? x)%float = true \/ (x <=? lv metric v)%float = true ->
  In v (map fst (levelsOfMetric metric)).
Proof.
  unfold lv, levelOf. destruct (Js.prop _ v) as [a|] eqn:E.
  - intros _. exact (prop_some_in _ _ _ E).
  - cbn. intros [H|H].
    + rewrite FloatAxioms.leb_spec in H. cbn in H. discriminate.
    + rewrite FloatFacts.leb_nan_r in H by reflexivity. discriminate.
Qed.

Lemma normValue_id (metric v : string) :
  In v (map fst (levelsOfMetric metric)) -> normValue metric v = v.
Proof.
  intros H. unfold normValue.
  destruct (existsb _ _) eqn:E; [reflexivity|].
  exfalso. apply not_true_iff_false in E. apply E.
  apply existsb_exists. exists v. split; [exact H|apply String.eqb_refl].
Qed.

Lemma norm_levelStep (metric lo hi : string) :
  lo = hi \/ atLeastAsSevere metric hi lo = true ->
  In (normValue metric lo, normValue metric hi) (levelSteps metric).
Proof.
  intros [<-|H]; unfold levelSteps; apply in_or_app.
  - right. apply in_map_iff. exists (normValue metric lo).
    split; [reflexivity|apply normValue_candidates].
  - left. unfold atLeastAsSevere in H.
    assert (Hhi := level_in metric hi _ (or_introl H)).
    assert (Hlo := level_in metric lo _ (or_intror H)).
    rewrite !normValue_id by assumption.
    apply filter_In. split; [apply in_prod; assumption|exact H].
Qed.

Lemma step1_AV (lo hi PR UI : string) :
  lo = hi \/ atLeastAsSevere "AV" hi lo = true ->
  In (summary1 lo PR UI, summary1 hi PR UI) stepPairs1.
Proof.
  intros Hs.
  rewrite (summary1_norm lo PR UI), (summary1_norm hi PR UI).
  assert (H : forallb (fun lh : string * string =>
      forallb (fun cpr =>
      forallb (fun cui =>
      existsb (eqbPair eqbSummary1
        (summary1 (fst lh) cpr cui,
         summary1 (snd lh) cpr cui)) stepPairs1)
      (candidates "UI"))
      (candidates "PR"))
      (levelSteps "AV") = true)
    by (vm_compute; reflexivity).
  take H (normValue "AV" lo, normValue "AV" hi) (norm_levelStep "AV" lo hi Hs).
  take H (normValue "PR" PR) (normValue_candidates "PR" PR).
  take H (normValue "UI" UI) (normValue_candidates "UI" UI).
  cbn [fst snd] in H.
  exact (existsb_In _ _ _ (fun y => eqbPair_eq eqbSummary1 _ y eqbSummary1_eq) H).
Qed.

Lemma step1_PR (lo hi AV UI : string) :
  lo = hi \/ atLeastAsSevere "PR" hi lo = true ->
  In (summary1 AV lo UI, summary1 AV hi UI) stepPairs1.
Proof.
  intros Hs.
  rewrite (summary1_norm AV lo UI), (summary1_norm AV hi UI).
  assert (H : forallb (fun lh : string * string =>
      forallb (fun cav =>
      forallb (fun cui =>
      existsb (eqbPair eqbSummary1
        (summary1 cav (fst lh) cui,
         summary1 cav (snd lh) cui)) stepPairs1)
      (candidates "UI"))
      (candidates "AV"))
      (levelSteps "PR") = true)
    by (vm_compute; reflexivity).
  take H (normValue "PR" lo, normValue "PR" hi) (norm_levelStep "PR" lo hi Hs).
  take H (normValue "AV" AV) (normValue_candidates "AV" AV).
  take H (normValue "UI" UI) (normValue_candidates "UI" UI).
  cbn [fst snd] in H.
  exact (existsb_In _ _ _ (fun y => eqbPair_eq eqbSummary1 _ y eqbSummary1_eq) H).
Qed.

Lemma step1_UI (lo hi AV PR : string) :
  lo = hi \/ atLeastAsSevere "UI" hi lo = true ->
  In (summary1 AV PR lo, summary1 AV PR hi) stepPairs1.
Proof.
  intros Hs.
  rewrite (summary1_norm AV PR lo), (summary1_norm AV PR hi).
  assert (H : forallb (fun lh : string * string =>
      forallb (fun cav =>
      forallb (fun cpr =>
      existsb (eqbPair eqbSummary1
        (summary1 cav cpr (fst lh),
         summary1 cav cpr (snd lh))) stepPairs1)
      (candidates "PR"))
      (candidates "AV"))
      (levelSteps "UI") = true)
    by (vm_compute; reflexivity).
  take H (normValue "UI" lo, normValue "UI" hi) (norm_levelStep "UI" lo hi Hs).
  take H (normValue "AV" AV) (normValue_candidates "AV" AV).
  take H (normValue "PR" PR) (normValue_candidates "PR" PR).
  cbn [fst snd] in H.
  exact (existsb_In _ _ _ (fun y => eqbPair_eq eqbSummary1 _ y eqbSummary1_eq) H).
Qed.

Lemma step2_AC (lo hi AT : string) :
  lo = hi \/ atLeastAsSevere "AC" hi lo = true ->
  In (summary2 lo AT, summary2 hi AT) stepPairs2.
Proof.
  intros Hs.
  rewrite (summary2_norm lo AT), (summary2_norm hi AT).
  assert (H : forallb (fun lh : string * string =>
      forallb (fun cat =>
      existsb (eqbPair eqbSummary1
        (summary2 (fst lh) cat,
         summary2 (snd lh) cat)) stepPairs2)
      (candidates "AT"))
      (levelSteps "AC") = true)
    by (vm_compute; reflexivity).
  take H (normValue "AC" lo, normValue "AC" hi) (norm_levelStep "AC" lo hi Hs).
  take H (normValue "AT" AT) (normValue_candidates "AT" AT).
  cbn [fst snd] in H.
  exact (existsb_In _ _ _ (fun y => eqbPair_eq eqbSummary1 _ y eqbSummary1_eq) H).
Qed.

Lemma step2_AT (lo hi AC : string) :
  lo = hi \/ atLeastAsSevere "AT" hi lo = true ->
  In (summary2 AC lo, summary2 AC hi) stepPairs2.
Proof.
  intros Hs.
  rewrite (summary2_norm AC lo), (summary2_norm AC hi).
  assert (H : forallb (fun lh : string * string =>
      forallb (fun cac =>
      existsb (eqbPair eqbSummary1
        (summary2 cac (fst lh),
         summary2 cac (snd lh))) stepPairs2)
      (candidates "AC"))
      (levelSteps "AT") = true)
    by (vm_compute; reflexivity).
  take H (normValue "AT" lo, normValue "AT" hi) (norm_levelStep "AT" lo hi Hs).
  take H (normValue "AC" AC) (normValue_candidates "AC" AC).
  cbn [fst snd] in H.
  exact (existsb_In _ _ _ (fun y => eqbPair_eq eqbSummary1 _ y eqbSummary1_eq) H).
Qed.

Lemma step5_E (lo hi  : string) :
  lo = hi \/ atLeastAsSevere "E" hi lo = true ->
  In (summary5 lo, summary5 hi) stepPairs5.
Proof.
  intros Hs.
  rewrite (summary5_norm lo), (summary5_norm hi).
  assert (H : forallb (fun lh : string * string =>
      existsb (eqbPair eqbSummary1
        (summary5 (fst lh),
         summary5 (snd lh))) stepPairs5)
      (levelSteps "E") = true)
    by (vm_compute; reflexivity).
  take H (normValue "E" lo, normValue "E" hi) (norm_levelStep "E" lo hi Hs).
  cbn [fst snd] in H.
  exact (existsb_In _ _ _ (fun y => eqbPair_eq eqbSummary1 _ y eqbSummary1_eq) H).
Qed.

Lemma stepReq_CR (lo hi VC VI VA IR AR : string) :
  lo = hi \/ atLeastAsSevere "CR" hi lo = true ->
  In (summary36 VC VI VA lo IR AR, summary36 VC VI VA hi IR AR) stepPairsReq.
Proof.
  intros Hs.
  rewrite (summary36_norm VC VI VA lo IR AR), (summary36_norm VC VI VA hi IR AR).
  assert (H : forallb (fun lh : string * string =>
      forallb (fun cvc =>
      forallb (fun cvi =>
      forallb (fun cva =>
      forallb (fun cir =>
      forallb (fun car =>
      existsb (eqbPair eqbSummary36
        (summary36 cvc cvi cva (fst lh) cir car,
         summary36 cvc cvi cva (snd lh) cir car)) stepPairsReq)
      (candidates "AR"))
      (candidates "IR"))
      (candidates "VA"))
      (candidates "VI"))
      (candidates "VC"))
      (levelSteps "CR") = true)
    by (vm_compute; reflexivity).
  take H (normValue "CR" lo, normValue "CR" hi) (norm_levelStep "CR" lo hi Hs).
  take H (normValue "VC" VC) (normValue_candidates "VC" VC).
  take H (normValue "VI" VI) (normValue_candidates "VI" VI).
  take H (normValue "VA" VA) (normValue_candidates "VA" VA).
  take H (normValue "IR" IR) (normValue_candidates "IR" IR).
  take H (normValue "AR" AR) (normValue_candidates "AR" AR).
  cbn [fst snd] in H.
  exact (existsb_In _ _ _ (fun y => eqbPair_eq eqbSummary36 _ y eqbSummary36_eq) H).
Qed.

Lemma stepReq_IR (lo hi VC VI VA CR AR : string) :
  lo = hi \/ atLeastAsSevere "IR" hi lo = true ->
  In (summary36 VC VI VA CR lo AR, summary36 VC VI VA CR hi AR) stepPairsReq.
Proof.
  intros Hs.
  rewrite (summary36_norm VC VI VA CR lo AR), (summary36_norm VC VI VA CR hi AR).
  assert (H : forallb (fun lh : string * string =>
      forallb (fun cvc =>
      forallb (fun cvi =>
      forallb (fun cva =>
      forallb (fun ccr =>
      forallb (fun car =>
      existsb (eqbPair eqbSummary36
        (summary36 cvc cvi cva ccr (fst lh) car,
         summary36 cvc cvi cva ccr (snd lh) car)) stepPairsReq)
      (candidates "AR"))
      (candidates "CR"))
      (candidates "VA"))
      (candidates "VI"))
      (candidates "VC"))
      (levelSteps "IR") = true)
    by (vm_compute; reflexivity).
  take H (normValue "IR" lo, normValue "IR" hi) (norm_levelStep "IR" lo hi Hs).
  take H (normValue "VC" VC) (normValue_candidates "VC" VC).
  take H (normValue "VI" VI) (normValue_candidates "VI" VI).
  take H (normValue "VA" VA) (normValue_candidates "VA" VA).
  take H (normValue "CR" CR) (normValue_candidates "CR" CR).
  take H (normValue "AR" AR) (normValue_candidates "AR" AR).
  cbn [fst snd] in H.
  exact (existsb_In _ _ _ (fun y => eqbPair_eq eqbSummary36 _ y eqbSummary36_eq) H).
Qed.

Lemma stepReq_AR (lo hi VC VI VA CR IR : string) :
  lo = hi \/ atLeastAsSevere "AR" hi lo = true ->
  In (summary36 VC VI VA CR IR lo, summary36 VC VI VA CR IR hi) stepPairsReq.
Proof.
  intros Hs.
  rewrite (summary36_norm VC VI VA CR IR lo), (summary36_norm VC VI VA CR IR hi).
  assert (H : forallb (fun lh : string * string =>
      forallb (fun cvc =>
      forallb (fun cvi =>
      forallb (fun cva =>
      forallb (fun ccr =>
      forallb (fun cir =>
      existsb (eqbPair eqbSummary36
        (summary36 cvc cvi cva ccr cir (fst lh),
         summary36 cvc cvi cva ccr cir (snd lh))) stepPairsReq)
      (candidates "IR"))
      (candidates "CR"))
      (candidates "VA"))
      (candidates "VI"))
      (candidates "VC"))
      (levelSteps "AR") = true)
    by (vm_compute; reflexivity).
  take H (normValue "AR" lo, normValue "AR" hi) (norm_levelStep "AR" lo hi Hs).
  take H (normValue "VC" VC) (normValue_candidates "VC" VC).
  take H (normValue "VI" VI) (normValue_candidates "VI" VI).
  take H (normValue "VA" VA) (normValue_candidates "VA" VA).
  take H (normValue "CR" CR) (normValue_candidates "CR" CR).
  take H (normValue "IR" IR) (normValue_candidates "IR" IR).
  cbn [fst snd] in H.
  exact (existsb_In _ _ _ (fun y => eqbPair_eq eqbSummary36 _ y eqbSummary36_eq) H).
Qed.

Lemma rises1_all :
  forallb (fun s2 => forallb (fun s36 => forallb (fun s4 => forallb (fun s5 =>
    forallb (rises1 s2 s36 s4 s5) stepPairs1)
    summaries5) summaries4) summaries36) summaries2 = true.
Proof. vm_compute. reflexivity. Qed.

Lemma rises2_all :
  forallb (fun s1 => forallb (fun s36 => forallb (fun s4 => forallb (fun s5 =>
    forallb (rises2 s1 s36 s4 s5) stepPairs2)
    summaries5) summaries4) summaries36) summaries1 = true.
Proof. vm_compute. reflexivity. Qed.

Lemma rises5_all :
  forallb (fun s1 => forallb (fun s2 => forallb (fun s36 => forallb (fun s4 =>
    forallb (rises5 s1 s2 s36 s4) stepPairs5)
    summaries4) summaries36) summaries2) summaries1 = true.
Proof. vm_compute. reflexivity. Qed.

Lemma risesReq_all :
  forallb (fun s1 => forallb (fun s2 => forallb (fun s4 => forallb (fun s5 =>
    forallb (rises36 s1 s2 s4 s5) stepPairsReq)
    summaries5) summaries4) summaries2) summaries1 = true.
Proof. vm_compute. reflexivity. Qed.

Lemma scoreFast_monotone1 (p p' s2 : Summary1) (s36 : Summary36)
    (s4 : Summary4) (s5 : Summary1) :
  In s2 summaries2 -> In s36 summaries36 -> In s4 summaries4 ->
  In s5 summaries5 -> In (p, p') stepPairs1 ->
  (scoreFast p s2 s36 s4 s5 <=? scoreFast p' s2 s36 s4 s5)%float = true.
Proof.
  intros H2 H36 H4 H5 Hp. pose proof rises1_all as H.
  take H s2 H2. take H s36 H36. take H s4 H4. take H s5 H5. take H (p, p') Hp.
  exact H.
Qed.

Lemma scoreFast_monotone2 (s1 p p' : Summary1) (s36 : Summary36)
    (s4 : Summary4) (s5 : Summary1) :
  In s1 summaries1 -> In s36 summaries36 -> In s4 summaries4 ->
  In s5 summaries5 -> In (p, p') stepPairs2 ->
  (scoreFast s1 p s36 s4 s5 <=? scoreFast s1 p' s36 s4 s5)%float = true.
Proof.
  intros H1 H36 H4 H5 Hp. pose proof rises2_all as H.
  take H s1 H1. take H s36 H36. take H s4 H4. take H s5 H5. take H (p, p') Hp.
  exact H.
Qed.

Lemma scoreFast_monotone5 (s1 s2 : Summary1) (s36 : Summary36)
    (s4 : Summary4) (p p' : Summary1) :
  In s1 summaries1 -> In s2 summaries2 -> In s36 summaries36 ->
  In s4 summaries4 -> In (p, p') stepPairs5 ->
  (scoreFast s1 s2 s36 s4 p <=? scoreFast s1 s2 s36 s4 p')%float = true.
Proof.
  intros H1 H2 H36 H4 Hp. pose proof rises5_all as H.
  take H s1 H1. take H s2 H2. take H s36 H36. take H s4 H4. take H (p, p') Hp.
  exact H.
Qed.

Lemma scoreFast_monotoneReq (s1 s2 : Summary1) (p p' : Summary36)
    (s4 : Summary4) (s5 : Summary1) :
  In s1 summaries1 -> In s2 summaries2 -> In s4 summaries4 ->
  In s5 summaries5 -> In (p, p') stepPairsReq ->
  (scoreFast s1 s2 p s4 s5 <=? scoreFast s1 s2 p' s4 s5)%float = true.
Proof.
  intros H1 H2 H4 H5 Hp. pose proof risesReq_all as H.
  take H s1 H1. take H s2 H2. take H s4 H4. take H s5 H5. take H (p, p') Hp.
  exact H.
Qed.

(** The metrics whose values [METRIC_LEVELS] orders and that are no
    impact metrics *)
Lemma level_not_X (k v : string) :
  In k ["AV"; "PR"; "UI"; "AC"; "AT"; "E"; "CR"; "IR"; "AR"] ->
  In v (map fst (levelsOfMetric k)) -> definedNotX (Some v) = true.
Proof.
  intros Hk Hv. cbn [In] in Hk.
  repeat (destruct Hk as [<-|Hk];
    [vm_compute in Hv;
     repeat (destruct Hv as [<-|Hv]; [reflexivity|]); destruct Hv|]).
  destruct Hk.
Qed.

(** Replacing the value of such a metric by one at least as severe makes
    its effective value at least as severe, or leaves it as it is when the
    modified metric overrides it. *)
Lemma effectiveValue_replace (m : gmap string string) (k v v' : string) :
  In k ["AV"; "PR"; "UI"; "AC"; "AT"; "E"; "CR"; "IR"; "AR"] ->
  m !! k = Some v -> atLeastAsSevere k v' v = true ->
  effectiveValue m k = effectiveValue (<[k := v']> m) k \/
  atLeastAsSevere k (effectiveValue (<[k := v']> m) k) (effectiveValue m k)
  = true.
Proof.
  intros Hk Hv H.
  assert (Hin : definedNotX (Some v) = true)
    by exact (level_not_X k v Hk (level_in k v _ (or_intror H))).
  assert (Hin' : definedNotX (Some v') = true)
    by exact (level_not_X k v' Hk (level_in k v' _ (or_introl H))).
  assert (Hne : k <> "M" +:+ k)
    by (cbn [In] in Hk; intuition (subst; discriminate)).
  unfold effectiveValue.
  rewrite (lookup_insert_ne m k) by assumption.
  destruct (definedNotX (m !! ("M" +:+ k))); [left; reflexivity|].
  right. rewrite lookup_insert_eq, Hv, Hin, Hin'. exact H.
Qed.

Ltac others m v' :=
  rewrite ?(effectiveValue_insert_ne m _ v' "AV"),
          ?(effectiveValue_insert_ne m _ v' "PR"),
          ?(effectiveValue_insert_ne m _ v' "UI"),
          ?(effectiveValue_insert_ne m _ v' "AC"),
          ?(effectiveValue_insert_ne m _ v' "AT"),
          ?(effectiveValue_insert_ne m _ v' "VC"),
          ?(effectiveValue_insert_ne m _ v' "VI"),
          ?(effectiveValue_insert_ne m _ v' "VA"),
          ?(effectiveValue_insert_ne m _ v' "CR"),
          ?(effectiveValue_insert_ne m _ v' "IR"),
          ?(effectiveValue_insert_ne m _ v' "AR"),
          ?(effectiveValue_insert_ne m _ v' "SC"),
          ?(effectiveValue_insert_ne m _ v' "SI"),
          ?(effectiveValue_insert_ne m _ v' "SA"),
          ?(effectiveValue_insert_ne m _ v' "E"),
          ?(safetyFlag_insert_ne m _ v' "MSI"),
          ?(safetyFlag_insert_ne m _ v' "MSA") by discriminate.

(** X3. For every metrics object and each of the exploitability metrics AV,
    PR, UI, AC and AT: when the metric's value is replaced by one that
    [METRIC_LEVELS] ranks at least as severe (a lower or equal level) and
    every other entry is left as it is, [metricsToScore] returns a number
    before and after, and the number after is not below the number
    before. *)
Theorem exploitability_never_lowers_score
    (m : gmap string string) (k v v' : string) :
  In k ["AV"; "PR"; "UI"; "AC"; "AT"] ->
  m !! k = Some v -> atLeastAsSevere k v' v = true ->
  exists s s' : float,
    ms_score (metricsToScore m) = Some s /\
    ms_score (metricsToScore (<[k := v']> m)) = Some s' /\
    (s <=? s')%float = true.
Proof.
  intros Hk Hv Hr.
  assert (Hstep := effectiveValue_replace m k v v'
                     ltac:(cbn [In] in *; tauto) Hv Hr).
  unfold metricsToScore. cbn [ms_score].
  rewrite (calculateScore_fast m), (calculateScore_fast (<[k := v']> m)).
  cbv zeta.
  eexists. eexists. split; [reflexivity|]. split; [reflexivity|].
  cbn [In] in Hk.
  repeat (destruct Hk as [<-|Hk]; [others m v'|]); [| | | | |destruct Hk].
  - apply scoreFast_monotone1;
      auto using summary2_covered, summary36_covered, summary4_covered,
                 summary5_covered, step1_AV.
  - apply scoreFast_monotone1;
      auto using summary2_covered, summary36_covered, summary4_covered,
                 summary5_covered, step1_PR.
  - apply scoreFast_monotone1;
      auto using summary2_covered, summary36_covered, summary4_covered,
                 summary5_covered, step1_UI.
  - apply scoreFast_monotone2;
      auto using summary1_covered, summary36_covered, summary4_covered,
                 summary5_covered, step2_AC.
  - apply scoreFast_monotone2;
      auto using summary1_covered, summary36_covered, summary4_covered,
                 summary5_covered, step2_AT.
Qed.

(** Physical attack vector replaced by network attack vector *)
Lemma exploitability_never_lowers_score_witness :
  let m : gmap string string := {[ "AV" := "P"; "VC" := "H" ]} in
  exists s s' : float,
    ms_score (metricsToScore m) = Some s /\
    ms_score (metricsToScore (<["AV" := "N"]> m)) = Some s' /\
    (s <=? s')%float = true.
Proof.
  intros m.
  apply (exploitability_never_lowers_score m "AV" "P" "N");
    [vm_compute; tauto|reflexivity|reflexivity].
Defined.

(** X4. For every metrics object: when the value of the exploit maturity E
    is replaced by one that [METRIC_LEVELS] ranks at least as severe (from U
    to P or A, or from P to A) and every other entry is left as it is, the
    score that [metricsToScore] returns does not decrease. *)
Theorem exploit_maturity_never_lowers_score
    (m : gmap string string) (v v' : string) :
  m !! "E" = Some v -> atLeastAsSevere "E" v' v = true ->
  exists s s' : float,
    ms_score (metricsToScore m) = Some s /\
    ms_score (metricsToScore (<["E" := v']> m)) = Some s' /\
    (s <=? s')%float = true.
Proof.
  intros Hv Hr.
  assert (Hstep := effectiveValue_replace m "E" v v'
                     ltac:(cbn [In] in *; tauto) Hv Hr).
  unfold metricsToScore. cbn [ms_score].
  rewrite (calculateScore_fast m), (calculateScore_fast (<["E" := v']> m)).
  cbv zeta.
  eexists. eexists. split; [reflexivity|]. split; [reflexivity|].
  others m v'.
  apply scoreFast_monotone5;
    auto using summary1_covered, summary2_covered, summary36_covered,
               summary4_covered, step5_E.
Qed.

(** Unreported exploit maturity replaced by attacked *)
Lemma exploit_maturity_never_lowers_score_witness :
  let m : gmap string string := {[ "E" := "U"; "VC" := "H" ]} in
  exists s s' : float,
    ms_score (metricsToScore m) = Some s /\
    ms_score (metricsToScore (<["E" := "A"]> m)) = Some s' /\
    (s <=? s')%float = true.
Proof.
  intros m.
  apply (exploit_maturity_never_lowers_score m "U" "A");
    [reflexivity|reflexivity].
Defined.

(** X5. For every metrics object and each of the security requirements CR,
    IR and AR: when the requirement's value is replaced by one that
    [METRIC_LEVELS] ranks at least as severe (from L to M or H, or from M to
    H) and every other entry is left as it is, the score that
    [metricsToScore] returns does not decrease. *)
Theorem requirement_never_lowers_score
    (m : gmap string string) (k v v' : string) :
  In k ["CR"; "IR"; "AR"] ->
  m !! k = Some v -> atLeastAsSevere k v' v = true ->
  exists s s' : float,
    ms_score (metricsToScore m) = Some s /\
    ms_score (metricsToScore (<[k := v']> m)) = Some s' /\
    (s <=? s')%float = true.
Proof.
  intros Hk Hv Hr.
  assert (Hstep := effectiveValue_replace m k v v'
                     ltac:(cbn [In] in *; tauto) Hv Hr).
  unfold metricsToScore. cbn [ms_score].
  rewrite (calculateScore_fast m), (calculateScore_fast (<[k := v']> m)).
  cbv zeta.
  eexists. eexists. split; [reflexivity|]. split; [reflexivity|].
  cbn [In] in Hk.
  repeat (destruct Hk as [<-|Hk]; [others m v'|]); [| | |destruct Hk].
  - apply scoreFast_monotoneReq;
      auto using summary1_covered, summary2_covered, summary4_covered,
                 summary5_covered, stepReq_CR.
  - apply scoreFast_monotoneReq;
      auto using summary1_covered, summary2_covered, summary4_covered,
                 summary5_covered, stepReq_IR.
  - apply scoreFast_monotoneReq;
      auto using summary1_covered, summary2_covered, summary4_covered,
                 summary5_covered, stepReq_AR.
Qed.

(** Low confidentiality requirement replaced by high *)
Lemma requirement_never_lowers_score_witness :
  let m : gmap string string := {[ "CR" := "L"; "VC" := "H" ]} in
  exists s s' : float,
    ms_score (metricsToScore m) = Some s /\
    ms_score (metricsToScore (<["CR" := "H"]> m)) = Some s' /\
    (s <=? s')%float = true.
Proof.
  intros m.
  apply (requirement_never_lowers_score m "CR" "L" "H");
    [vm_compute; tauto|reflexivity|reflexivity].
Defined.

End SeverityOrder.

(** * What the score reads of a metrics object *)

Section Reads.

(** The score is a function of the effective values of the fifteen metrics
    of [METRIC_LEVELS] and of the raw MSI and MSA. *)
Lemma calculateScore_reads (m m' : gmap string string) :
  (forall k, In k scoredMetrics -> effectiveValue m k = effectiveValue m' k) ->
  safetyFlag m "MSI" = safetyFlag m' "MSI" ->
  safetyFlag m "MSA" = safetyFlag m' "MSA" ->
  calculateScore m = calculateScore m'.
Proof.
  intros Hev Hi Ha.
  rewrite (calculateScore_summaries m), (calculateScore_summaries m').
  cbv zeta. rewrite Hi, Ha.
  rewrite !Hev by (vm_compute; tauto). reflexivity.
Qed.

Lemma metricsToScore_reads (m m' : gmap string string) :
  calculateScore m = calculateScore m' ->
  ms_score (metricsToScore m) = ms_score (metricsToScore m') /\
  ms_severity (metricsToScore m) = ms_severity (metricsToScore m').
Proof. unfold metricsToScore. cbn [ms_score ms_severity]. intros ->. tauto. Qed.

(** Two objects that agree at a key, or hold nothing defined there, give a
    metric the same effective value. *)
Lemma effectiveValue_agree (m m' : gmap string string) (k : string) :
  (forall j, m !! j = m' !! j \/
             definedNotX (m !! j) = false /\ definedNotX (m' !! j) = false) ->
  effectiveValue m k = effectiveValue m' k.
Proof.
  intros H. unfold effectiveValue.
  destruct (H ("M" +:+ k)) as [->|[-> ->]].
  - destruct (definedNotX (m' !! ("M" +:+ k))); [reflexivity|].
    destruct (H k) as [->|[-> ->]]; reflexivity.
  - destruct (H k) as [->|[-> ->]]; reflexivity.
Qed.

Lemma safetyFlag_agree (m m' : gmap string string) (k : string) :
  m !! k = m' !! k \/
  definedNotX (m !! k) = false /\ definedNotX (m' !! k) = false ->
  safetyFlag m k = safetyFlag m' k.
Proof.
  unfold safetyFlag. intros [->|[H H']]; [reflexivity|].
  destruct (m !! k) as [x|], (m' !! k) as [y|]; cbn in H, H'.
  - apply negb_false_iff, String.eqb_eq in H, H'. subst. reflexivity.
  - apply negb_false_iff, String.eqb_eq in H. subst. reflexivity.
  - apply negb_false_iff, String.eqb_eq in H'. subst. reflexivity.
  - reflexivity.
Qed.

(** X6. The value X (not defined) counts as absent in scoring: for every
    metrics object and every key, the object with X at the key and the
    object without the key get the same score and the same severity. *)
Theorem not_defined_scores_as_absent (m : gmap string string) (k : string) :
  ms_score (metricsToScore (<[k := "X"]> m)) =
    ms_score (metricsToScore (delete k m)) /\
  ms_severity (metricsToScore (<[k := "X"]> m)) =
    ms_severity (metricsToScore (delete k m)).
Proof.
  assert (H : forall j, (<[k := "X"]> m) !! j = delete k m !! j \/
                definedNotX ((<[k := "X"]> m) !! j) = false /\
                definedNotX (delete k m !! j) = false).
  { intros j. destruct (decide (k = j)) as [->|Hne].
    - right. rewrite lookup_insert_eq, lookup_delete_eq. split; reflexivity.
    - left. rewrite lookup_insert_ne, lookup_delete_ne by assumption.
      reflexivity. }
  apply metricsToScore_reads, calculateScore_reads.
  - intros k' _. apply effectiveValue_agree, H.
  - apply safetyFlag_agree, H.
  - apply safetyFlag_agree, H.
Qed.

(** The scored metrics and their modified forms are the keys read. *)
Lemma scored_key (k k' : string) :
  In k' scoredMetrics ->
  k = k' \/ k = "M" +:+ k' ->
  In k (scoredMetrics ++ map (String.append "M") scoredMetrics).
Proof.
  intros Hk' [E|E]; subst k; apply in_or_app; [left; exact Hk'|right].
  apply in_map. exact Hk'.
Qed.

(** X7. A key that is neither a metric of [METRIC_LEVELS] nor the modified
    form (M prefixed) of one has no part in scoring: writing any value
    there, or removing it, leaves score and severity as they are. *)
Theorem unread_key_keeps_score (m : gmap string string) (k v : string) :
  ~ In k (scoredMetrics ++ map (String.append "M") scoredMetrics) ->
  (ms_score (metricsToScore (<[k := v]> m)) = ms_score (metricsToScore m) /\
   ms_severity (metricsToScore (<[k := v]> m)) =
     ms_severity (metricsToScore m)) /\
  (ms_score (metricsToScore (delete k m)) = ms_score (metricsToScore m) /\
   ms_severity (metricsToScore (delete k m)) =
     ms_severity (metricsToScore m)).
Proof.
  intros Hk.
  assert (Hne : forall k', In k' scoredMetrics -> k <> k' /\ k <> "M" +:+ k').
  { intros k' Hk'. split; intros E; apply Hk.
    - apply (scored_key k k' Hk'). left. exact E.
    - apply (scored_key k k' Hk'). right. exact E. }
  assert (HSI : k <> "MSI")
    by (apply (Hne "SI"); vm_compute; tauto).
  assert (HSA : k <> "MSA")
    by (apply (Hne "SA"); vm_compute; tauto).
  split; apply metricsToScore_reads, calculateScore_reads.
  - intros k' Hk'. apply effectiveValue_insert_ne; apply (Hne k' Hk').
  - apply safetyFlag_insert_ne. exact HSI.
  - apply safetyFlag_insert_ne. exact HSA.
  - intros k' Hk'. destruct (Hne k' Hk') as [H1 H2]. unfold effectiveValue.
    rewrite !lookup_delete_ne by assumption. reflexivity.
  - unfold safetyFlag. rewrite lookup_delete_ne by assumption. reflexivity.
  - unfold safetyFlag. rewrite lookup_delete_ne by assumption. reflexivity.
Qed.

(** The supplemental metric S (safety) *)
Lemma unread_key_keeps_score_witness :
  let m : gmap string string := {[ "VC" := "H" ]} in
  (ms_score (metricsToScore (<["S" := "P"]> m)) = ms_score (metricsToScore m) /\
   ms_severity (metricsToScore (<["S" := "P"]> m)) =
     ms_severity (metricsToScore m)) /\
  (ms_score (metricsToScore (delete "S" m)) = ms_score (metricsToScore m) /\
   ms_severity (metricsToScore (delete "S" m)) =
     ms_severity (metricsToScore m)).
Proof.
  intros m. apply (unread_key_keeps_score m "S" "P").
  vm_compute. intuition discriminate.
Defined.

(** X8. A modified metric that is defined hides its base metric: when the
    object holds, for a metric K of [METRIC_LEVELS], a value other than X
    under the key MK, then whatever is written under K the score and the
    severity stay the same. *)
Theorem modified_metric_hides_base (m : gmap string string) (k w : string) :
  In k scoredMetrics ->
  definedNotX (m !! ("M" +:+ k)) = true ->
  ms_score (metricsToScore (<[k := w]> m)) = ms_score (metricsToScore m) /\
  ms_severity (metricsToScore (<[k := w]> m)) = ms_severity (metricsToScore m).
Proof.
  intros Hk Hm.
  assert (Hns : forall k', In k' scoredMetrics -> k <> "M" +:+ k').
  { intros k' _ E. vm_compute in Hk.
    repeat (destruct Hk as [<-|Hk]; [discriminate E|]). destruct Hk. }
  apply metricsToScore_reads, calculateScore_reads.
  - intros k' Hk'. destruct (decide (k = k')) as [<-|Hne].
    + unfold effectiveValue.
      rewrite (lookup_insert_ne m k) by (apply Hns; exact Hk).
      rewrite Hm. reflexivity.
    + apply effectiveValue_insert_ne; [exact Hne|apply Hns; exact Hk'].
  - apply safetyFlag_insert_ne. apply (Hns "SI"). vm_compute; tauto.
  - apply safetyFlag_insert_ne. apply (Hns "SA"). vm_compute; tauto.
Qed.

(** A modified attack vector, and the base attack vector rewritten *)
Lemma modified_metric_hides_base_witness :
  let m : gmap string string := {[ "MAV" := "L"; "AV" := "N"; "VC" := "H" ]} in
  ms_score (metricsToScore (<["AV" := "P"]> m)) = ms_score (metricsToScore m) /\
  ms_severity (metricsToScore (<["AV" := "P"]> m)) =
    ms_severity (metricsToScore m).
Proof.
  intros m. apply (modified_metric_hides_base m "AV" "P");
    [vm_compute; tauto|reflexivity].
Defined.

(** X9. A modified metric acts as the base metric would: for a metric K of
    [METRIC_LEVELS] other than SI and SA and a value other than X, the object
    with the value under MK gets the score and severity of the object
    without MK and with the value under K. *)
Theorem modified_metric_acts_as_base (m : gmap string string) (k v : string) :
  In k scoredMetrics -> k <> "SI" -> k <> "SA" ->
  definedNotX (Some v) = true ->
  ms_score (metricsToScore (<["M" +:+ k := v]> m)) =
    ms_score (metricsToScore (<[k := v]> (delete ("M" +:+ k) m))) /\
  ms_severity (metricsToScore (<["M" +:+ k := v]> m)) =
    ms_severity (metricsToScore (<[k := v]> (delete ("M" +:+ k) m))).
Proof.
  intros Hk HSI HSA Hv.
  assert (Hns : forall k', In k' scoredMetrics ->
                  k <> "M" +:+ k' /\ "M" +:+ k <> k').
  { intros k' Hk'. split; intros E.
    - vm_compute in Hk.
      repeat (destruct Hk as [<-|Hk]; [discriminate E|]). destruct Hk.
    - vm_compute in Hk'.
      repeat (destruct Hk' as [<-|Hk']; [discriminate E|]). destruct Hk'. }
  assert (Hinj : forall k', "M" +:+ k = "M" +:+ k' -> k = k')
    by (intros k' [= E]; exact E).
  apply metricsToScore_reads, calculateScore_reads.
  - intros k' Hk'. destruct (Hns k' Hk') as [H1 H2].
    unfold effectiveValue. destruct (decide (k = k')) as [<-|Hne].
    + rewrite lookup_insert_eq, Hv.
      rewrite (lookup_insert_ne _ k ("M" +:+ k)) by exact H1.
      rewrite lookup_delete_eq. cbn [definedNotX].
      rewrite lookup_insert_eq, Hv. reflexivity.
    + rewrite !(lookup_insert_ne m ("M" +:+ k))
        by (try exact H2; intros E; apply Hne, Hinj, E).
      rewrite !(lookup_insert_ne _ k) by (try exact H1; exact Hne).
      rewrite !lookup_delete_ne
        by (try exact H2; intros E; apply Hne, Hinj, E).
      reflexivity.
  - unfold safetyFlag.
    rewrite lookup_insert_ne by (intros [= E]; apply HSI, E).
    rewrite lookup_insert_ne by (apply (Hns "SI"); vm_compute; tauto).
    rewrite lookup_delete_ne by (intros [= E]; apply HSI, E).
    reflexivity.
  - unfold safetyFlag.
    rewrite lookup_insert_ne by (intros [= E]; apply HSA, E).
    rewrite lookup_insert_ne by (apply (Hns "SA"); vm_compute; tauto).
    rewrite lookup_delete_ne by (intros [= E]; apply HSA, E).
    reflexivity.
Qed.

(** A modified attack vector L, and the base attack vector L *)
Lemma modified_metric_acts_as_base_witness :
  let m : gmap string string := {[ "AV" := "N"; "VC" := "H" ]} in
  ms_score (metricsToScore (<["MAV" := "L"]> m)) =
    ms_score (metricsToScore (<["AV" := "L"]> (delete "MAV" m))) /\
  ms_severity (metricsToScore (<["MAV" := "L"]> m)) =
    ms_severity (metricsToScore (<["AV" := "L"]> (delete "MAV" m))).
Proof.
  intros m. apply (modified_metric_acts_as_base m "AV" "L");
    [vm_compute; tauto|discriminate|discriminate|reflexivity].
Defined.

End Reads.

(** * Trimming *)

Module TrimFacts.

Lemma rev_app_acc s acc : String.rev_app s acc = String.rev s +:+ acc.
Proof.
  revert acc. induction s as [|c s IH]; intros acc; [reflexivity|].
  unfold String.rev. cbn [String.rev_app].
  rewrite (IH (String c acc)), (IH (String c "")), JsFacts.append_assoc.
  reflexivity.
Qed.

Lemma rev_cons c s : String.rev (String c s) = String.rev s +:+ String c "".
Proof. unfold String.rev at 1. cbn [String.rev_app]. apply rev_app_acc. Qed.

Lemma rev_snoc s c : String.rev (s +:+ String c "") = String c (String.rev s).
Proof. unfold String.rev. rewrite JsFacts.rev_app_append. reflexivity. Qed.

Lemma rev_empty s : String.rev s = "" -> s = "".
Proof.
  intros H. rewrite <- (JsFacts.rev_involutive s), H. reflexivity.
Qed.

Lemma trimStart_idem s : Js.trimStart (Js.trimStart s) = Js.trimStart s.
Proof.
  induction s as [|c s IH]; [reflexivity|]. cbn [Js.trimStart].
  destruct (Js.isWhiteSpace c) eqn:E; [exact IH|].
  cbn [Js.trimStart]. rewrite E. reflexivity.
Qed.

Lemma trimStart_app a b :
  Js.trimStart (a +:+ b) =
  match Js.trimStart a with
  | "" => Js.trimStart b
  | t => t +:+ b
  end.
Proof.
  induction a as [|c a IH]; [reflexivity|].
  rewrite JsFacts.append_cons. cbn [Js.trimStart].
  destruct (Js.isWhiteSpace c); [exact IH|reflexivity].
Qed.

Lemma trimEnd_cons c s :
  Js.trimEnd (String c s) =
  match Js.trimEnd s with
  | "" => if Js.isWhiteSpace c then "" else String c ""
  | t => String c t
  end.
Proof.
  unfold Js.trimEnd. rewrite rev_cons, trimStart_app.
  destruct (Js.trimStart (String.rev s)) as [|d t] eqn:E.
  - cbn [Js.trimStart]. destruct (Js.isWhiteSpace c); reflexivity.
  - rewrite rev_snoc.
    destruct (String.rev (String d t)) eqn:E'; [|reflexivity].
    apply rev_empty in E'. discriminate.
Qed.

Lemma trimEnd_idem s : Js.trimEnd (Js.trimEnd s) = Js.trimEnd s.
Proof.
  unfold Js.trimEnd. rewrite JsFacts.rev_involutive, trimStart_idem.
  reflexivity.
Qed.

Lemma trimStart_trimEnd s :
  Js.trimStart (Js.trimEnd s) = Js.trimEnd (Js.trimStart s).
Proof.
  induction s as [|c s IH]; [reflexivity|].
  cbn [Js.trimStart]. destruct (Js.isWhiteSpace c) eqn:E.
  - rewrite <- IH, trimEnd_cons, E.
    destruct (Js.trimEnd s) eqn:E'; [reflexivity|].
    cbn [Js.trimStart]. rewrite E. reflexivity.
  - rewrite trimEnd_cons, E.
    destruct (Js.trimEnd s); cbn [Js.trimStart]; rewrite E; reflexivity.
Qed.

Lemma trim_idem s : Js.trim (Js.trim s) = Js.trim s.
Proof.
  unfold Js.trim.
  rewrite trimStart_trimEnd, trimStart_idem, trimEnd_idem. reflexivity.
Qed.

End TrimFacts.

Section ParserEdges.

(** X11. [parseVector] reads its argument up to surrounding white space: an
    input that is not white space only gets the result of its trimmed form,
    and an input of white space only is not reported as empty but as
    lacking the prefix. *)
Theorem parseVector_ignores_blanks (V : string) :
  (Js.trim V <> "" -> parseVector V = parseVector (Js.trim V)) /\
  (V <> "" -> Js.trim V = "" ->
   parseVector V = mkParseResult None false (Some "Must start with CVSS:4.0/")).
Proof.
  split.
  - intros Ht. unfold parseVector.
    destruct (String.eqb_spec V "") as [->|_]; [exfalso; apply Ht; reflexivity|].
    destruct (String.eqb_spec (Js.trim V) "") as [E|_]; [contradiction|].
    cbv zeta. rewrite TrimFacts.trim_idem. reflexivity.
  - intros Hne Ht. unfold parseVector.
    destruct (String.eqb_spec V "") as [E|_]; [contradiction|].
    cbv zeta. rewrite Ht. reflexivity.
Qed.

(** A vector with a leading blank and a trailing line feed, and a blank *)
Lemma parseVector_ignores_blanks_witness :
  let V := " CVSS:4.0/AV:N/AC:L/AT:N/PR:N/UI:N/VC:H/VI:H/VA:H/SC:N/SI:N/SA:N" +:+
           String (ascii_of_nat 10) "" in
  (parseVector V = parseVector (Js.trim V)) /\
  parseVector " " = mkParseResult None false (Some "Must start with CVSS:4.0/").
Proof.
  intros V. split.
  - apply (proj1 (parseVector_ignores_blanks V)). vm_compute. discriminate.
  - apply (proj2 (parseVector_ignores_blanks " ")); [discriminate|reflexivity].
Defined.

(** X12. [vectorToScore] fails exactly when [parseVector] does, and then
    with the parser's error and neither score nor severity; for a vector
    that parses, it returns a score among 0.0, 0.1, ..., 10.0 with the
    severity of that score. The error "Could not calculate score" is never
    returned. *)
Theorem vectorToScore_fails_as_parser (V : string) :
  (isValid (parseVector V) = false ->
     vectorToScore V = mkVectorScore None None false (error (parseVector V))) /\
  (isValid (parseVector V) = true ->
     exists (n : nat) (s : float),
       n <= 100 /\ s = tenths n /\
       vectorToScore V =
       mkVectorScore (Some s) (scoreToSeverity (Some s)) true None) /\
  vs_error (vectorToScore V) <> Some "Could not calculate score".
Proof.
  assert (Hs : forall M, exists n s, n <= 100 /\ s = tenths n /\
                 calculateScore M = Some s).
  { intros M. rewrite calculateScore_onSummaries.
    destruct (tenthsList_spec _ (all5_spec _ M scores_tenths)) as (n & Hn & E).
    exists n. eexists. split; [exact Hn|]. split; [exact E|reflexivity]. }
  assert (Hm : isValid (parseVector V) = true ->
               exists M, metrics (parseVector V) = Some M).
  { intros H. destruct (parseVector_valid_inv V H) as [HM _]. eauto. }
  unfold vectorToScore. cbv zeta.
  destruct (isValid (parseVector V)) eqn:E; cbn [negb].
  - destruct (Hm eq_refl) as [M HM]. rewrite HM. cbn.
    destruct (Hs M) as (n & s & Hn & Hsn & Hc). rewrite Hc.
    split; [discriminate|]. split; [|discriminate].
    intros _. exists n, s. auto.
  - split; [reflexivity|]. split; [discriminate|].
    cbn [vs_error]. unfold parseVector in *.
    destruct (String.eqb V ""); [discriminate|]. cbv zeta in *.
    destruct (negb _); [discriminate|].
    revert E. generalize (fold_left parseToken
      (Js.split "/" (Js.replace (Js.trim V) "CVSS:4.0/" "")) ∅).
    intros M. generalize BASE_METRIC_ORDER. intros keys.
    induction keys as [|key keys IH]; cbn [validateBase]; [discriminate|].
    destruct (M !! key) as [[|c v]|]; cbn [error]; try discriminate.
    destruct (_ && _); cbn [error]; [discriminate|exact IH].
Qed.

(** A vector that parses, and one without the prefix *)
Lemma vectorToScore_fails_as_parser_witness :
  vectorToScore "CVSS:3.1/AV:N" =
    mkVectorScore None None false (error (parseVector "CVSS:3.1/AV:N")) /\
  exists (n : nat) (s : float),
    n <= 100 /\ s = tenths n /\
    vectorToScore
      "CVSS:4.0/AV:N/AC:L/AT:N/PR:N/UI:N/VC:H/VI:H/VA:H/SC:N/SI:N/SA:N" =
    mkVectorScore (Some s) (scoreToSeverity (Some s)) true None.
Proof.
  split.
  - apply (proj1 (vectorToScore_fails_as_parser "CVSS:3.1/AV:N")). reflexivity.
  - apply (proj1 (proj2 (vectorToScore_fails_as_parser
      "CVSS:4.0/AV:N/AC:L/AT:N/PR:N/UI:N/VC:H/VI:H/VA:H/SC:N/SI:N/SA:N"))).
    vm_compute. reflexivity.
Defined.






(** X14. The vector that [buildVector] writes for a metrics object whose
    base values, as written (a default for an absent or empty one), are in
    their enumerations is in canonical form: it parses, valid, to an object
    of exactly the eleven base metrics, and [buildVector] of that object is
    the same string. *)
Theorem buildVector_canonical (m : gmap string string) :
  (forall k, In k BASE_METRIC_ORDER -> In (baseValue m k) (enumOf k)) ->
  exists M : gmap string string,
    parseVector (buildVector m) = mkParseResult (Some M) true None /\
    (forall k, In k BASE_METRIC_ORDER -> M !! k = Some (baseValue m k)) /\
    (forall k, ~ In k BASE_METRIC_ORDER -> M !! k = None) /\
    buildVector M = buildVector m.
Proof.
  intros Henum. destruct (parseVector_buildVector m Henum) as [_ Hparse].
  exists (baseOnly m). split; [exact Hparse|].
  split; [apply baseOnly_base|]. split; [apply baseOnly_other|].
  rewrite !buildVector_tokens. f_equal. f_equal.
  apply map_ext_in. intros k Hk. unfold baseToken, baseValue.
  rewrite (baseOnly_base m k Hk).
  destruct (enum_value_simple k _ Hk (Henum k Hk)) as (_ & _ & Ht & _).
  unfold Js.or at 1. rewrite Ht. reflexivity.
Qed.

(** An object with one base metric and one threat metric *)
Lemma buildVector_canonical_witness :
  let m : gmap string string := {[ "VC" := "H"; "E" := "U" ]} in
  exists M : gmap string string,
    parseVector (buildVector m) = mkParseResult (Some M) true None /\
    (forall k, In k BASE_METRIC_ORDER -> M !! k = Some (baseValue m k)) /\
    (forall k, ~ In k BASE_METRIC_ORDER -> M !! k = None) /\
    buildVector M = buildVector m.
Proof.
  intros m. apply (buildVector_canonical m).
  intros k Hk. unfold BASE_METRIC_ORDER in Hk. cbn [In] in Hk.
  repeat (destruct Hk as [<-|Hk]; [vm_compute; tauto|]). destruct Hk.
Defined.

End ParserEdges.

(** * Severity labels and their order *)

Module OrderFacts.

#[local] Open Scope float_scope.

Lemma lexCompare_le_trans a b c :
  lexCompare a b <> Gt -> lexCompare b c <> Gt -> lexCompare a c <> Gt.
Proof.
  destruct a as [[a1 a2] a3], b as [[b1 b2] b3], c as [[c1 c2] c3].
  unfold lexCompare.
  destruct (Z.compare_spec a1 b1), (Z.compare_spec b1 c1),
    (Z.compare_spec a2 b2), (Z.compare_spec b2 c2),
    (Z.compare_spec a3 b3), (Z.compare_spec b3 c3);
    try congruence; intros _ _; subst;
    repeat (match goal with
            | |- context [(?x ?= ?y)%Z] => destruct (Z.compare_spec x y)
            end; try lia; try discriminate).
Qed.

Lemma leb_trans x y z :
  (x <=? y) = true -> (y <=? z) = true -> (x <=? z) = true.
Proof.
  rewrite !FloatAxioms.leb_spec. unfold SFleb.
  destruct (SFcompare (Prim2SF x) (Prim2SF y)) as [c1|] eqn:E1; [|discriminate].
  destruct (SFcompare (Prim2SF y) (Prim2SF z)) as [c2|] eqn:E2; [|discriminate].
  destruct (FloatFacts.SFcompare_Some_not_nan _ _ _ E1) as [Hx Hy].
  destruct (FloatFacts.SFcompare_Some_not_nan _ _ _ E2) as [_ Hz].
  rewrite FloatFacts.SFcompare_rank in E1, E2 |- * by assumption.
  injection E1 as <-. injection E2 as <-. intros H1 H2.
  pose proof (lexCompare_le_trans (rank (Prim2SF x)) (rank (Prim2SF y))
                (rank (Prim2SF z))) as H.
  destruct (lexCompare (rank (Prim2SF x)) (rank (Prim2SF z)));
    [reflexivity|reflexivity|].
  exfalso. apply H; [| |reflexivity].
  - destruct (lexCompare (rank (Prim2SF x)) (rank (Prim2SF y)));
      [discriminate|discriminate|discriminate H1].
  - destruct (lexCompare (rank (Prim2SF y)) (rank (Prim2SF z)));
      [discriminate|discriminate|discriminate H2].
Qed.

Lemma leb_not_nan_l x y : (x <=? y) = true -> is_nan x = false.
Proof.
  rewrite FloatAxioms.leb_spec. intros H.
  destruct (is_nan x) eqn:E; [|reflexivity].
  apply FloatFacts.is_nan_Prim2SF in E. rewrite E in H. discriminate.
Qed.

End OrderFacts.

Section SeverityLabels.

(** X15. The severity label follows the score in the order of
    [SEVERITY_ORDER]: of two scores, the one that is not below the other
    gets a label whose rank is not below the rank of the other's label. *)
Theorem severity_rank_follows_score (a b : float) :
  (a <=? b)%float = true ->
  exists (la lb : string) (ra rb : float),
    scoreToSeverity (Some a) = Some la /\
    scoreToSeverity (Some b) = Some lb /\
    Js.prop SEVERITY_ORDER la = Some ra /\
    Js.prop SEVERITY_ORDER lb = Some rb /\
    (ra <=? rb)%float = true.
Proof.
  intros Hab.
  assert (Ha := OrderFacts.leb_not_nan_l a b Hab).
  assert (Hb := FloatFacts.leb_not_nan_r a b Hab).
  assert (H9 := fun H => OrderFacts.leb_trans 9 a b H Hab).
  assert (H7 := fun H => OrderFacts.leb_trans 7 a b H Hab).
  assert (H4 := fun H => OrderFacts.leb_trans 4 a b H Hab).
  assert (H0 := fun H => FloatFacts.ltb_leb_trans 0 a b H Hab).
  unfold scoreToSeverity, Num.isNaN, Num.ge, Num.gt. rewrite Ha, Hb.
  destruct (9 <=? a)%float.
  { rewrite (H9 eq_refl). repeat eexists; reflexivity. }
  destruct (7 <=? a)%float.
  { rewrite (H7 eq_refl). destruct (9 <=? b)%float; repeat eexists; reflexivity. }
  destruct (4 <=? a)%float.
  { rewrite (H4 eq_refl).
    destruct (9 <=? b)%float, (7 <=? b)%float; repeat eexists; reflexivity. }
  destruct (0 <? a)%float.
  { rewrite (H0 eq_refl).
    destruct (9 <=? b)%float, (7 <=? b)%float, (4 <=? b)%float;
      repeat eexists; reflexivity. }
  destruct (9 <=? b)%float, (7 <=? b)%float, (4 <=? b)%float, (0 <? b)%float;
    repeat eexists; reflexivity.
Qed.

(** The scores 6.9 and 7.0 *)
Lemma severity_rank_follows_score_witness :
  exists (la lb : string) (ra rb : float),
    scoreToSeverity (Some 6.9%float) = Some la /\
    scoreToSeverity (Some 7%float) = Some lb /\
    Js.prop SEVERITY_ORDER la = Some ra /\
    Js.prop SEVERITY_ORDER lb = Some rb /\
    (ra <=? rb)%float = true.
Proof.
  apply (severity_rank_follows_score 6.9%float 7%float). reflexivity.
Defined.

Ltac by_label s :=
  destruct (String.eqb "CRITICAL" s);
  [|destruct (String.eqb "HIGH" s);
    [|destruct (String.eqb "MEDIUM" s);
      [|destruct (String.eqb "LOW" s);
        [|destruct (String.eqb "INFO" s)]]]].

(** X16. For every argument, a label or not, the class string of
    [getSeverityBadgeClass] begins with the class string of
    [getSeverityTextClass] followed by a blank: the badge has the colour of
    the text, and adds to it. *)
Theorem badge_class_extends_text_class (severity : option string) :
  Js.startsWith (getSeverityBadgeClass severity)
                (getSeverityTextClass severity +:+ " ") = true.
Proof.
  destruct severity as [s|]; [|reflexivity].
  unfold getSeverityBadgeClass, getSeverityTextClass, switchReturn.
  cbn [Js.prop]. by_label s; reflexivity.
Qed.

(** X17. Every label that [scoreToSeverity] gives has a colour of its own
    in badges and text, never the neutral default; in bars and dots the
    labels above INFO have their colours, the same in both, and INFO is
    drawn in the neutral default. *)
Theorem severity_colours_of_scores (score : float) (label : string) :
  scoreToSeverity (Some score) = Some label ->
  getSeverityBadgeClass (Some label) <> getSeverityBadgeClass None /\
  getSeverityTextClass (Some label) <> getSeverityTextClass None /\
  (label <> "INFO" ->
     getSeverityBarClass (Some label) = getSeverityDotClass (Some label) /\
     getSeverityBarClass (Some label) <> getSeverityBarClass None) /\
  (label = "INFO" ->
     getSeverityBarClass (Some label) = getSeverityBarClass None /\
     getSeverityDotClass (Some label) = getSeverityDotClass None).
Proof.
  unfold scoreToSeverity, Num.isNaN, Num.ge, Num.gt.
  destruct (is_nan score); [discriminate|].
  destruct (9 <=? score)%float;
    [|destruct (7 <=? score)%float;
      [|destruct (4 <=? score)%float; [|destruct (0 <? score)%float]]];
    intros [= <-]; (split; [discriminate|]); (split; [discriminate|]);
    split; intros H; try discriminate H; try (exfalso; apply H; reflexivity);
    split; try reflexivity; discriminate.
Qed.

(** The score 9.5 *)
Lemma severity_colours_of_scores_witness :
  getSeverityBadgeClass (Some "CRITICAL") <> getSeverityBadgeClass None /\
  getSeverityTextClass (Some "CRITICAL") <> getSeverityTextClass None /\
  ("CRITICAL" <> "INFO" ->
     getSeverityBarClass (Some "CRITICAL") =
       getSeverityDotClass (Some "CRITICAL") /\
     getSeverityBarClass (Some "CRITICAL") <> getSeverityBarClass None) /\
  ("CRITICAL" = "INFO" ->
     getSeverityBarClass (Some "CRITICAL") = getSeverityBarClass None /\
     getSeverityDotClass (Some "CRITICAL") = getSeverityDotClass None).
Proof.
  apply (severity_colours_of_scores 9.5%float "CRITICAL"). reflexivity.
Defined.

End SeverityLabels.

(** * The calculator component *)

Section Calculator.

Lemma list_to_map_prop (l : list (string * string)) (k : string) :
  (list_to_map l : gmap string string) !! k = Js.prop l k.
Proof.
  induction l as [|[a v] l IH]; [apply lookup_empty|].
  cbn [list_to_map foldr fst snd Js.prop].
  destruct (String.eqb_spec a k) as [E|Hne].
  - subst a. apply lookup_insert_eq.
  - rewrite lookup_insert_ne by exact Hne. exact IH.
Qed.

Lemma defaults_lookup (k : string) :
  (list_to_map CVSS4_DEFAULTS : gmap string string) !! k =
  Js.prop CVSS4_DEFAULTS k.
Proof. apply list_to_map_prop. Qed.

Lemma defaults_keys (k : string) :
  Js.prop CVSS4_DEFAULTS k <> None -> In k BASE_METRIC_ORDER.
Proof.
  destruct (Js.prop CVSS4_DEFAULTS k) as [d|] eqn:E; [|congruence].
  intros _. exact (prop_some_in CVSS4_DEFAULTS k d E).
Qed.

(** The parsed metrics of a valid vector hold every base metric, so the
    defaults spread under them add nothing. *)
Lemma spread_defaults_valid (V : string) :
  isValid (parseVector V) = true ->
  spread (list_to_map CVSS4_DEFAULTS) (vectorAssignments V) =
  vectorAssignments V.
Proof.
  intros Hvalid. destruct (parseVector_valid_inv V Hvalid) as [_ Hok].
  unfold spread. apply map_eq. intros k. rewrite lookup_union.
  destruct (vectorAssignments V !! k) as [v|] eqn:E.
  - destruct (list_to_map CVSS4_DEFAULTS !! k); reflexivity.
  - rewrite defaults_lookup.
    destruct (Js.prop CVSS4_DEFAULTS k) as [d|] eqn:Ed; [|reflexivity].
    exfalso. assert (Hk : In k BASE_METRIC_ORDER)
      by (apply defaults_keys; congruence).
    destruct (metricStatus_ok_inv _ k (Hok k Hk)) as (v & Hv & _).
    congruence.
Qed.

(** A result of [parseVector] without an error is valid. *)
Lemma parseVector_error_none (V : string) :
  error (parseVector V) = None -> isValid (parseVector V) = true.
Proof.
  unfold parseVector. destruct (String.eqb V ""); [discriminate|]. cbv zeta.
  destruct (negb _); [discriminate|].
  generalize (fold_left parseToken
    (Js.split "/" (Js.replace (Js.trim V) "CVSS:4.0/" "")) ∅).
  intros M. generalize BASE_METRIC_ORDER. intros keys.
  induction keys as [|key keys IH]; cbn [validateBase]; [reflexivity|].
  destruct (M !! key) as [[|c v]|]; cbn [error]; try discriminate.
  destruct (_ && _); cbn [error]; [discriminate|exact IH].
Qed.

(** The severity of every metrics object is one of the five labels. *)
Lemma severity_label (m : gmap string string) :
  exists label, ms_severity (metricsToScore m) = Some label /\
                In label ["CRITICAL"; "HIGH"; "MEDIUM"; "LOW"; "INFO"].
Proof.
  unfold metricsToScore. cbn [ms_severity].
  rewrite calculateScore_onSummaries.
  pose proof (all5_spec _ m scores_bounded) as Hb.
  unfold onSummaries in *. cbv zeta in *.
  set (s := scoreFast _ _ _ _ _) in *.
  apply andb_true_iff in Hb as [Hb _].
  apply FloatFacts.leb_not_nan_r in Hb.
  unfold scoreToSeverity, Num.isNaN. rewrite Hb.
  destruct (Num.ge s 9); [eexists; split; [reflexivity|cbn; tauto]|].
  destruct (Num.ge s 7); [eexists; split; [reflexivity|cbn; tauto]|].
  destruct (Num.ge s 4); [eexists; split; [reflexivity|cbn; tauto]|].
  destruct (Num.gt s 0); eexists; (split; [reflexivity|cbn; tauto]).
Qed.

Lemma handleVectorInput_step (raw : string) (st : CalculatorState) :
  (isValid (parseVector raw) = true ->
     handleVectorInput raw st =
       mkCalculatorState (vectorAssignments raw) raw None) /\
  (isValid (parseVector raw) = false ->
     handleVectorInput raw st =
       mkCalculatorState (st_metrics st) raw (error (parseVector raw))).
Proof.
  split.
  - intros Hvalid. destruct (parseVector_valid_inv raw Hvalid) as [HM _].
    unfold handleVectorInput. cbv zeta. rewrite Hvalid, HM.
    rewrite (spread_defaults_valid raw Hvalid). reflexivity.
  - intros Hinvalid. unfold handleVectorInput. cbv zeta.
    rewrite Hinvalid. reflexivity.
Qed.

(** X18. Typing a vector into the calculator: a vector that parses
    replaces the metrics by exactly its assignments (the defaults spread
    under them add nothing), clears the error, and the score and severity
    then shown are those of [vectorToScore]; a vector that does not parse
    leaves the metrics as they are and sets the parser's error, which is
    never missing. In both cases the text typed is kept. *)
Theorem handleVectorInput_follows_parser (raw : string) (st : CalculatorState) :
  (isValid (parseVector raw) = true ->
     handleVectorInput raw st =
       mkCalculatorState (vectorAssignments raw) raw None /\
     ms_score (metricsToScore (st_metrics (handleVectorInput raw st))) =
       vs_score (vectorToScore raw) /\
     ms_severity (metricsToScore (st_metrics (handleVectorInput raw st))) =
       vs_severity (vectorToScore raw)) /\
  (isValid (parseVector raw) = false ->
     handleVectorInput raw st =
       mkCalculatorState (st_metrics st) raw (error (parseVector raw)) /\
     error (parseVector raw) <> None).
Proof.
  split.
  - intros Hvalid. destruct (parseVector_valid_inv raw Hvalid) as [HM _].
    assert (E := proj1 (handleVectorInput_step raw st) Hvalid).
    split; [exact E|]. rewrite E. cbn [st_metrics].
    unfold vectorToScore, metricsToScore. cbv zeta.
    rewrite Hvalid, HM. cbn [negb mbind option_bind ms_score ms_severity].
    destruct (calculateScore_some (vectorAssignments raw)) as [s Hs].
    rewrite Hs. split; reflexivity.
  - intros Hinvalid. split.
    + exact (proj2 (handleVectorInput_step raw st) Hinvalid).
    + intros E. apply parseVector_error_none in E. congruence.
Qed.

(** A vector that parses, and one with a value outside its enumeration *)
Lemma handleVectorInput_follows_parser_witness :
  let V := "CVSS:4.0/AV:N/AC:L/AT:N/PR:N/UI:N/VC:H/VI:H/VA:H/SC:N/SI:N/SA:N" in
  let W := "CVSS:4.0/AV:Z" in
  (handleVectorInput V initialState =
     mkCalculatorState (vectorAssignments V) V None /\
   ms_score (metricsToScore (st_metrics (handleVectorInput V initialState))) =
     vs_score (vectorToScore V) /\
   ms_severity (metricsToScore (st_metrics (handleVectorInput V initialState))) =
     vs_severity (vectorToScore V)) /\
  (handleVectorInput W initialState =
     mkCalculatorState (st_metrics initialState) W (error (parseVector W)) /\
   error (parseVector W) <> None).
Proof.
  intros V W. split.
  - apply (proj1 (handleVectorInput_follows_parser V initialState)).
    vm_compute. reflexivity.
  - apply (proj2 (handleVectorInput_follows_parser W initialState)).
    vm_compute. reflexivity.
Defined.

Lemma buttons_enum (key value : string) :
  In (key, value) buttons -> In key BASE_METRIC_ORDER /\ In value (enumOf key).
Proof.
  intros H. vm_compute in H.
  repeat (destruct H as [[= <- <-]|H]; [split; vm_compute; tauto|]).
  destruct H.
Qed.

Lemma baseComplete_parsed (V : string) :
  isValid (parseVector V) = true -> baseComplete (vectorAssignments V).
Proof.
  intros Hvalid k Hk. destruct (parseVector_valid_inv V Hvalid) as [_ Hok].
  destruct (metricStatus_ok_inv _ k (Hok k Hk)) as (v & Hv & Hin & _).
  exists v. split; assumption.
Qed.

Lemma baseComplete_initial : baseComplete (st_metrics initialState).
Proof.
  intros k Hk. cbn [st_metrics initialState]. rewrite defaults_lookup.
  unfold BASE_METRIC_ORDER in Hk. cbn [In] in Hk.
  repeat (destruct Hk as [<-|Hk];
          [eexists; split; [reflexivity|vm_compute; tauto]|]).
  destruct Hk.
Qed.

(** The calculator keeps every base metric at a value of its enumeration. *)
Lemma reachableState_baseComplete (st : CalculatorState) :
  reachableState st -> baseComplete (st_metrics st).
Proof.
  induction 1 as [|st st' _ IH Hstep]; [exact baseComplete_initial|].
  destruct Hstep as [key value st Hb|raw st|iv st|st].
  - destruct (buttons_enum key value Hb) as [_ Hv].
    intros k Hk. cbn [handleMetric st_metrics].
    destruct (decide (key = k)) as [<-|Hne].
    + exists value. rewrite lookup_insert_eq. split; [reflexivity|exact Hv].
    + rewrite lookup_insert_ne by exact Hne. apply IH, Hk.
  - destruct (isValid (parseVector raw)) eqn:Hvalid.
    + rewrite (proj1 (handleVectorInput_step raw st) Hvalid).
      apply baseComplete_parsed, Hvalid.
    + rewrite (proj2 (handleVectorInput_step raw st) Hvalid). exact IH.
  - unfold loadInitialVector. destruct (Js.truthy iv); [|exact IH]. cbv zeta.
    destruct (isValid (parseVector (Js.template iv))) eqn:Hvalid; [|exact IH].
    destruct (parseVector_valid_inv _ Hvalid) as [HM _]. rewrite HM.
    cbn [st_metrics]. rewrite (spread_defaults_valid _ Hvalid).
    apply baseComplete_parsed, Hvalid.
  - exact IH.
Qed.

Lemma calculateScore_tenth (m : gmap string string) :
  exists n, n <= 100 /\ calculateScore m = Some (tenths n).
Proof.
  rewrite calculateScore_onSummaries.
  destruct (tenthsList_spec _ (all5_spec _ m scores_tenths)) as (n & Hn & E).
  exists n. split; [exact Hn|]. f_equal. exact E.
Qed.

Lemma baseComplete_baseValue (m : gmap string string) (k : string) :
  baseComplete m -> In k BASE_METRIC_ORDER ->
  m !! k = Some (baseValue m k) /\ In (baseValue m k) (enumOf k).
Proof.
  intros Hm Hk. destruct (Hm k Hk) as (v & Hv & Hin).
  destruct (enum_value_simple k v Hk Hin) as (_ & _ & Ht & _).
  unfold baseValue, Js.or. rewrite Hv, Ht. cbn [Js.template].
  split; [reflexivity|exact Hin].
Qed.

(** X19. Whatever buttons are pressed and whatever is typed or loaded, the
    calculator holds every base metric at a value of its enumeration, and
    what its effect reports through [onChange] is a vector string that
    [parseVector] accepts and that assigns the base metrics of the state,
    together with a score among 0.0, ..., 10.0 and a severity label; the
    effect puts that vector into the text field and clears the error. *)
Theorem calculator_reports_valid_vectors (st : CalculatorState) :
  reachableState st ->
  baseComplete (st_metrics st) /\
  exists (vector : string) (n : nat) (label : string),
    metricsEffect st =
      (mkCalculatorState (st_metrics st) vector None,
       (vector, Some (tenths n), Some label)) /\
    n <= 100 /\
    isValid (parseVector vector) = true /\
    forall k, In k BASE_METRIC_ORDER ->
      vectorAssignments vector !! k = st_metrics st !! k.
Proof.
  intros Hr. pose proof (reachableState_baseComplete st Hr) as Hm.
  split; [exact Hm|].
  set (m := st_metrics st) in *.
  destruct (calculateScore_tenth m) as (n & Hn & E).
  destruct (severity_label m) as (label & Hl & _).
  destruct (parseVector_buildVector m) as [_ Hparse].
  { intros k Hk. apply (baseComplete_baseValue m k Hm Hk). }
  exists (buildVector m), n, label.
  split; [|split; [exact Hn|split]].
  - unfold metricsEffect. fold m. rewrite Hl.
    unfold metricsToScore. cbn [ms_vector ms_score].
    rewrite E. reflexivity.
  - rewrite Hparse. reflexivity.
  - intros k Hk.
    assert (Hv : isValid (parseVector (buildVector m)) = true)
      by (rewrite Hparse; reflexivity).
    destruct (parseVector_valid_inv _ Hv) as [HM _].
    rewrite Hparse in HM. cbn [metrics] in HM. injection HM as <-.
    rewrite (baseOnly_base m k Hk).
    symmetry. apply (baseComplete_baseValue m k Hm Hk).
Qed.

(** A vector typed into the fresh calculator, then a button pressed *)
Lemma calculator_reports_valid_vectors_witness :
  let st :=
    handleMetric "SC" "H"
      (handleVectorInput
         "CVSS:4.0/AV:N/AC:L/AT:N/PR:N/UI:N/VC:H/VI:H/VA:H/SC:N/SI:N/SA:N/E:U"
         initialState) in
  baseComplete (st_metrics st) /\
  exists (vector : string) (n : nat) (label : string),
    metricsEffect st =
      (mkCalculatorState (st_metrics st) vector None,
       (vector, Some (tenths n), Some label)) /\
    n <= 100 /\
    isValid (parseVector vector) = true /\
    forall k, In k BASE_METRIC_ORDER ->
      vectorAssignments vector !! k = st_metrics st !! k.
Proof.
  intros st. apply (calculator_reports_valid_vectors st).
  apply (reachableState_step (handleVectorInput
         "CVSS:4.0/AV:N/AC:L/AT:N/PR:N/UI:N/VC:H/VI:H/VA:H/SC:N/SI:N/SA:N/E:U"
         initialState)).
  - apply (reachableState_step initialState); [apply reachableState_initial|].
    apply step_input.
  - apply step_button. vm_compute. tauto.
Defined.

(** X20. In every state of the calculator the banner has the style of a
    severity label: the severity of the metrics is one of the keys of
    [SEVERITY_STYLES], and [severityStyle] is the style of that key, never
    the neutral fallback and never undefined. *)
Theorem severityStyle_of_label (st : CalculatorState) :
  exists label style : string,
    ms_severity (metricsToScore (st_metrics st)) = Some label /\
    Js.prop SEVERITY_STYLES label = Some style /\
    severityStyle st = Some style /\
    style <> "bg-neutral-500/10 text-neutral-400 border-neutral-500/20".
Proof.
  destruct (severity_label (st_metrics st)) as (label & Hl & Hin).
  unfold severityStyle. cbv zeta. rewrite Hl. cbn [In] in Hin.
  repeat (destruct Hin as [<-|Hin];
    [eexists; eexists; split; [reflexivity|];
     split; [reflexivity|]; split; [reflexivity|discriminate]|]).
  destruct Hin.
Qed.

End Calculator.

(** * Absent metrics *)

Section Defaults.

(** X21. An absent metric scores as its default: for every metric of
    [METRIC_LEVELS], the object without the metric gets the score and
    severity of the object that holds the metric at the value it resolves to
    in the empty object, which is A for E, H for CR, IR and AR (the worst
    case), L for AC and N for every other metric. *)
Theorem absent_scores_as_default (m : gmap string string) (k : string) :
  In k scoredMetrics ->
  ms_score (metricsToScore (delete k m)) =
    ms_score (metricsToScore (<[k := effectiveValue ∅ k]> m)) /\
  ms_severity (metricsToScore (delete k m)) =
    ms_severity (metricsToScore (<[k := effectiveValue ∅ k]> m)) /\
  effectiveValue ∅ k =
    default "N" (Js.prop [("E", "A"); ("CR", "H"); ("IR", "H"); ("AR", "H");
                          ("AC", "L")] k).
Proof.
  intros Hk.
  assert (Hd : definedNotX (Some (effectiveValue ∅ k)) = true /\
               effectiveValue ∅ k =
               default "N" (Js.prop [("E", "A"); ("CR", "H"); ("IR", "H");
                                     ("AR", "H"); ("AC", "L")] k)).
  { vm_compute in Hk.
    repeat (destruct Hk as [<-|Hk]; [split; reflexivity|]). destruct Hk. }
  destruct Hd as [Hd Hval].
  assert (Hw : effectiveValue ∅ k =
    if Js.truthy (Js.prop [("E", "A"); ("CR", "H"); ("IR", "H"); ("AR", "H")] k)
    then Js.template
           (Js.prop [("E", "A"); ("CR", "H"); ("IR", "H"); ("AR", "H")] k)
    else Js.template (Js.or (Js.prop CVSS4_DEFAULTS k) (Some "N")))
    by (unfold effectiveValue; rewrite !lookup_empty; reflexivity).
  revert Hd Hval Hw. generalize (effectiveValue ∅ k). intros d Hd Hval Hw.
  assert (Hns : forall k', In k' scoredMetrics -> k <> "M" +:+ k').
  { intros k' _ E. vm_compute in Hk.
    repeat (destruct Hk as [<-|Hk]; [discriminate E|]). destruct Hk. }
  cut (ms_score (metricsToScore (delete k m)) =
         ms_score (metricsToScore (<[k := d]> m)) /\
       ms_severity (metricsToScore (delete k m)) =
         ms_severity (metricsToScore (<[k := d]> m)));
    [intros [H1 H2]; split; [exact H1|split; [exact H2|exact Hval]]|].
  apply metricsToScore_reads, calculateScore_reads.
  - intros k' Hk'. unfold effectiveValue.
    rewrite lookup_delete_ne, (lookup_insert_ne m k) by (apply Hns, Hk').
    destruct (definedNotX (m !! ("M" +:+ k'))); [reflexivity|].
    destruct (decide (k = k')) as [<-|Hne].
    + rewrite lookup_delete_eq, lookup_insert_eq, Hd. symmetry. exact Hw.
    + rewrite lookup_delete_ne, lookup_insert_ne by exact Hne. reflexivity.
  - unfold safetyFlag.
    rewrite lookup_delete_ne, lookup_insert_ne
      by (apply (Hns "SI"); vm_compute; tauto).
    reflexivity.
  - unfold safetyFlag.
    rewrite lookup_delete_ne, lookup_insert_ne
      by (apply (Hns "SA"); vm_compute; tauto).
    reflexivity.
Qed.

(** No exploit maturity, and exploit maturity A *)
Lemma absent_scores_as_default_witness :
  let m : gmap string string := {[ "VC" := "H"; "E" := "U" ]} in
  ms_score (metricsToScore (delete "E" m)) =
    ms_score (metricsToScore (<["E" := effectiveValue ∅ "E"]> m)) /\
  ms_severity (metricsToScore (delete "E" m)) =
    ms_severity (metricsToScore (<["E" := effectiveValue ∅ "E"]> m)) /\
  effectiveValue ∅ "E" =
    default "N" (Js.prop [("E", "A"); ("CR", "H"); ("IR", "H"); ("AR", "H");
                          ("AC", "L")] "E").
Proof.
  intros m. apply (absent_scores_as_default m "E"). vm_compute. tauto.
Defined.

End Defaults.

(** * The distances and the rounding *)

Section Distances.

(** X22. For every metrics object the scoring composes at least one max
    vector, and the distances that [severityDistances] computes against any
    of them have an entry for each of the fifteen metrics of
    [METRIC_LEVELS], in that order: no distance that [calculateScore] sums is
    missing. *)
Theorem severityDistances_complete (m : gmap string string) :
  maxVectorsOf (macroDigits m) <> [] /\
  forall s, In s (maxVectorsOf (macroDigits m)) ->
    map fst (severityDistances m s) = scoredMetrics.
Proof.
  pose proof (macroDigits_reachable m) as Hd. split.
  - assert (H : forallb (fun d => negb (Nat.eqb (length (maxVectorsOf d)) 0))
                        reachableDigits = true) by (vm_compute; reflexivity).
    rewrite forallb_forall in H. specialize (H _ Hd).
    intros E. rewrite E in H. discriminate.
  - intros s Hs. pose proof (maxVectors_complete _ s Hd Hs) as Hc.
    rewrite severityDistances_extracted. unfold entryComplete in Hc.
    apply andb_prop in Hc as [Hc _]. apply bool_decide_eq_true in Hc.
    rewrite <- Hc. unfold distancesOf. rewrite map_map.
    apply map_ext. intros [[metric levels] maxVal]. reflexivity.
Qed.

Lemma groupSearch_summaries (m : gmap string string) :
  groupSearch (effectiveValue m) (macroDigits m) = onSummaries summarySums m.
Proof. rewrite macroDigits_eqOf. reflexivity. Qed.

Lemma firstSome_some {A B : Type} (f : A -> option B) (l : list A) (y : B) :
  firstSome f l = Some y -> exists x, In x l /\ f x = Some y.
Proof.
  induction l as [|x l IH]; [discriminate|]. cbn [firstSome].
  destruct (f x) as [z|] eqn:E.
  - intros [= <-]. exists x. split; [left; reflexivity|exact E].
  - intros H. destruct (IH H) as (x' & Hin & Hx').
    exists x'. split; [right; exact Hin|exact Hx'].
Qed.

Lemma level_value (k v : string) :
  Js.prop (levelsOfMetric k) v <> None -> In v (map fst (levelsOfMetric k)).
Proof.
  destruct (Js.prop (levelsOfMetric k) v) as [x|] eqn:E; [|congruence].
  intros _. exact (prop_some_in _ _ _ E).
Qed.

Ltac take H x Hx := rewrite forallb_forall in H; specialize (H x Hx).

(** X24. When every metric of [METRIC_LEVELS] resolves to a value that has
    a level, and SI and SA resolve to S only by MSI and MSA being S, then
    one of the composed max vectors passes the distance test: the score is
    interpolated, and the fallback to the bare table value is not taken. *)
Theorem valid_values_find_max_vector (m : gmap string string) :
  (forall k, In k scoredMetrics ->
     Js.prop (levelsOfMetric k) (effectiveValue m k) <> None) ->
  (effectiveValue m "SI" = "S" -> m !! "MSI" = Some "S") ->
  (effectiveValue m "SA" = "S" -> m !! "MSA" = Some "S") ->
  exists (s : string) (d : list (string * float)),
    In s (maxVectorsOf (macroDigits m)) /\
    checkDistances (severityDistances m s) = Some d.
Proof.
  intros Hlv HSI HSA.
  assert (Hin : forall k, In k scoredMetrics ->
            In (effectiveValue m k) (map fst (levelsOfMetric k))).
  { intros k Hk. apply level_value, Hlv, Hk. }
  set (ev := effectiveValue m) in *.
  assert (H1 : forallb (fun a => forallb (fun p => forallb (fun u =>
      from_option (fun _ => true) false (snd (summary1 a p u)))
      (map fst (levelsOfMetric "UI"))) (map fst (levelsOfMetric "PR")))
      (map fst (levelsOfMetric "AV")) = true) by (vm_compute; reflexivity).
  take H1 (ev "AV") (Hin "AV" ltac:(vm_compute; tauto)).
  take H1 (ev "PR") (Hin "PR" ltac:(vm_compute; tauto)).
  take H1 (ev "UI") (Hin "UI" ltac:(vm_compute; tauto)).
  assert (H2 : forallb (fun a => forallb (fun p =>
      from_option (fun _ => true) false (snd (summary2 a p)))
      (map fst (levelsOfMetric "AT"))) (map fst (levelsOfMetric "AC")) = true)
    by (vm_compute; reflexivity).
  take H2 (ev "AC") (Hin "AC" ltac:(vm_compute; tauto)).
  take H2 (ev "AT") (Hin "AT" ltac:(vm_compute; tauto)).
  assert (H36 : forallb (fun vc => forallb (fun vi => forallb (fun va =>
      forallb (fun cr => forallb (fun ir => forallb (fun ar =>
      from_option (fun _ => true) false
                  (snd (fst (summary36 vc vi va cr ir ar))))
      (map fst (levelsOfMetric "AR"))) (map fst (levelsOfMetric "IR")))
      (map fst (levelsOfMetric "CR"))) (map fst (levelsOfMetric "VA")))
      (map fst (levelsOfMetric "VI"))) (map fst (levelsOfMetric "VC")) = true)
    by (vm_compute; reflexivity).
  take H36 (ev "VC") (Hin "VC" ltac:(vm_compute; tauto)).
  take H36 (ev "VI") (Hin "VI" ltac:(vm_compute; tauto)).
  take H36 (ev "VA") (Hin "VA" ltac:(vm_compute; tauto)).
  take H36 (ev "CR") (Hin "CR" ltac:(vm_compute; tauto)).
  take H36 (ev "IR") (Hin "IR" ltac:(vm_compute; tauto)).
  take H36 (ev "AR") (Hin "AR" ltac:(vm_compute; tauto)).
  assert (H5 : forallb (fun e =>
      from_option (fun _ => true) false (snd (summary5 e)))
      (map fst (levelsOfMetric "E")) = true) by (vm_compute; reflexivity).
  take H5 (ev "E") (Hin "E" ltac:(vm_compute; tauto)).
  assert (H4 : forallb (fun msi => forallb (fun msa => forallb (fun sc =>
      forallb (fun si => forallb (fun sa =>
      (String.eqb si "S" && negb (String.eqb msi "S")) ||
      (String.eqb sa "S" && negb (String.eqb msa "S")) ||
      from_option (fun _ => true) false
                  (snd (fst (summary4 msi msa sc si sa))))
      (map fst (levelsOfMetric "SA"))) (map fst (levelsOfMetric "SI")))
      (map fst (levelsOfMetric "SC"))) ["S"; "X"]) ["S"; "X"] = true)
    by (vm_compute; reflexivity).
  take H4 (normSafety (safetyFlag m "MSI"))
          (normSafety_candidates (safetyFlag m "MSI")).
  take H4 (normSafety (safetyFlag m "MSA"))
          (normSafety_candidates (safetyFlag m "MSA")).
  take H4 (ev "SC") (Hin "SC" ltac:(vm_compute; tauto)).
  take H4 (ev "SI") (Hin "SI" ltac:(vm_compute; tauto)).
  take H4 (ev "SA") (Hin "SA" ltac:(vm_compute; tauto)).
  rewrite !normSafety_eqb in H4.
  assert (H4' : from_option (fun _ => true) false
                  (snd (fst (summary4 (safetyFlag m "MSI") (safetyFlag m "MSA")
                                      (ev "SC") (ev "SI") (ev "SA")))) = true).
  { rewrite (summary4_norm (safetyFlag m "MSI")).
    rewrite !normValue_id by (apply Hin; vm_compute; tauto).
    apply orb_true_iff in H4 as [H4|H4]; [|exact H4]. exfalso.
    apply orb_true_iff in H4 as [H4|H4]; apply andb_true_iff in H4 as [Hs Hf];
      apply String.eqb_eq in Hs; apply negb_true_iff in Hf.
    - unfold safetyFlag in Hf. rewrite (HSI Hs) in Hf. discriminate.
    - unfold safetyFlag in Hf. rewrite (HSA Hs) in Hf. discriminate. }
  clear H4. subst ev.
  pose proof (search_groups (effectiveValue m) _ (macroDigits_reachable m))
    as Hsearch.
  rewrite (groupSearch_summaries m) in Hsearch.
  unfold onSummaries, summarySums in Hsearch. cbv zeta in Hsearch.
  destruct (snd (summary1 _ _ _)); [|discriminate].
  destruct (snd (summary2 _ _)); [|discriminate].
  destruct (snd (fst (summary36 _ _ _ _ _ _))); [|discriminate].
  destruct (snd (fst (summary4 _ _ _ _ _))); [|discriminate].
  destruct (snd (summary5 _)); [|discriminate].
  cbn [comb fmap option_fmap option_map] in Hsearch.
  destruct (firstSome _ _) as [d|] eqn:E; [|discriminate].
  destruct (firstSome_some _ _ _ E) as (s & Hs & Hd).
  exists s, d. split; [exact Hs|].
  rewrite severityDistances_extracted. exact Hd.
Qed.

(** The eleven base metrics at their most severe values *)
Lemma valid_values_find_max_vector_witness :
  let m : gmap string string :=
    {[ "AV" := "N"; "AC" := "L"; "AT" := "N"; "PR" := "N"; "UI" := "N";
       "VC" := "H"; "VI" := "H"; "VA" := "H";
       "SC" := "H"; "SI" := "H"; "SA" := "H" ]} in
  exists (s : string) (d : list (string * float)),
    In s (maxVectorsOf (macroDigits m)) /\
    checkDistances (severityDistances m s) = Some d.
Proof.
  intros m. apply (valid_values_find_max_vector m).
  - intros k Hk. vm_compute in Hk.
    repeat (destruct Hk as [<-|Hk]; [vm_compute; discriminate|]). destruct Hk.
  - vm_compute. discriminate.
  - vm_compute. discriminate.
Defined.

(** X23. Rounding leaves a score alone: [roundHalfUp] returns each of the
    numbers 0.0, 0.1, ..., 10.0 unchanged. *)
Theorem roundHalfUp_fixes_scores (n : nat) :
  n <= 100 -> roundHalfUp (tenths n) = tenths n.
Proof.
  intros Hn.
  assert (H : forallb (fun k => Leibniz.eqb (roundHalfUp (tenths k)) (tenths k))
                      (seq 0 101) = true) by (vm_compute; reflexivity).
  rewrite forallb_forall in H.
  apply FloatAxioms.Leibniz.eqb_spec, H, in_seq. lia.
Qed.

(** The score 9.3 *)
Lemma roundHalfUp_fixes_scores_witness :
  roundHalfUp (tenths 93) = tenths 93.
Proof. apply (roundHalfUp_fixes_scores 93). lia. Defined.

End Distances.
